(** * Guest cart store, cart and checkout pages, navbar badge and auth store

    A shallow embedding of the storefront's client-side cart logic:

    - [frontend/store/cart-store.ts]  the zustand store [useCartStore]
      (guest line items, persisted under the key [guest-cart-storage]);
    - [frontend/app/cart/page.tsx]    [handleGuestUpdateQuantity], [calculateTotal];
    - [frontend/app/checkout/page.tsx] [checkoutMutation], [handleCheckout],
      [calculateTotal];
    - the navbar component            [guestCount], [itemCount], [handleLogout];
    - the auth store                  [login], [fetchUser], [logout].

    The remote calls ([apiClient.checkout], [login], [getProfile], [logout])
    are not part of the model: their outcomes are inputs of the functions
    that await them.

    Further on come what the pages render of the cart (row counts, the
    empty state, the badge), the shipping rows and the place-order button of
    the checkout page, the [handleAddToCart] of the product pages, the rest
    of the auth store ([register], [setUser]), and the API client of
    [frontend/lib/api-client.ts]: its tokens, its two interceptors, [login]
    and [logout], with the backend as a function from requests to replies.

    JavaScript values are modelled as follows.  A [number] that carries money
    (the result of [parseFloat], the totals) is an IEEE-754 binary64 value,
    represented by the Standard Library's [spec_float] at precision 53 and
    maximal exponent 1024, with its correctly rounded [SFadd] and [SFmul].
    A [quantity] is a [number] too.  The development has it twice: first as
    the integer it is meant to be (the spec's data model says so, and every
    call site passes [1], a counter, or a stored quantity plus or minus one),
    a [Z], for what does not depend on how quantities add up; then, in
    [CartStore64] and the page modules next to it, as the binary64 value
    JavaScript holds, for the sums, the counts and the orders of adds.
    [encode] takes a cart of integers to the cart of numbers, and the two
    stores agree on it as long as the quantities are non-negative and sum to
    at most 2^53.  Strings are [string]. *)

From Stdlib Require Import ZArith QArith Qpower List String Ascii Bool Lia Permutation.
From Stdlib Require Import Floats.SpecFloat.
Import ListNotations.
Local Open Scope Z_scope.
Local Open Scope string_scope.
Local Open Scope list_scope.

(** ** JavaScript numbers and [parseFloat] *)

Module JS.

Definition number : Type := spec_float.

Definition prec : Z := 53.
Definition emax : Z := 1024.

Definition NaN : number := S754_nan.
Definition zero : number := S754_zero false.

(** [a + b] and [a * b] on numbers. *)
Definition add (a b : number) : number := SFadd prec emax a b.
Definition mul (a b : number) : number := SFmul prec emax a b.

(** The number an integer quantity denotes (exact within the safe range,
    rounded to nearest-even beyond it). *)
Definition ofZ (z : Z) : number := binary_normalize prec emax z 0 false.

(** *** [parseFloat]

    ECMAScript: drop leading white space and line terminators (tab, line
    feed, vertical tab, form feed, carriage return, space, and, a string
    being held in UTF-8, the encodings of U+00A0, U+1680, U+2000 to U+200A,
    U+2028, U+2029, U+202F, U+205F, U+3000 and U+FEFF), take the longest
    prefix that is a [StrDecimalLiteral] (an optional sign, then [Infinity] or decimal digits
    with an optional fraction and an optional exponent), and return its
    value rounded to the nearest binary64; [NaN] when no prefix is one. *)

Definition isWhiteSpace (c : ascii) : bool :=
  let n := nat_of_ascii c in
  ((9 <=? n) && (n <=? 13))%nat || (n =? 32)%nat.

Definition isDigit (c : ascii) : bool :=
  let n := nat_of_ascii c in ((48 <=? n) && (n <=? 57))%nat.

Definition digitValue (c : ascii) : Z := Z.of_nat (nat_of_ascii c) - 48.

(** U+00A0 in UTF-8. *)
Definition isWhiteSpace2 (c1 c2 : ascii) : bool :=
  ((nat_of_ascii c1 =? 194) && (nat_of_ascii c2 =? 160))%nat.

(** U+1680, U+2000 to U+200A, U+2028, U+2029, U+202F, U+205F, U+3000 and
    U+FEFF in UTF-8. *)
Definition isWhiteSpace3 (c1 c2 c3 : ascii) : bool :=
  let a := nat_of_ascii c1 in
  let b := nat_of_ascii c2 in
  let c := nat_of_ascii c3 in
  (((a =? 225) && (b =? 154) && (c =? 128))
   || ((a =? 226) && (b =? 128)
       && (((128 <=? c) && (c <=? 138)) || (c =? 168) || (c =? 169) || (c =? 175)))
   || ((a =? 226) && (b =? 129) && (c =? 159))
   || ((a =? 227) && (b =? 128) && (c =? 128))
   || ((a =? 239) && (b =? 187) && (c =? 191)))%nat.

Fixpoint trimStart (s : string) : string :=
  match s with
  | String c r =>
      if isWhiteSpace c then trimStart r
      else
        match r with
        | String c2 r2 =>
            if isWhiteSpace2 c c2 then trimStart r2
            else
              match r2 with
              | String c3 r3 => if isWhiteSpace3 c c2 c3 then trimStart r3 else s
              | EmptyString => s
              end
        | EmptyString => s
        end
  | EmptyString => s
  end.

(** Reads decimal digits: the value accumulated so far, how many digits
    were read, and the rest of the input. *)
Fixpoint readDigits (acc : Z) (count : Z) (s : string) : Z * Z * string :=
  match s with
  | String c r =>
      if isDigit c then readDigits (10 * acc + digitValue c) (count + 1) r
      else (acc, count, s)
  | EmptyString => (acc, count, s)
  end.

Definition readSign (s : string) : bool * string :=
  match s with
  | String "+" r => (false, r)
  | String "-" r => (true, r)
  | _ => (false, s)
  end.

(** The value of an [ExponentPart] at the head of [s], or 0 when [s] does
    not start with a complete one (an [e] without digits is not part of the
    literal). *)
Definition readExponent (s : string) : Z :=
  match s with
  | String c r =>
      if (Ascii.eqb c "e" || Ascii.eqb c "E")%bool then
        let '(neg, r1) := readSign r in
        let '(v, n, _) := readDigits 0 0 r1 in
        if Z.eqb n 0 then 0 else if neg then - v else v
      else 0
  | EmptyString => 0
  end.

(** The binary64 nearest to [(-1)^neg * m * 10^e10], ties to even. *)
Definition decimalToNumber (neg : bool) (m : Z) (e10 : Z) : number :=
  match m with
  | Zpos p =>
      if Z.leb 0 e10
      then binary_normalize prec emax
             ((if neg then - m else m) * 10 ^ e10) 0 false
      else SFdiv prec emax (S754_finite neg p 0)
             (S754_finite false (Z.to_pos (10 ^ (- e10))) 0)
  | _ => S754_zero neg
  end.

Definition parseFloat (s : string) : number :=
  let '(neg, t1) := readSign (trimStart s) in
  if String.prefix "Infinity" t1 then S754_infinity neg
  else
    let '(ip, ni, t2) := readDigits 0 0 t1 in
    let '(m, nf, t3) :=
      match t2 with
      | String "." r => readDigits ip 0 r
      | _ => (ip, 0, t2)
      end in
    if Z.eqb (ni + nf) 0 then NaN
    else decimalToNumber neg m (readExponent t3 - nf).

(** A string is truthy when it is not empty. *)
Definition truthy (s : string) : bool :=
  match s with EmptyString => false | _ => true end.

End JS.

(** ** The cart store, [frontend/store/cart-store.ts] *)

Module CartStore.

Record GuestCartItem : Type := mkItem {
  sku : string;
  sku_id : string;
  product_id : string;
  product_name : string;
  product_price : string;
  product_image : option string;
  quantity : Z;
  vendor_name : option string
}.

(** [{ ...i, quantity: q }] *)
Definition withQuantity (i : GuestCartItem) (q : Z) : GuestCartItem :=
  {| sku := sku i; sku_id := sku_id i; product_id := product_id i;
     product_name := product_name i; product_price := product_price i;
     product_image := product_image i; quantity := q;
     vendor_name := vendor_name i |}.

(** The data part of [CartState]. *)
Record CartState : Type := mkState { guestItems : list GuestCartItem }.

Definition initialState : CartState := {| guestItems := [] |}.

Definition addGuestItem (item : GuestCartItem) (state : CartState) : CartState :=
  let existingItem :=
    find (fun i => String.eqb (sku i) (sku item)) (guestItems state) in
  match existingItem with
  | Some _ =>
      {| guestItems :=
           map (fun i =>
                  if String.eqb (sku i) (sku item)
                  then withQuantity i (quantity i + quantity item)
                  else i)
               (guestItems state) |}
  | None => {| guestItems := guestItems state ++ [item] |}
  end.

Definition removeGuestItem (s : string) (state : CartState) : CartState :=
  {| guestItems := filter (fun i => negb (String.eqb (sku i) s)) (guestItems state) |}.

Definition updateGuestItemQuantity (s : string) (q : Z) (state : CartState)
  : CartState :=
  {| guestItems :=
       map (fun i => if String.eqb (sku i) s then withQuantity i q else i)
           (guestItems state) |}.

Definition clearGuestCart (_ : CartState) : CartState := {| guestItems := [] |}.

Definition getGuestCartTotal (state : CartState) : JS.number :=
  fold_left
    (fun total item =>
       JS.add total
         (JS.mul (JS.parseFloat (product_price item)) (JS.ofZ (quantity item))))
    (guestItems state) JS.zero.

Definition getGuestItemCount (state : CartState) : Z :=
  fold_left (fun count item => count + quantity item) (guestItems state) 0.

(** *** The [persist] middleware

    Every [set] writes the new state under the key [guest-cart-storage];
    a freshly created store (a page load) starts from what is stored there,
    or from [initialState] when nothing is. *)

Record Store : Type := mkStore {
  current : CartState;
  storage : option CartState
}.

Definition set (f : CartState -> CartState) (st : Store) : Store :=
  let s' := f (current st) in {| current := s'; storage := Some s' |}.

Definition create (persisted : option CartState) : Store :=
  {| current := match persisted with Some s => s | None => initialState end;
     storage := persisted |}.

Definition freshStore : Store := create None.

(** The store's actions. *)
Inductive Action : Type :=
| AddGuestItem (item : GuestCartItem)
| RemoveGuestItem (s : string)
| UpdateGuestItemQuantity (s : string) (q : Z)
| ClearGuestCart.

Definition apply (a : Action) (state : CartState) : CartState :=
  match a with
  | AddGuestItem item => addGuestItem item state
  | RemoveGuestItem s => removeGuestItem s state
  | UpdateGuestItemQuantity s q => updateGuestItemQuantity s q state
  | ClearGuestCart => clearGuestCart state
  end.

Definition dispatch (a : Action) (st : Store) : Store := set (apply a) st.

(** A run of [addGuestItem] calls, first call first. *)
Definition addAll (items : list GuestCartItem) (state : CartState) : CartState :=
  fold_left (fun st item => addGuestItem item st) items state.

End CartStore.

(** ** The remote cart, as the [cart] query returns it *)

Module Remote.

Record CartItem : Type := mkCartItem {
  id : string;
  unit_price : string;
  quantity : Z
}.

(** [items] may be missing from the response. *)
Record Cart : Type := mkCart { items : option (list CartItem) }.

(** [cart?.items], where [cart] is [undefined] until the query has data. *)
Definition itemsOf (cart : option Cart) : option (list CartItem) :=
  match cart with Some c => items c | None => None end.

End Remote.

(** ** What a page does besides updating the store *)

Module UI.

Inductive Effect : Type :=
| ToastSuccess (msg : string)
| ToastError (msg : string)
| ConsoleError (label : string)
| SetLocationHref (url : string)
| RouterPush (path : string)
| Invoke (a : CartStore.Action).

(** A page's view of the world: the cart store and the effects so far,
    oldest first. *)
Record Page : Type := mkPage {
  store : CartStore.Store;
  log : list Effect
}.

Definition emit (es : list Effect) (p : Page) : Page :=
  {| store := store p; log := log p ++ es |}.

(** Calling a store action from a page. *)
Definition call (a : CartStore.Action) (p : Page) : Page :=
  {| store := CartStore.dispatch a (store p); log := log p ++ [Invoke a] |}.

End UI.

(** ** The cart page, [frontend/app/cart/page.tsx] *)

Module CartPage.
Import CartStore UI.

Definition handleGuestUpdateQuantity (s : string) (currentQty change : Z)
    (p : Page) : Page :=
  let newQty := currentQty + change in
  if Z.ltb 0 newQty then call (UpdateGuestItemQuantity s newQty) p else p.

Definition handleGuestRemove (s : string) (p : Page) : Page :=
  emit [ToastSuccess "Item removed from cart"] (call (RemoveGuestItem s) p).

Definition calculateTotal (isAuthenticated : bool) (cart : option Remote.Cart)
    (st : Store) : JS.number :=
  if isAuthenticated then
    match Remote.itemsOf cart with
    | None => JS.zero
    | Some items =>
        fold_left
          (fun total item =>
             JS.add total
               (JS.mul (JS.parseFloat (Remote.unit_price item))
                       (JS.ofZ (Remote.quantity item))))
          items JS.zero
    end
  else getGuestCartTotal (current st).

End CartPage.

(** ** The checkout page, [frontend/app/checkout/page.tsx] *)

Module CheckoutPage.
Import CartStore UI.

Record ShippingAddress : Type := mkAddress {
  recipient_name : string;
  phone : string;
  street_address : string;
  apartment : string;
  city : string;
  state : string;
  postal_code : string;
  country : string
}.

(** The page's form state; [addresses] is the saved-address query, keyed
    by address id. *)
Record Form : Type := mkForm {
  selectedAddress : string;
  addresses : option (list (string * ShippingAddress));
  guestEmail : string;
  guestShipping : ShippingAddress;
  paymentMethod : string
}.

Inductive CheckoutData : Type :=
| AuthCheckout (payment_method : string) (shipping_address : ShippingAddress)
| GuestCheckout (guest_email guest_name guest_phone : string)
    (items : list (string * Z)) (shipping_address : ShippingAddress)
    (payment_method : string).

(** [response.data] of a successful checkout. *)
Record Response : Type := mkResponse {
  checkout_url : option string;
  order_id : option string
}.

(** [error.response?.data?.detail] of a failed one. *)
Record Failure : Type := mkFailure { detail : option string }.

Inductive Outcome : Type :=
| Resolved (data : Response)
| Rejected (error : Failure).

Definition truthyField (f : option string) : option string :=
  match f with
  | Some s => if JS.truthy s then Some s else None
  | None => None
  end.

Definition onSuccess (isAuthenticated : bool) (data : Response) (p : Page) : Page :=
  let p1 := if negb isAuthenticated then call ClearGuestCart p else p in
  match truthyField (checkout_url data) with
  | Some url =>
      emit [ToastSuccess "Redirecting to payment..."; SetLocationHref url] p1
  | None =>
      match truthyField (order_id data) with
      | Some _ =>
          emit [ToastSuccess "Order placed successfully!";
                ToastSuccess "Order confirmation sent to your email!";
                RouterPush (if isAuthenticated then "/account/orders" else "/")]
               p1
      | None => p1
      end
  end.

Definition onError (error : Failure) (p : Page) : Page :=
  let errorMessage :=
    match truthyField (detail error) with
    | Some d => d
    | None => "Checkout failed"
    end in
  emit [ToastError errorMessage; ConsoleError "Checkout error:"] p.

(** [checkoutMutation.mutate(data)], once the remote call has settled. *)
Definition mutate (isAuthenticated : bool) (api : CheckoutData -> Outcome)
    (data : CheckoutData) (p : Page) : Page :=
  match api data with
  | Resolved response => onSuccess isAuthenticated response p
  | Rejected error => onError error p
  end.

Definition lookupAddress (f : Form) : option ShippingAddress :=
  match addresses f with
  | Some l =>
      match find (fun a => String.eqb (fst a) (selectedAddress f)) l with
      | Some a => Some (snd a)
      | None => None
      end
  | None => None
  end.

Definition guestFieldsFilled (f : Form) : bool :=
  JS.truthy (guestEmail f)
  && JS.truthy (recipient_name (guestShipping f))
  && JS.truthy (phone (guestShipping f))
  && JS.truthy (street_address (guestShipping f))
  && JS.truthy (city (guestShipping f))
  && JS.truthy (state (guestShipping f))
  && JS.truthy (postal_code (guestShipping f)).

(** [handleCheckout]; [None] when it throws (the selected address is not
    among the loaded ones, and a property of [undefined] is read). *)
Definition handleCheckout (isAuthenticated : bool)
    (api : CheckoutData -> Outcome) (f : Form) (p : Page) : option Page :=
  if isAuthenticated then
    if negb (JS.truthy (selectedAddress f))
    then Some (emit [ToastError "Please select a shipping address"] p)
    else
      match lookupAddress f with
      | Some address =>
          Some (mutate isAuthenticated api
                  (AuthCheckout (paymentMethod f) address) p)
      | None => None
      end
  else
    if negb (guestFieldsFilled f)
    then Some (emit [ToastError "Please fill in all required fields"] p)
    else
      Some (mutate isAuthenticated api
              (GuestCheckout (guestEmail f)
                 (recipient_name (guestShipping f))
                 (phone (guestShipping f))
                 (map (fun item => (sku_id item, CartStore.quantity item))
                      (guestItems (current (store p))))
                 (guestShipping f) (paymentMethod f))
              p).

Definition calculateTotal (isAuthenticated : bool) (cart : option Remote.Cart)
    (guestItems : list GuestCartItem) : JS.number :=
  if isAuthenticated then
    match Remote.itemsOf cart with
    | None => JS.zero
    | Some items =>
        fold_left
          (fun total item =>
             JS.add total
               (JS.mul (JS.parseFloat (Remote.unit_price item))
                       (JS.ofZ (Remote.quantity item))))
          items JS.zero
    end
  else
    fold_left
      (fun total item =>
         JS.add total
           (JS.mul (JS.parseFloat (product_price item))
                   (JS.ofZ (CartStore.quantity item))))
      guestItems JS.zero.

End CheckoutPage.

(** ** The navbar badge *)

Module Navbar.
Import CartStore.

Definition guestCount (isAuthenticated : bool) (guestItems : list GuestCartItem) : Z :=
  if negb isAuthenticated
  then fold_left (fun count item => count + quantity item) guestItems 0
  else 0.

(** [x || 0] on an integer that may be [undefined]. *)
Definition orZero (x : option Z) : Z :=
  match x with
  | Some n => if Z.eqb n 0 then 0 else n
  | None => 0
  end.

Definition itemCount (isAuthenticated : bool) (cart : option Remote.Cart)
    (guestItems : list GuestCartItem) : Z :=
  if isAuthenticated
  then orZero
         (option_map
            (fun items =>
               fold_left (fun count item => count + Remote.quantity item) items 0)
            (Remote.itemsOf cart))
  else guestCount isAuthenticated guestItems.

End Navbar.

(** ** The auth store *)

Module AuthStore.

Record User : Type := mkUser {
  id : string;
  username : string;
  email : string;
  first_name : string;
  last_name : string;
  is_vendor : bool;
  is_customer : bool
}.

Record AuthState : Type := mkAuth {
  user : option User;
  isAuthenticated : bool;
  isLoading : bool
}.

Definition initialState : AuthState :=
  {| user := None; isAuthenticated := false; isLoading := false |}.

Definition setLoading (b : bool) (s : AuthState) : AuthState :=
  {| user := user s; isAuthenticated := isAuthenticated s; isLoading := b |}.

(** [fetchUser], given what [getProfile] answers ([None]: it failed);
    the boolean tells whether [fetchUser] threw. *)
Definition fetchUser (profile : option User) (s : AuthState) : AuthState * bool :=
  let s1 := setLoading true s in
  match profile with
  | Some u => ({| user := Some u; isAuthenticated := true; isLoading := false |}, false)
  | None => ({| user := None; isAuthenticated := false; isLoading := false |}, true)
  end.

(** [login], given whether the login request succeeds and what
    [getProfile] then answers. *)
Definition login (loginOk : bool) (profile : option User) (s : AuthState)
  : AuthState * bool :=
  let s1 := setLoading true s in
  if loginOk then
    let '(s2, threw) := fetchUser profile s1 in
    (setLoading false s2, threw)
  else (setLoading false s1, true).

(** [logout]: whatever the logout request does, the user is dropped. *)
Definition logout (logoutOk : bool) (s : AuthState) : AuthState :=
  {| user := None; isAuthenticated := false; isLoading := isLoading s |}.

(** A page load: [partialize] keeps [user] and [isAuthenticated]. *)
Definition reload (s : AuthState) : AuthState :=
  {| user := user s; isAuthenticated := isAuthenticated s; isLoading := false |}.

End AuthStore.

(** ** The two stores together: a session *)

Module Session.

Record State : Type := mkSession {
  auth : AuthStore.AuthState;
  cart : CartStore.Store
}.

Definition initial : State :=
  {| auth := AuthStore.initialState; cart := CartStore.freshStore |}.

Inductive Step : Type :=
| CartOp (a : CartStore.Action)
| Login (loginOk : bool) (profile : option AuthStore.User)
| Logout (logoutOk : bool).

(** The navbar's [handleLogout]: [logout], then [window.location.href = '/'],
    a page load that recreates both stores from what they persisted. *)
Definition handleLogout (logoutOk : bool) (s : State) : State :=
  {| auth := AuthStore.reload (AuthStore.logout logoutOk (auth s));
     cart := CartStore.create (CartStore.storage (cart s)) |}.

Definition step (s : State) (e : Step) : State :=
  match e with
  | CartOp a => {| auth := auth s; cart := CartStore.dispatch a (cart s) |}
  | Login ok profile =>
      {| auth := fst (AuthStore.login ok profile (auth s)); cart := cart s |}
  | Logout ok => handleLogout ok s
  end.

Definition run (es : list Step) (s : State) : State := fold_left step es s.

Definition guestLines (s : State) : list CartStore.GuestCartItem :=
  CartStore.guestItems (CartStore.current (cart s)).

End Session.

(** ** Vocabulary of the statements *)

Import CartStore.

(** *** Lines and quantities *)

(** Does a line with this sku exist? *)
Definition hasSku (s : string) (l : list GuestCartItem) : bool :=
  existsb (fun i => String.eqb (sku i) s) l.

(** The lines with this sku, and the others, in cart order. *)
Definition linesOf (s : string) (l : list GuestCartItem) : list GuestCartItem :=
  filter (fun i => String.eqb (sku i) s) l.

Definition otherLines (s : string) (l : list GuestCartItem) : list GuestCartItem :=
  filter (fun i => negb (String.eqb (sku i) s)) l.

(** The sum of the quantities of a list of items. *)
Definition totalQuantity (l : list GuestCartItem) : Z :=
  fold_right (fun i acc => quantity i + acc) 0 l.

(** What a merge does to one stored line. *)
Definition bump (s : string) (dq : Z) (i : GuestCartItem) : GuestCartItem :=
  if String.eqb (sku i) s then withQuantity i (quantity i + dq) else i.


(** *** The quantity invariant *)

(** Every line has a quantity of at least 1. *)
Definition positiveLines (state : CartState) : Prop :=
  Forall (fun i => 1 <= quantity i) (guestItems state).

(** The invariant on a store: what is in memory and what is persisted. *)
Definition storeInvariant (st : Store) : Prop :=
  positiveLines (current st) /\
  match storage st with Some s => positiveLines s | None => True end.

(** The actions the invariant allows. *)
Definition allowed (a : Action) : Prop :=
  match a with
  | AddGuestItem item => 1 <= quantity item
  | UpdateGuestItemQuantity _ q => 1 <= q
  | RemoveGuestItem _ | ClearGuestCart => True
  end.

(** What a store holds is what a page load would restore. *)
Definition rehydrates (c : Store) : Prop := create (storage c) = c.

(** *** Totals *)

(** What one line contributes to the total. *)
Definition lineAmount (i : GuestCartItem) : JS.number :=
  JS.mul (JS.parseFloat (product_price i)) (JS.ofZ (quantity i)).

(** The sum [t 0 + t 1 + ... + t (n-1)], accumulated from 0 in that order. *)
Fixpoint sumUpTo (t : nat -> JS.number) (n : nat) : JS.number :=
  match n with
  | O => JS.zero
  | S k => JS.add (sumUpTo t k) (t k)
  end.

(** The amount of the [k]-th line of a cart. *)
Definition amountAt (l : list GuestCartItem) (k : nat) : JS.number :=
  match nth_error l k with
  | Some i => lineAmount i
  | None => JS.zero
  end.

(** What the total reads of a line, and the amount it makes of it. *)
Definition lineKey (i : GuestCartItem) : string * string * Z :=
  (sku i, product_price i, quantity i).


(** *** Runs of adds *)


(** The quantity added for a sku over a run of adds. *)
Definition skuQuantity (s : string) (l : list GuestCartItem) : Z :=
  fold_right
    (fun i acc => (if String.eqb (sku i) s then quantity i else 0) + acc) 0 l.

(** A cart [c] summarises the adds [l]: one line per added sku, with the
    price of one of its additions and the quantity added for it in all. *)
Definition summarises (l c : list GuestCartItem) : Prop :=
  NoDup (map sku c)
  /\ (forall line, In line c ->
        exists item, In item l /\ sku item = sku line
                     /\ product_price item = product_price line
                     /\ quantity line = skuQuantity (sku line) l)
  /\ (forall item, In item l -> hasSku (sku item) c = true).



(** *** Example data *)

Definition tshirt (q : Z) : GuestCartItem :=
  mkItem "TSHIRT-M" "sku-uuid-1" "prod-1" "T-Shirt" "19.99" None q None.

Definition oneTshirt : CartState := {| guestItems := [tshirt 1] |}.

(** An item of a given sku, price and quantity. *)
Definition anItem (s price : string) (q : Z) : GuestCartItem :=
  mkItem s (s ++ "-uuid")%string "prod" "Product" price None q None.

(** A cart with a line whose stored price is not a number. *)
Definition corruptCart : CartState :=
  {| guestItems :=
       [mkItem "MUG" "sku-uuid-2" "prod-2" "Mug" "n/a" None 1 None;
        mkItem "CAP" "sku-uuid-3" "prod-3" "Cap" "10.00" None 2 None] |}.

Definition alice : AuthStore.User :=
  AuthStore.mkUser "u-1" "alice" "alice@example.com" "Alice" "A" false true.

(** ** More of the pages: views, shipping, the product pages *)

(** Runs of store actions, first action first. *)
Definition runActions (acts : list Action) (st : Store) : Store :=
  fold_left (fun s a => dispatch a s) acts st.

(** The cart a store holds in memory. *)
Definition lines (st : Store) : list GuestCartItem := guestItems (current st).

(** *** What the cart page and the navbar render *)

Module CartView.

(** [isAuthenticated ? cart?.items : guestItems], as a number of rows;
    [None] when there is no array. *)
Definition rows (isAuthenticated : bool) (cart : option Remote.Cart)
    (guestItems : list GuestCartItem) : option nat :=
  if isAuthenticated
  then option_map (@List.length _) (Remote.itemsOf cart)
  else Some (List.length guestItems).

(** [!items || items.length === 0]: the page shows the empty-cart message. *)
Definition showsEmpty (isAuthenticated : bool) (cart : option Remote.Cart)
    (guestItems : list GuestCartItem) : bool :=
  match rows isAuthenticated cart guestItems with
  | None => true
  | Some n => Nat.eqb n 0
  end.

(** [itemCount > 0 && ...]: the navbar shows the badge. *)
Definition showsBadge (isAuthenticated : bool) (cart : option Remote.Cart)
    (guestItems : list GuestCartItem) : bool :=
  Z.ltb 0 (Navbar.itemCount isAuthenticated cart guestItems).

End CartView.

(** *** Shipping on the checkout page *)

Module Shipping.

(** [a > b] on numbers: false when either is NaN. *)
Definition gt (a b : JS.number) : bool := SFltb b a.

Record Rate : Type := mkRate { id : string; base_cost : string }.

(** [selectedShippingRate] and [shippingCost]. *)
Record State : Type := mkShipping {
  selectedShippingRate : option string;
  shippingCost : JS.number
}.

Definition initial : State :=
  {| selectedShippingRate := None; shippingCost := JS.zero |}.

Definition handleSelectShippingRate (rateId : string) (cost : JS.number)
    (_ : State) : State :=
  {| selectedShippingRate := Some rateId; shippingCost := cost |}.

(** The radio button of a rate in the shipping-rates component. *)
Definition onChange (rate : Rate) (s : State) : State :=
  handleSelectShippingRate (id rate) (JS.parseFloat (base_cost rate)) s.

(** What a summary row shows: an amount handed to [formatPrice], or a text. *)
Inductive Display : Type :=
| Price (amount : JS.number)
| Text (s : string).

Definition shippingRow (s : State) : Display :=
  if gt (shippingCost s) JS.zero then Price (shippingCost s)
  else Text "Select shipping method".

Definition totalRow (isAuthenticated : bool) (cart : option Remote.Cart)
    (guestItems : list GuestCartItem) (s : State) : Display :=
  Price (JS.add (CheckoutPage.calculateTotal isAuthenticated cart guestItems)
                (shippingCost s)).

(** [!selectedShippingRate] *)
Definition noRate (s : State) : bool :=
  match selectedShippingRate s with
  | Some r => negb (JS.truthy r)
  | None => true
  end.


End Shipping.

(** *** The pages that add to the cart

    The product list, the flash-sale list and the wishlist page share one
    [handleAddToCart], with quantity 1; the product page has a quantity
    counter. *)

Module ProductPages.
Import UI.

Record Sku : Type := mkSku { id : string; sku_code : string }.

(** What the handlers read of a product: [id], [name], [price], the
    [image] of each of [images], [vendor?.business_name], and [skus]. *)
Record Product : Type := mkProduct {
  product_id : string;
  name : string;
  price : string;
  images : option (list string);
  business_name : option string;
  skus : option (list Sku)
}.

(** [product.images?.[0]?.image] *)
Definition firstImage (product : Product) : option string :=
  match images product with
  | Some (i :: _) => Some i
  | _ => None
  end.

(** [product.skus && product.skus.length > 0], then [product.skus[0]]. *)
Definition firstSku (product : Product) : option Sku :=
  match skus product with
  | Some (s :: _) => Some s
  | _ => None
  end.

(** The item a guest add puts in the store. *)
Definition guestItemOf (product : Product) (s : Sku) (quantity : Z) : GuestCartItem :=
  {| CartStore.sku := sku_code s;
     CartStore.sku_id := id s;
     CartStore.product_id := product_id product;
     CartStore.product_name := name product;
     CartStore.product_price := price product;
     CartStore.product_image := firstImage product;
     CartStore.quantity := quantity;
     CartStore.vendor_name := business_name product |}.

(** [handleAddToCart]: the page afterwards, and the variables of
    [addToCartMutation.mutate] when it was called. *)
Definition handleAddToCart (isAuthenticated : bool) (quantity : Z)
    (product : Product) (p : Page) : Page * option (string * Z) :=
  match firstSku product with
  | Some s =>
      if isAuthenticated then (p, Some (sku_code s, quantity))
      else (emit [ToastSuccess "Added to cart!"]
              (call (AddGuestItem (guestItemOf product s quantity)) p), None)
  | None => (p, None)
  end.

(** The product page's counter: it starts at 1. *)
Definition initialQuantity : Z := 1.
Definition decrement (quantity : Z) : Z := Z.max 1 (quantity - 1).
Definition increment (quantity : Z) : Z := quantity + 1.

End ProductPages.

(** *** What a guest can do to the cart through the pages *)

Module GuestUI.
Import UI.

(** Cart rows are named by their position on the cart page. *)
Inductive Event : Type :=
| AddFromList (product : ProductPages.Product)
| CounterPlus
| CounterMinus
| AddFromProductPage (product : ProductPages.Product)
| CartPlus (row : nat)
| CartMinus (row : nat)
| CartRemove (row : nat)
| CheckoutSucceeded (data : CheckoutPage.Response)
| Reload.

(** The pages' state: the store and effects, and the product page's counter. *)
Record State : Type := mkState { page : Page; counter : Z }.

Definition initial : State :=
  {| page := {| store := freshStore; log := [] |};
     counter := ProductPages.initialQuantity |}.

Definition rowAt (row : nat) (p : Page) : option GuestCartItem :=
  nth_error (guestItems (current (store p))) row.

Definition withPage (st : State) (p : Page) : State :=
  {| page := p; counter := counter st |}.

Definition step (st : State) (e : Event) : State :=
  match e with
  | AddFromList product =>
      withPage st (fst (ProductPages.handleAddToCart false 1 product (page st)))
  | CounterPlus =>
      {| page := page st; counter := ProductPages.increment (counter st) |}
  | CounterMinus =>
      (* the button is disabled at [quantity <= 1] *)
      if Z.leb (counter st) 1 then st
      else {| page := page st; counter := ProductPages.decrement (counter st) |}
  | AddFromProductPage product =>
      withPage st
        (fst (ProductPages.handleAddToCart false (counter st) product (page st)))
  | CartPlus row =>
      match rowAt row (page st) with
      | Some item =>
          withPage st
            (CartPage.handleGuestUpdateQuantity (sku item) (quantity item) 1 (page st))
      | None => st
      end
  | CartMinus row =>
      match rowAt row (page st) with
      | Some item =>
          (* the button is disabled at [item.quantity <= 1] *)
          if Z.leb (quantity item) 1 then st
          else withPage st
                 (CartPage.handleGuestUpdateQuantity (sku item) (quantity item) (-1)
                    (page st))
      | None => st
      end
  | CartRemove row =>
      match rowAt row (page st) with
      | Some item => withPage st (CartPage.handleGuestRemove (sku item) (page st))
      | None => st
      end
  | CheckoutSucceeded data =>
      withPage st (CheckoutPage.onSuccess false data (page st))
  | Reload =>
      {| page := {| store := create (storage (store (page st))); log := [] |};
         counter := ProductPages.initialQuantity |}
  end.

Definition run (es : list Event) (st : State) : State := fold_left step es st.

Definition cartLines (st : State) : list GuestCartItem :=
  guestItems (current (store (page st))).

End GuestUI.

(** *** The rest of the auth store *)

Module AuthOps.
Import AuthStore.

Definition setUser (u : option User) (s : AuthState) : AuthState :=
  {| user := u;
     isAuthenticated := match u with Some _ => true | None => false end;
     isLoading := isLoading s |}.

(** [register], given whether the registration request succeeds and how the
    login that follows goes; the boolean tells whether [register] threw. *)
Definition register (registerOk loginOk : bool) (profile : option User)
    (s : AuthState) : AuthState * bool :=
  let s1 := setLoading true s in
  if registerOk then
    let '(s2, threw) := login loginOk profile s1 in
    if threw then (setLoading false s2, true) else (s2, false)
  else (setLoading false s1, true).

Inductive Op : Type :=
| Login (loginOk : bool) (profile : option User)
| Register (registerOk loginOk : bool) (profile : option User)
| FetchUser (profile : option User)
| Logout (logoutOk : bool)
| SetUser (u : option User)
| PageLoad.

Definition apply (s : AuthState) (o : Op) : AuthState :=
  match o with
  | Login ok profile => fst (login ok profile s)
  | Register rok lok profile => fst (register rok lok profile s)
  | FetchUser profile => fst (fetchUser profile s)
  | Logout ok => logout ok s
  | SetUser u => setUser u s
  | PageLoad => reload s
  end.

Definition run (ops : list Op) (s : AuthState) : AuthState := fold_left apply ops s.

(** A session is either signed in with a user or signed out without one,
    and nothing is pending. *)
Definition consistent (s : AuthState) : Prop :=
  (isAuthenticated s = true <-> user s <> None) /\ isLoading s = false.

End AuthOps.

(** ** The API client's tokens and interceptors, [frontend/lib/api-client.ts]

    The browser side: [localStorage] holds the two tokens.  The backend is a
    function from the request that reaches it to its reply, and the refresh
    endpoint, which is called outside the client, a function from the refresh
    token to the reply's data, or nothing when that call fails. *)

Module ApiClient.

Record Tokens : Type := mkTokens {
  access_token : option string;
  refresh_token : option string
}.

Definition getToken (t : Tokens) : option string := access_token t.
Definition getRefreshToken (t : Tokens) : option string := refresh_token t.

Definition setToken (token : string) (t : Tokens) : Tokens :=
  {| access_token := Some token; refresh_token := refresh_token t |}.

Definition clearTokens (_ : Tokens) : Tokens :=
  {| access_token := None; refresh_token := None |}.

(** A string that may be missing, when it is truthy. *)
Definition present (x : option string) : option string :=
  match x with
  | Some s => if JS.truthy s then Some s else None
  | None => None
  end.

(** What a template literal or [setItem] makes of a value that may be
    [undefined]. *)
Definition stringOf (x : option string) : string :=
  match x with Some s => s | None => "undefined" end.

Definition bearer (token : string) : string := ("Bearer " ++ token)%string.

Record Request : Type := mkRequest {
  method : string;
  url : string;
  body : list (string * string);
  authorization : option string;
  _retry : bool
}.

Definition withAuthorization (h : string) (r : Request) : Request :=
  {| method := method r; url := url r; body := body r;
     authorization := Some h; _retry := _retry r |}.

Definition markRetry (r : Request) : Request :=
  {| method := method r; url := url r; body := body r;
     authorization := authorization r; _retry := true |}.

(** The fields of a reply's data. *)
Definition Data : Type := list (string * string).

Fixpoint field (name : string) (d : Data) : option string :=
  match d with
  | (k, v) :: rest => if String.eqb k name then Some v else field name rest
  | [] => None
  end.

(** What the backend answers: data, or an error with its status when there
    was a response at all. *)
Inductive Reply : Type :=
| Success (data : Data)
| Failure (status : option Z).

Inductive Outcome : Type :=
| Resolved (data : Data)
| Rejected (status : option Z)
| RejectedByRefresh.

Inductive Event : Type :=
| Sent (r : Request)
| RefreshCalled (refreshToken : string)
| Redirected (href : string).

Record Result : Type := mkResult {
  outcome : Outcome;
  tokens : Tokens;
  trace : list Event
}.

Definition after (es : list Event) (r : Result) : Result :=
  {| outcome := outcome r; tokens := tokens r; trace := es ++ trace r |}.

(** The request interceptor. *)
Definition addToken (t : Tokens) (config : Request) : Request :=
  match present (getToken t) with
  | Some token => withAuthorization (bearer token) config
  | None => config
  end.

Definition is401 (status : option Z) : bool :=
  match status with Some n => Z.eqb n 401 | None => false end.

(** [this.client(config)]: the request interceptor, the backend, and the
    response interceptor, which on a first 401 refreshes the access token and
    sends the request, marked with [_retry], through the client again.  The
    fuel bounds the rounds. *)
Fixpoint client (server : Request -> Reply) (refresh : string -> option Data)
    (fuel : nat) (config : Request) (t : Tokens) : option Result :=
  match fuel with
  | O => None
  | S fuel' =>
      let config := addToken t config in
      match server config with
      | Success data =>
          Some {| outcome := Resolved data; tokens := t; trace := [Sent config] |}
      | Failure status =>
          if is401 status && negb (_retry config) then
            let originalRequest := markRetry config in
            match present (getRefreshToken t) with
            | Some refreshToken =>
                match refresh refreshToken with
                | Some data =>
                    let access := stringOf (field "access" data) in
                    option_map (after [Sent config; RefreshCalled refreshToken])
                      (client server refresh fuel'
                         (withAuthorization (bearer access) originalRequest)
                         (setToken access t))
                | None =>
                    Some {| outcome := RejectedByRefresh;
                            tokens := clearTokens t;
                            trace := [Sent config; RefreshCalled refreshToken;
                                      Redirected "/auth/login"] |}
                end
            | None =>
                Some {| outcome := Rejected status; tokens := t;
                        trace := [Sent config] |}
            end
          else
            Some {| outcome := Rejected status; tokens := t; trace := [Sent config] |}
      end
  end.

Definition post (path : string) (b : list (string * string)) : Request :=
  {| method := "post"; url := path; body := b; authorization := None;
     _retry := false |}.

(** [login]: the result of the request, with both tokens stored when the
    reply carries both. *)
Definition login (server : Request -> Reply) (refresh : string -> option Data)
    (fuel : nat) (username password : string) (t : Tokens) : option Result :=
  match client server refresh fuel
          (post "/accounts/login/" [("username", username); ("password", password)]) t
  with
  | Some r =>
      match outcome r with
      | Resolved data =>
          match present (field "access" data), present (field "refresh" data) with
          | Some a, Some rf =>
              Some {| outcome := outcome r;
                      tokens := {| access_token := Some a; refresh_token := Some rf |};
                      trace := trace r |}
          | _, _ => Some r
          end
      | _ => Some r
      end
  | None => None
  end.

(** [logout]: resolves with [Resolved []] unless the request is rejected. *)
Definition logout (server : Request -> Reply) (refresh : string -> option Data)
    (fuel : nat) (t : Tokens) : option Result :=
  match present (getRefreshToken t) with
  | Some refreshToken =>
      match client server refresh fuel
              (post "/accounts/logout/" [("refresh", refreshToken)]) t
      with
      | Some r =>
          match outcome r with
          | Resolved _ =>
              Some {| outcome := Resolved []; tokens := clearTokens (tokens r);
                      trace := trace r |}
          | _ => Some r
          end
      | None => None
      end
  | None => Some {| outcome := Resolved []; tokens := clearTokens t; trace := [] |}
  end.

Definition rejected (o : Outcome) : bool :=
  match o with Resolved _ => false | _ => true end.

(** How often the backend and the refresh endpoint were called. *)
Definition sends (es : list Event) : nat :=
  List.length (filter (fun e => match e with Sent _ => true | _ => false end) es).

Definition refreshes (es : list Event) : nat :=
  List.length (filter (fun e => match e with RefreshCalled _ => true | _ => false end) es).

Definition redirected (es : list Event) : bool :=
  existsb (fun e => match e with Redirected _ => true | _ => false end) es.

End ApiClient.

(** The auth store's [logout] on top of the client's: the store and the
    tokens afterwards. *)
Definition signOut (server : ApiClient.Request -> ApiClient.Reply)
    (refresh : string -> option ApiClient.Data) (fuel : nat)
    (s : AuthStore.AuthState) (t : ApiClient.Tokens)
  : option (AuthStore.AuthState * ApiClient.Tokens) :=
  match ApiClient.logout server refresh fuel t with
  | Some r =>
      Some (AuthStore.logout (negb (ApiClient.rejected (ApiClient.outcome r))) s,
            ApiClient.tokens r)
  | None => None
  end.

(** *** Vocabulary for the pages *)

(** The quantities of the rows of the cart in use. *)
Definition quantities (isAuthenticated : bool) (cart : option Remote.Cart)
    (guestItems : list GuestCartItem) : list Z :=
  if isAuthenticated
  then match Remote.itemsOf cart with
       | Some l => map Remote.quantity l
       | None => []
       end
  else map quantity guestItems.

Definition sumZ (l : list Z) : Z := fold_right Z.add 0 l.

(** Effects that leave the page. *)
Definition isNavigation (e : UI.Effect) : bool :=
  match e with
  | UI.SetLocationHref _ | UI.RouterPush _ => true
  | _ => false
  end.

(** A guest clicks [n] times on a product's add button in a list. *)
Definition clicks (n : nat) (product : ProductPages.Product) (p : UI.Page) : UI.Page :=
  Nat.iter n (fun p => fst (ProductPages.handleAddToCart false 1 product p)) p.

(** *** More example data *)

Definition mugProduct : ProductPages.Product :=
  ProductPages.mkProduct "prod-2" "Mug" "7.50" (Some ["mug.png"]) (Some "Pots & Co")
    (Some [ProductPages.mkSku "sku-uuid-2" "MUG"]).

Definition tshirtPage : UI.Page := UI.mkPage (create (Some oneTshirt)) [].



Definition freeRate : Shipping.Rate := Shipping.mkRate "rate-free" "0.00".

(** A backend that rejects every request with one status, a refresh endpoint
    that fails, and tokens of a signed-in shopper. *)
Definition rejecting (status : Z) : ApiClient.Request -> ApiClient.Reply :=
  fun _ => ApiClient.Failure (Some status).

Definition failingRefresh : string -> option ApiClient.Data := fun _ => None.

Definition someTokens : ApiClient.Tokens :=
  ApiClient.mkTokens (Some "access-1") (Some "refresh-1").

Definition noTokens : ApiClient.Tokens := ApiClient.mkTokens None None.

(** A backend whose login reply carries an access token only. *)
Definition accessOnly : ApiClient.Request -> ApiClient.Reply :=
  fun _ => ApiClient.Success [("access", "access-2")].

(** ** Quantities as JavaScript numbers

    [item.quantity] is a [number] like any other: [addGuestItem] merges with
    the binary64 [+], [getGuestItemCount] and the badge add binary64 values,
    and the totals multiply by the quantity as it is stored.  The modules
    below are the same functions of the same files with the quantity as the
    number it is; [encode], further down, reads a cart of integer quantities
    as the cart JavaScript holds. *)

Module Binary64.
Import JS.

(** [a < b], false when either side is [NaN]. *)
Definition lt (a b : number) : bool := SFltb a b.

(** [x || 0] on a number that may be [undefined]: [0] for [undefined], for
    [NaN] and for both zeros. *)
Definition orZero (x : option number) : number :=
  match x with
  | Some (S754_finite s m e) => S754_finite s m e
  | Some (S754_infinity s) => S754_infinity s
  | _ => zero
  end.

(** [m * 2^n] *)
Definition shl (m : positive) (n : nat) : positive := Nat.iter n xO m.

(** A finite number in the representation the operations produce: the
    exponent is the least one that keeps the mantissa within 53 bits. *)
Definition wellFormed (x : number) : bool :=
  match x with
  | S754_zero _ => true
  | S754_finite _ m e => bounded prec emax m e
  | _ => false
  end.

(** The value of a number in units of [2^-1074], the least positive
    binary64 value. *)
Definition units (x : number) : Z :=
  match x with
  | S754_finite s m e => cond_Zopp s (Zpos m * 2 ^ (e + 1074))
  | _ => 0
  end.

(** The rational a finite number stands for, [(-1)^s * m * 2^e]. *)
Definition value (x : number) : Q :=
  match x with
  | S754_finite s m e => (inject_Z (cond_Zopp s (Zpos m)) * 2 ^ e)%Q
  | _ => 0%Q
  end.

Definition ulp : Q := (2 ^ (-1074))%Q.

(** [x] is the binary64 number whose value is exactly [q]. *)
Definition represents (x : number) (q : Q) : Prop :=
  wellFormed x = true /\ (value x == q)%Q.

(** [q] is the value of some binary64 number. *)
Definition representable (q : Q) : Prop := exists x, represents x q.

(** The sum of a list of rationals. *)
Definition Qsum (l : list Q) : Q := fold_right Qplus 0%Q l.

End Binary64.

(** *** The cart store on numbers, [frontend/store/cart-store.ts] *)

Module CartStore64.

Record GuestCartItem : Type := mkItem {
  sku : string;
  sku_id : string;
  product_id : string;
  product_name : string;
  product_price : string;
  product_image : option string;
  quantity : JS.number;
  vendor_name : option string
}.

(** [{ ...i, quantity: q }] *)
Definition withQuantity (i : GuestCartItem) (q : JS.number) : GuestCartItem :=
  {| sku := sku i; sku_id := sku_id i; product_id := product_id i;
     product_name := product_name i; product_price := product_price i;
     product_image := product_image i; quantity := q;
     vendor_name := vendor_name i |}.

Record CartState : Type := mkState { guestItems : list GuestCartItem }.

Definition initialState : CartState := {| guestItems := [] |}.

Definition addGuestItem (item : GuestCartItem) (state : CartState) : CartState :=
  let existingItem :=
    find (fun i => String.eqb (sku i) (sku item)) (guestItems state) in
  match existingItem with
  | Some _ =>
      {| guestItems :=
           map (fun i =>
                  if String.eqb (sku i) (sku item)
                  then withQuantity i (JS.add (quantity i) (quantity item))
                  else i)
               (guestItems state) |}
  | None => {| guestItems := guestItems state ++ [item] |}
  end.

Definition removeGuestItem (s : string) (state : CartState) : CartState :=
  {| guestItems := filter (fun i => negb (String.eqb (sku i) s)) (guestItems state) |}.

Definition updateGuestItemQuantity (s : string) (q : JS.number) (state : CartState)
  : CartState :=
  {| guestItems :=
       map (fun i => if String.eqb (sku i) s then withQuantity i q else i)
           (guestItems state) |}.

Definition clearGuestCart (_ : CartState) : CartState := {| guestItems := [] |}.

Definition getGuestCartTotal (state : CartState) : JS.number :=
  fold_left
    (fun total item =>
       JS.add total (JS.mul (JS.parseFloat (product_price item)) (quantity item)))
    (guestItems state) JS.zero.

Definition getGuestItemCount (state : CartState) : JS.number :=
  fold_left (fun count item => JS.add count (quantity item)) (guestItems state) JS.zero.

(** A run of [addGuestItem] calls, first call first. *)
Definition addAll (items : list GuestCartItem) (state : CartState) : CartState :=
  fold_left (fun st item => addGuestItem item st) items state.

End CartStore64.

(** *** The remote cart, the pages and the badge on numbers *)

Module Remote64.

Record CartItem : Type := mkCartItem {
  id : string;
  unit_price : string;
  quantity : JS.number
}.

Record Cart : Type := mkCart { items : option (list CartItem) }.

(** [cart?.items] *)
Definition itemsOf (cart : option Cart) : option (list CartItem) :=
  match cart with Some c => items c | None => None end.

End Remote64.

(** [frontend/app/cart/page.tsx] *)
Module CartPage64.
Import CartStore64.

(** What the handler does to the store's state. *)
Definition handleGuestUpdateQuantity (s : string) (currentQty change : JS.number)
    (state : CartState) : CartState :=
  let newQty := JS.add currentQty change in
  if Binary64.lt JS.zero newQty then updateGuestItemQuantity s newQty state else state.

Definition calculateTotal (isAuthenticated : bool) (cart : option Remote64.Cart)
    (state : CartState) : JS.number :=
  if isAuthenticated then
    match Remote64.itemsOf cart with
    | None => JS.zero
    | Some items =>
        fold_left
          (fun total item =>
             JS.add total
               (JS.mul (JS.parseFloat (Remote64.unit_price item))
                       (Remote64.quantity item)))
          items JS.zero
    end
  else getGuestCartTotal state.

(** [items.length] in [Subtotal (n items)], where [items] is
    [isAuthenticated ? cart?.items : guestItems]; [None] when there is no
    array. *)
Definition itemsLength (isAuthenticated : bool) (cart : option Remote64.Cart)
    (guestItems : list GuestCartItem) : option nat :=
  if isAuthenticated
  then option_map (@List.length _) (Remote64.itemsOf cart)
  else Some (List.length guestItems).

End CartPage64.

(** [frontend/app/checkout/page.tsx] *)
Module CheckoutPage64.
Import CartStore64.

Definition calculateTotal (isAuthenticated : bool) (cart : option Remote64.Cart)
    (guestItems : list GuestCartItem) : JS.number :=
  if isAuthenticated then
    match Remote64.itemsOf cart with
    | None => JS.zero
    | Some items =>
        fold_left
          (fun total item =>
             JS.add total
               (JS.mul (JS.parseFloat (Remote64.unit_price item))
                       (Remote64.quantity item)))
          items JS.zero
    end
  else
    fold_left
      (fun total item =>
         JS.add total (JS.mul (JS.parseFloat (product_price item)) (quantity item)))
      guestItems JS.zero.

(** [items.length] in [Order Items (n)]. *)
Definition itemsLength (isAuthenticated : bool) (cart : option Remote64.Cart)
    (guestItems : list GuestCartItem) : option nat :=
  if isAuthenticated
  then option_map (@List.length _) (Remote64.itemsOf cart)
  else Some (List.length guestItems).

End CheckoutPage64.

(** The navbar *)
Module Navbar64.
Import CartStore64.

Definition guestCount (isAuthenticated : bool) (guestItems : list GuestCartItem)
  : JS.number :=
  if negb isAuthenticated
  then fold_left (fun count item => JS.add count (quantity item)) guestItems JS.zero
  else JS.zero.

Definition itemCount (isAuthenticated : bool) (cart : option Remote64.Cart)
    (guestItems : list GuestCartItem) : JS.number :=
  if isAuthenticated
  then Binary64.orZero
         (option_map
            (fun items =>
               fold_left (fun count item => JS.add count (Remote64.quantity item))
                         items JS.zero)
            (Remote64.itemsOf cart))
  else guestCount isAuthenticated guestItems.

End Navbar64.

(** *** Vocabulary for carts of numbers *)

Module Lines64.
Import CartStore64.

Definition hasSku (s : string) (l : list GuestCartItem) : bool :=
  existsb (fun i => String.eqb (sku i) s) l.

Definition linesOf (s : string) (l : list GuestCartItem) : list GuestCartItem :=
  filter (fun i => String.eqb (sku i) s) l.

Definition otherLines (s : string) (l : list GuestCartItem) : list GuestCartItem :=
  filter (fun i => negb (String.eqb (sku i) s)) l.

(** What a merge does to one stored line. *)
Definition bump (s : string) (dq : JS.number) (i : GuestCartItem) : GuestCartItem :=
  if String.eqb (sku i) s then withQuantity i (JS.add (quantity i) dq) else i.

(** What the total reads of a line. *)
Definition lineKey (i : GuestCartItem) : string * string * JS.number :=
  (sku i, product_price i, quantity i).

(** The quantities of the rows of the cart in use. *)
Definition quantities (isAuthenticated : bool) (cart : option Remote64.Cart)
    (guestItems : list GuestCartItem) : list JS.number :=
  if isAuthenticated
  then match Remote64.itemsOf cart with
       | Some l => map Remote64.quantity l
       | None => []
       end
  else map quantity guestItems.

(** The numbers [xs] are the integers [ns], none of them negative. *)
Definition naturals (xs : list JS.number) (ns : list Z) : Prop :=
  Forall2 (fun x n => Binary64.represents x (inject_Z n) /\ 0 <= n) xs ns.

(** An item of a given sku, price and quantity. *)
Definition anItem (s price : string) (q : JS.number) : GuestCartItem :=
  mkItem s (s ++ "-uuid")%string "prod" "Product" price None q None.

End Lines64.

(** *** Carts of integer quantities as carts of numbers *)

Definition encode (i : CartStore.GuestCartItem) : CartStore64.GuestCartItem :=
  {| CartStore64.sku := sku i; CartStore64.sku_id := sku_id i;
     CartStore64.product_id := product_id i;
     CartStore64.product_name := product_name i;
     CartStore64.product_price := product_price i;
     CartStore64.product_image := product_image i;
     CartStore64.quantity := JS.ofZ (quantity i);
     CartStore64.vendor_name := vendor_name i |}.

Definition encodeState (state : CartStore.CartState) : CartStore64.CartState :=
  {| CartStore64.guestItems := map encode (guestItems state) |}.

(** Every quantity is a non-negative integer and they sum to at most
    [2^53], the range in which JavaScript adds integers exactly. *)
Definition safeQuantities (l : list CartStore.GuestCartItem) : Prop :=
  Forall (fun i => 0 <= quantity i) l /\ totalQuantity l <= 2 ^ 53.

(** ** [parseFloat] and number arithmetic on examples *)

Example parseFloat_price : JS.parseFloat "10.00" = JS.ofZ 10.
Proof. vm_compute. reflexivity. Qed.

Example parseFloat_prefix : JS.parseFloat "  5.50 USD" = JS.parseFloat "55e-1".
Proof. vm_compute. reflexivity. Qed.

Example parseFloat_not_a_number :
  JS.parseFloat "" = JS.NaN /\ JS.parseFloat "." = JS.NaN
  /\ JS.parseFloat "$10" = JS.NaN /\ JS.parseFloat "+-1" = JS.NaN.
Proof. repeat split; vm_compute; reflexivity. Qed.

Example parseFloat_incomplete_exponent : JS.parseFloat "12e+" = JS.ofZ 12.
Proof. vm_compute. reflexivity. Qed.

(** A no-break space (U+00A0) and a byte order mark (U+FEFF) before the
    digits are skipped like a space. *)
Example parseFloat_unicode_space :
  JS.parseFloat (String (ascii_of_nat 194) (String (ascii_of_nat 160) "10.00"))
  = JS.ofZ 10
  /\ JS.parseFloat
       (String (ascii_of_nat 239)
          (String (ascii_of_nat 187) (String (ascii_of_nat 191) " 5.50")))
     = JS.parseFloat "5.50".
Proof. split; vm_compute; reflexivity. Qed.

(** The values of some parsed prices, as rationals. *)
Example parseFloat_values :
  Binary64.represents (JS.parseFloat "10.00") 10
  /\ Binary64.represents (JS.parseFloat "5.50") (11 # 2)
  /\ Binary64.represents (JS.parseFloat "25.50") (51 # 2)
  /\ JS.parseFloat "25.50" = S754_finite false 7177611906121728 (-48)
  /\ ~ Binary64.represents (JS.parseFloat "0.1") (1 # 10).
Proof.
  split; [split; vm_compute; reflexivity|].
  split; [split; vm_compute; reflexivity|].
  split; [split; vm_compute; reflexivity|].
  split; [vm_compute; reflexivity|].
  intros [_ H]. vm_compute in H. discriminate.
Qed.

Example add_is_rounded :
  JS.add (JS.parseFloat "0.1") (JS.parseFloat "0.2")
  = JS.parseFloat "0.30000000000000004"
  /\ JS.parseFloat "0.30000000000000004" <> JS.parseFloat "0.3".
Proof. split; vm_compute; [reflexivity | discriminate]. Qed.

(** The spec's first scenario: one T-shirt, then two more. *)
Example tshirt_scenario :
  guestItems (addAll [tshirt 1; tshirt 2] initialState) = [tshirt 3]
  /\ getGuestCartTotal (addAll [tshirt 1; tshirt 2] initialState)
     = JS.parseFloat "59.97".
Proof. split; vm_compute; reflexivity. Qed.

(** ** Basic facts about the store's lines *)

Lemma withQuantity_same (i : GuestCartItem) : withQuantity i (quantity i) = i.
Proof. destruct i; reflexivity. Qed.

Lemma bump_zero (s : string) (i : GuestCartItem) : bump s 0 i = i.
Proof.
  unfold bump. destruct (String.eqb (sku i) s); [|reflexivity].
  rewrite Z.add_0_r. apply withQuantity_same.
Qed.

Lemma bump_bump (s : string) (a b : Z) (i : GuestCartItem) :
  bump s b (bump s a i) = bump s (a + b) i.
Proof.
  unfold bump. destruct (String.eqb (sku i) s) eqn:E.
  - cbn [sku withQuantity]. rewrite E. cbn [quantity withQuantity].
    unfold withQuantity; cbn. f_equal. lia.
  - rewrite E. reflexivity.
Qed.

Lemma sku_bump (s : string) (dq : Z) (i : GuestCartItem) : sku (bump s dq i) = sku i.
Proof. unfold bump. destruct (String.eqb (sku i) s); reflexivity. Qed.

Lemma find_existsb {A} (f : A -> bool) (l : list A) :
  find f l = None <-> existsb f l = false.
Proof.
  induction l as [|x l IH]; cbn; [tauto|].
  destruct (f x); cbn; [split; discriminate | exact IH].
Qed.

Lemma hasSku_false_iff (s : string) (l : list GuestCartItem) :
  hasSku s l = false <-> Forall (fun i => sku i <> s) l.
Proof.
  unfold hasSku. induction l as [|x l IH]; cbn.
  - split; auto.
  - rewrite orb_false_iff, IH, String.eqb_neq. split.
    + intros [H1 H2]. constructor; assumption.
    + intros H. inversion H; subst. split; assumption.
Qed.

Lemma hasSku_map_bump (s s' : string) (dq : Z) (l : list GuestCartItem) :
  hasSku s (map (bump s' dq) l) = hasSku s l.
Proof.
  unfold hasSku. induction l as [|x l IH]; cbn; [reflexivity|].
  rewrite sku_bump, IH. reflexivity.
Qed.

Lemma hasSku_app (s : string) (l l' : list GuestCartItem) :
  hasSku s (l ++ l') = hasSku s l || hasSku s l'.
Proof. apply existsb_app. Qed.

Lemma map_bump_absent (s : string) (dq : Z) (l : list GuestCartItem) :
  hasSku s l = false -> map (bump s dq) l = l.
Proof.
  rewrite hasSku_false_iff. induction 1 as [|x l Hx _ IH]; cbn; [reflexivity|].
  rewrite IH. unfold bump. apply String.eqb_neq in Hx. rewrite Hx. reflexivity.
Qed.

(** The two branches of [addGuestItem]. *)
Lemma addGuestItem_present (item : GuestCartItem) (state : CartState) :
  hasSku (sku item) (guestItems state) = true ->
  guestItems (addGuestItem item state)
  = map (bump (sku item) (quantity item)) (guestItems state).
Proof.
  intros H. unfold addGuestItem.
  destruct (find _ (guestItems state)) eqn:F; [reflexivity|].
  apply find_existsb in F. unfold hasSku in H. congruence.
Qed.

Lemma addGuestItem_absent (item : GuestCartItem) (state : CartState) :
  hasSku (sku item) (guestItems state) = false ->
  guestItems (addGuestItem item state) = guestItems state ++ [item].
Proof.
  intros H. unfold addGuestItem.
  destruct (find _ (guestItems state)) eqn:F; [|reflexivity].
  assert (F' : find (fun i => String.eqb (sku i) (sku item)) (guestItems state) <> None)
    by congruence.
  rewrite find_existsb in F'. unfold hasSku in H. congruence.
Qed.

Lemma addAll_cons (item : GuestCartItem) (rest : list GuestCartItem) (state : CartState) :
  addAll (item :: rest) state = addAll rest (addGuestItem item state).
Proof. reflexivity. Qed.

Lemma addAll_snoc (items : list GuestCartItem) (item : GuestCartItem) (state : CartState) :
  addAll (items ++ [item]) state = addGuestItem item (addAll items state).
Proof. unfold addAll. rewrite fold_left_app. reflexivity. Qed.

(** Adding a run of items of one sku to a cart that already has that sku
    bumps its lines by the run's total quantity. *)
Lemma addAll_same_sku_present (s : string) (rest : list GuestCartItem) :
  Forall (fun i => sku i = s) rest ->
  forall state, hasSku s (guestItems state) = true ->
  guestItems (addAll rest state) = map (bump s (totalQuantity rest)) (guestItems state).
Proof.
  induction 1 as [|x rest Hx _ IH]; intros state Hs.
  - cbn. symmetry. erewrite map_ext; [apply map_id|]. intros i. apply bump_zero.
  - rewrite addAll_cons, IH.
    + subst s. rewrite addGuestItem_present by assumption.
      rewrite map_map. apply map_ext. intros i. apply bump_bump.
    + subst s. rewrite addGuestItem_present by assumption.
      rewrite hasSku_map_bump. assumption.
Qed.

Lemma addAll_same_sku_absent (first : GuestCartItem) (rest : list GuestCartItem)
    (state : CartState) :
  Forall (fun i => sku i = sku first) rest ->
  hasSku (sku first) (guestItems state) = false ->
  guestItems (addAll (first :: rest) state)
  = guestItems state ++ [withQuantity first (totalQuantity (first :: rest))].
Proof.
  intros Hrest Habs. rewrite addAll_cons.
  rewrite (addAll_same_sku_present (sku first)); [|assumption|].
  - rewrite addGuestItem_absent by assumption.
    rewrite map_app, map_bump_absent by assumption. cbn.
    unfold bump. rewrite String.eqb_refl. reflexivity.
  - rewrite addGuestItem_absent by assumption.
    rewrite hasSku_app. cbn. rewrite String.eqb_refl. apply orb_true_r.
Qed.

Lemma linesOf_app (s : string) (l l' : list GuestCartItem) :
  linesOf s (l ++ l') = linesOf s l ++ linesOf s l'.
Proof. apply filter_app. Qed.

Lemma linesOf_absent (s : string) (l : list GuestCartItem) :
  hasSku s l = false -> linesOf s l = [].
Proof.
  rewrite hasSku_false_iff. induction 1 as [|x l Hx _ IH]; cbn; [reflexivity|].
  apply String.eqb_neq in Hx. rewrite Hx. exact IH.
Qed.

Lemma otherLines_absent (s : string) (l : list GuestCartItem) :
  hasSku s l = false -> filter (fun i => negb (String.eqb (sku i) s)) l = l.
Proof.
  rewrite hasSku_false_iff. induction 1 as [|x l Hx _ IH]; cbn; [reflexivity|].
  apply String.eqb_neq in Hx. rewrite Hx, IH. reflexivity.
Qed.

(** ** The claims about [addGuestItem] *)

Lemma Forall2_map_self {A B} (R : A -> B -> Prop) (f : A -> B) (l : list A) :
  (forall x, R x (f x)) -> Forall2 R l (map f l).
Proof. intros H. induction l; cbn; constructor; auto. Qed.


(** ** [updateGuestItemQuantity] and [removeGuestItem] *)

(** C2, as stated, fails: on a cart holding one TSHIRT-M line, an update to
    quantity 0 keeps the line, with quantity 0, where [removeGuestItem]
    empties the cart. *)
Lemma updateGuestItemQuantity_zero_is_not_remove :
  guestItems (updateGuestItemQuantity "TSHIRT-M" 0 oneTshirt)
  = [mkItem "TSHIRT-M" "sku-uuid-1" "prod-1" "T-Shirt" "19.99" None 0 None]
  /\ guestItems (removeGuestItem "TSHIRT-M" oneTshirt) = []
  /\ updateGuestItemQuantity "TSHIRT-M" 0 oneTshirt
     <> removeGuestItem "TSHIRT-M" oneTshirt.
Proof. repeat split. discriminate. Qed.

Lemma hasSku_map_set (s s' : string) (q : Z) (l : list GuestCartItem) :
  hasSku s (map (fun i => if String.eqb (sku i) s' then withQuantity i q else i) l)
  = hasSku s l.
Proof.
  unfold hasSku. induction l as [|x l IH]; cbn; [reflexivity|].
  rewrite IH. destruct (String.eqb (sku x) s'); reflexivity.
Qed.

Lemma hasSku_remove (s : string) (l : list GuestCartItem) :
  hasSku s (filter (fun i => negb (String.eqb (sku i) s)) l) = false.
Proof.
  unfold hasSku. induction l as [|x l IH]; cbn; [reflexivity|].
  destruct (String.eqb (sku x) s) eqn:E; cbn; [exact IH|].
  rewrite E, IH. reflexivity.
Qed.

(** C2, amended.  For every integer [q], positive or not,
    [updateGuestItemQuantity s q] keeps every line in place and sets the
    quantity of the lines with sku [s] to exactly [q]; it removes nothing, so
    on a cart that has the sku it never agrees with [removeGuestItem s],
    after which no line has that sku.  The cart page's
    [handleGuestUpdateQuantity] calls the store only when the new quantity is
    positive and otherwise changes nothing. *)
Theorem updateGuestItemQuantity_sets_exactly :
  forall (state : CartState) (s : string) (q : Z),
    let old := guestItems state in
    let new := guestItems (updateGuestItemQuantity s q state) in
    Forall2
      (fun o n => n = if String.eqb (sku o) s then withQuantity o q else o)
      old new
    /\ (forall line, In line (linesOf s new) -> quantity line = q)
    /\ hasSku s new = hasSku s old
    /\ hasSku s (guestItems (removeGuestItem s state)) = false
    /\ (hasSku s old = true ->
        updateGuestItemQuantity s q state <> removeGuestItem s state)
    /\ (forall cur change p,
          cur + change <= 0 ->
          CartPage.handleGuestUpdateQuantity s cur change p = p).
Proof.
  intros state s q old new. subst old new. cbn [updateGuestItemQuantity guestItems].
  repeat split.
  - apply Forall2_map_self. reflexivity.
  - intros line Hin. unfold linesOf in Hin. apply filter_In in Hin.
    destruct Hin as [Hin Hs]. apply in_map_iff in Hin.
    destruct Hin as [o [Ho _]]. subst line.
    destruct (String.eqb (sku o) s) eqn:E; [reflexivity|]. congruence.
  - apply hasSku_map_set.
  - apply hasSku_remove.
  - intros Hhas Heq.
    assert (Hh : hasSku s (guestItems (updateGuestItemQuantity s q state))
                 = hasSku s (guestItems (removeGuestItem s state)))
      by (rewrite Heq; reflexivity).
    cbn [updateGuestItemQuantity removeGuestItem guestItems] in Hh.
    rewrite hasSku_map_set, hasSku_remove in Hh. congruence.
  - intros cur change p Hle. unfold CartPage.handleGuestUpdateQuantity.
    destruct (Z.ltb_spec 0 (cur + change)); [lia | reflexivity].
Qed.

(** ** The quantity invariant *)


Lemma positiveLines_apply (a : Action) (state : CartState) :
  positiveLines state -> allowed a -> positiveLines (apply a state).
Proof.
  unfold positiveLines. intros Hpos Ha. destruct a as [item|s|s q|]; cbn [apply].
  - cbn in Ha. destruct (hasSku (sku item) (guestItems state)) eqn:E.
    + rewrite addGuestItem_present by assumption.
      apply Forall_map. revert Hpos. apply Forall_impl. intros i Hi.
      unfold bump. destruct (String.eqb (sku i) (sku item)); cbn; lia.
    + rewrite addGuestItem_absent by assumption.
      apply Forall_app. split; [assumption|]. constructor; [assumption|constructor].
  - cbn. apply Forall_forall. intros i Hi. apply filter_In in Hi.
    rewrite Forall_forall in Hpos. apply Hpos. tauto.
  - cbn in *. apply Forall_map. revert Hpos. apply Forall_impl. intros i Hi.
    destruct (String.eqb (sku i) s); cbn; lia.
  - constructor.
Qed.


(** ** Totals and counts *)

Lemma add_NaN_l (x : JS.number) : JS.add JS.NaN x = JS.NaN.
Proof. reflexivity. Qed.

Lemma add_NaN_r (x : JS.number) : JS.add x JS.NaN = JS.NaN.
Proof. destruct x; reflexivity. Qed.

Lemma mul_NaN_l (x : JS.number) : JS.mul JS.NaN x = JS.NaN.
Proof. reflexivity. Qed.

Lemma getGuestCartTotal_amounts (state : CartState) :
  getGuestCartTotal state
  = fold_left JS.add (map lineAmount (guestItems state)) JS.zero.
Proof.
  unfold getGuestCartTotal. generalize JS.zero.
  induction (guestItems state) as [|x l IH]; intros acc; cbn; [reflexivity|].
  apply IH.
Qed.

Lemma fold_add_NaN (l : list JS.number) : fold_left JS.add l JS.NaN = JS.NaN.
Proof. induction l as [|x l IH]; cbn; [reflexivity | exact IH]. Qed.

Lemma fold_add_has_NaN (l : list JS.number) (acc : JS.number) :
  In JS.NaN l -> fold_left JS.add l acc = JS.NaN.
Proof.
  revert acc. induction l as [|x l IH]; intros acc Hin; [contradiction|].
  cbn. destruct Hin as [->|Hin].
  - rewrite add_NaN_r. apply fold_add_NaN.
  - apply IH. assumption.
Qed.

(** C3, as stated, fails: with one line whose price is the string n/a and
    one line of two caps at 10.00, the total is NaN, not the 20 that the
    parsable line alone amounts to. *)
Lemma unparsable_price_total_is_not_the_rest :
  JS.parseFloat "n/a" = JS.NaN
  /\ getGuestCartTotal corruptCart = JS.NaN
  /\ getGuestCartTotal (removeGuestItem "MUG" corruptCart) = JS.parseFloat "20"
  /\ getGuestCartTotal corruptCart
     <> getGuestCartTotal (removeGuestItem "MUG" corruptCart).
Proof.
  assert (H1 : getGuestCartTotal corruptCart = JS.NaN) by (vm_compute; reflexivity).
  assert (H2 : getGuestCartTotal (removeGuestItem "MUG" corruptCart)
               = JS.parseFloat "20") by (vm_compute; reflexivity).
  split; [vm_compute; reflexivity|].
  split; [exact H1|]. split; [exact H2|].
  rewrite H1, H2. vm_compute. discriminate.
Qed.

(** C3, amended.  [getGuestCartTotal] is defined on every cart (it never
    throws), and when some line's price is unparsable, so that [parseFloat]
    gives NaN for it, the total is NaN whatever the other lines are: the
    line is not counted as 0. *)
Theorem getGuestCartTotal_unparsable_is_NaN :
  forall (state : CartState) (line : GuestCartItem),
    In line (guestItems state) ->
    JS.parseFloat (product_price line) = JS.NaN ->
    getGuestCartTotal state = JS.NaN.
Proof.
  intros state line Hin Hnan. rewrite getGuestCartTotal_amounts.
  apply fold_add_has_NaN. apply in_map_iff. exists line. split; [|assumption].
  unfold lineAmount. rewrite Hnan. apply mul_NaN_l.
Qed.

Lemma sumUpTo_ext (t t' : nat -> JS.number) (n : nat) :
  (forall k, (k < n)%nat -> t k = t' k) -> sumUpTo t n = sumUpTo t' n.
Proof.
  induction n as [|n IH]; intros H; cbn; [reflexivity|].
  rewrite IH, H by auto with arith. reflexivity.
Qed.

Lemma total_snoc (l : list GuestCartItem) (x : GuestCartItem) :
  getGuestCartTotal {| guestItems := l ++ [x] |}
  = JS.add (getGuestCartTotal {| guestItems := l |}) (lineAmount x).
Proof. unfold getGuestCartTotal. cbn. rewrite fold_left_app. reflexivity. Qed.

Lemma total_is_sumUpTo (l : list GuestCartItem) :
  getGuestCartTotal {| guestItems := l |} = sumUpTo (amountAt l) (List.length l).
Proof.
  induction l as [|x l IH] using rev_ind; [reflexivity|].
  rewrite total_snoc, IH, List.length_app, Nat.add_comm. cbn.
  f_equal.
  - apply sumUpTo_ext. intros k Hk. unfold amountAt.
    rewrite nth_error_app1 by assumption. reflexivity.
  - unfold amountAt. rewrite nth_error_app2, Nat.sub_diag by auto. reflexivity.
Qed.

Lemma count_from (l : list GuestCartItem) (acc : Z) :
  fold_left (fun count item => count + quantity item) l acc = acc + totalQuantity l.
Proof.
  revert acc. induction l as [|x l IH]; intros acc; [cbn; lia|].
  change (totalQuantity (x :: l)) with (quantity x + totalQuantity l).
  cbn [fold_left]. rewrite IH. lia.
Qed.

Lemma getGuestItemCount_total (state : CartState) :
  getGuestItemCount state = totalQuantity (guestItems state).
Proof. unfold getGuestItemCount. rewrite count_from. lia. Qed.

(** ** Checkout and the guest cart *)

Section Checkout.
Import UI CheckoutPage.

Variable isAuthenticated : bool.
Variable api : CheckoutData -> Outcome.

Lemma onError_store (error : Failure) (p : Page) :
  store (onError error p) = store p.
Proof. reflexivity. Qed.

Lemma onSuccess_store (data : Response) (p : Page) :
  store (onSuccess isAuthenticated data p)
  = if isAuthenticated then store p else dispatch ClearGuestCart (store p).
Proof.
  unfold onSuccess.
  destruct (truthyField (checkout_url data)), (truthyField (order_id data)),
    isAuthenticated; reflexivity.
Qed.

Lemma onSuccess_invokes (data : Response) (p : Page) (a : Action) :
  In (Invoke a) (log (onSuccess isAuthenticated data p)) ->
  In (Invoke a) (log p) \/ (a = ClearGuestCart /\ isAuthenticated = false).
Proof.
  unfold onSuccess.
  destruct (truthyField (checkout_url data)), (truthyField (order_id data)),
    isAuthenticated; cbn; rewrite ?in_app_iff; cbn;
    intuition (try discriminate; try congruence).
Qed.

Lemma mutate_store (data : CheckoutData) (p : Page) :
  store (mutate isAuthenticated api data p) = store p
  \/ (isAuthenticated = false
      /\ (exists r, api data = Resolved r)
      /\ store (mutate isAuthenticated api data p)
         = dispatch ClearGuestCart (store p)).
Proof.
  unfold mutate. destruct (api data) as [r|e] eqn:E.
  - rewrite onSuccess_store. destruct isAuthenticated; [left; reflexivity|].
    right. repeat split. exists r. reflexivity.
  - left. apply onError_store.
Qed.

(** C7.  When the remote checkout call fails, the cart store, in memory
    and as persisted, is exactly what it was, and the only effects are the
    error toast and the console message.  A store action is invoked by the
    mutation only on success and only for a guest, and it is
    [clearGuestCart]; the same holds for [handleCheckout] as a whole,
    which otherwise leaves the store untouched. *)
Theorem failed_checkout_keeps_guest_cart :
  forall (data : CheckoutData) (p : Page),
    (forall error,
       api data = Rejected error ->
       store (mutate isAuthenticated api data p) = store p
       /\ exists msg,
            log (mutate isAuthenticated api data p)
            = log p ++ [ToastError msg; ConsoleError "Checkout error:"])
    /\ (forall a,
          In (Invoke a) (log (mutate isAuthenticated api data p)) ->
          In (Invoke a) (log p)
          \/ (a = ClearGuestCart /\ isAuthenticated = false
              /\ exists r, api data = Resolved r))
    /\ (forall f p',
          handleCheckout isAuthenticated api f p = Some p' ->
          store p' = store p
          \/ (isAuthenticated = false
              /\ (exists d r, api d = Resolved r)
              /\ store p' = dispatch ClearGuestCart (store p))).
Proof.
  intros data p. split; [|split].
  - intros error E. unfold mutate. rewrite E. split; [reflexivity|].
    unfold onError. eexists. reflexivity.
  - intros a. unfold mutate. destruct (api data) as [r|e] eqn:E.
    + intros H. apply onSuccess_invokes in H. destruct H as [H|[H1 H2]];
        [left; assumption|]. right. repeat split; try assumption.
      exists r. reflexivity.
    + cbn. rewrite in_app_iff. cbn. intros [H|[H|[H|[]]]];
        [left; assumption | discriminate | discriminate].
  - intros f p' H. unfold handleCheckout in H.
    assert (M : forall d, store (mutate isAuthenticated api d p) = store p
                \/ (isAuthenticated = false
                    /\ (exists d' r, api d' = Resolved r)
                    /\ store (mutate isAuthenticated api d p)
                       = dispatch ClearGuestCart (store p))).
    { intros d. destruct (mutate_store d p) as [E|(A & (r & R) & E)];
        [left; exact E | right; eauto]. }
    destruct isAuthenticated.
    + destruct (negb (JS.truthy (selectedAddress f)));
        [inversion H; left; reflexivity|].
      destruct (lookupAddress f) as [address|]; [|discriminate].
      inversion H. apply M.
    + destruct (negb (guestFieldsFilled f));
        [inversion H; left; reflexivity|].
      inversion H. apply M.
Qed.

End Checkout.

(** ** Login, logout and the guest cart *)

Lemma rehydrates_fresh : rehydrates freshStore.
Proof. reflexivity. Qed.

Lemma rehydrates_set (f : CartState -> CartState) (c : Store) : rehydrates (set f c).
Proof. reflexivity. Qed.

Lemma rehydrates_create (persisted : option CartState) : rehydrates (create persisted).
Proof. reflexivity. Qed.

Lemma rehydrates_step (s : Session.State) (e : Session.Step) :
  rehydrates (Session.cart s) -> rehydrates (Session.cart (Session.step s e)).
Proof.
  intros H. destruct e as [a|ok profile|ok]; cbn.
  - apply rehydrates_set.
  - assumption.
  - apply rehydrates_create.
Qed.

Lemma rehydrates_run (es : list Session.Step) (s : Session.State) :
  rehydrates (Session.cart s) -> rehydrates (Session.cart (Session.run es s)).
Proof.
  revert s. induction es as [|e es IH]; intros s H; [assumption|].
  cbn. apply IH. apply rehydrates_step. assumption.
Qed.

(** C8, as stated, fails: a guest adds a T-shirt, logs in, and logs out;
    the session before the logout is authenticated, the one after it is a
    guest session, and the guest cart still holds the T-shirt. *)
Lemma guest_cart_survives_logout :
  let tshirt := mkItem "TSHIRT-M" "sku-uuid-1" "prod-1" "T-Shirt" "19.99" None 1 None in
  let before :=
    Session.run [Session.CartOp (AddGuestItem tshirt);
                 Session.Login true (Some alice)] Session.initial in
  let after := Session.step before (Session.Logout true) in
  AuthStore.isAuthenticated (Session.auth before) = true
  /\ AuthStore.isAuthenticated (Session.auth after) = false
  /\ Session.guestLines after = [tshirt]
  /\ Session.guestLines after <> [].
Proof. cbv zeta. repeat split. discriminate. Qed.

(** C8, amended.  In every state reached from the initial session by
    cart-store operations, logins and logouts, a logout ends the
    authenticated session and leaves the cart store exactly as it was
    before it, and so does a login: the guest cart after a logout holds the
    lines it held before, and is empty only if it was empty already. *)
Theorem logout_leaves_guest_cart :
  forall (es : list Session.Step) (ok : bool) (profile : option AuthStore.User),
    let s := Session.run es Session.initial in
    AuthStore.isAuthenticated (Session.auth (Session.step s (Session.Logout ok)))
    = false
    /\ Session.cart (Session.step s (Session.Logout ok)) = Session.cart s
    /\ Session.guestLines (Session.step s (Session.Logout ok))
       = Session.guestLines s
    /\ Session.guestLines (Session.step s (Session.Login ok profile))
       = Session.guestLines s.
Proof.
  intros es ok profile s.
  assert (H : rehydrates (Session.cart s))
    by (apply rehydrates_run, rehydrates_fresh).
  split; [reflexivity|]. split; [exact H|]. split; [|reflexivity].
  unfold Session.guestLines. cbn [Session.step Session.handleLogout Session.cart].
  rewrite H. reflexivity.
Qed.

(** ** Reordering the adds *)

Lemma skuQuantity_app (s : string) (l l' : list GuestCartItem) :
  skuQuantity s (l ++ l') = skuQuantity s l + skuQuantity s l'.
Proof.
  unfold skuQuantity. induction l as [|x l IH]; cbn [app fold_right]; [lia|].
  rewrite IH. lia.
Qed.


Lemma skuQuantity_absent (s : string) (l : list GuestCartItem) :
  (forall i, In i l -> sku i <> s) -> skuQuantity s l = 0.
Proof.
  unfold skuQuantity. induction l as [|x l IH]; intros H; cbn [fold_right]; [reflexivity|].
  rewrite IH by (intros i Hi; apply H; right; assumption).
  assert (E : String.eqb (sku x) s = false)
    by (apply String.eqb_neq, H; left; reflexivity).
  rewrite E. reflexivity.
Qed.


Lemma map_sku_bump (s : string) (dq : Z) (l : list GuestCartItem) :
  map sku (map (bump s dq) l) = map sku l.
Proof. rewrite map_map. apply map_ext. intros i. apply sku_bump. Qed.

Lemma summarises_add (l c : list GuestCartItem) (x : GuestCartItem) :
  summarises l c ->
  summarises (l ++ [x]) (guestItems (addGuestItem x {| guestItems := c |})).
Proof.
  intros (Hnd & Hlines & Hitems).
  assert (Hq : forall s, skuQuantity s (l ++ [x])
                         = skuQuantity s l + (if String.eqb (sku x) s then quantity x else 0))
    by (intros s; rewrite skuQuantity_app; cbn; lia).
  destruct (hasSku (sku x) c) eqn:Hx.
  - rewrite addGuestItem_present by assumption. cbn [guestItems].
    split; [|split].
    + rewrite map_sku_bump. assumption.
    + intros line' Hin. apply in_map_iff in Hin. destruct Hin as (line & <- & Hin).
      destruct (Hlines line Hin) as (it & Hit & Hs & Hp & Hqty).
      exists it. rewrite sku_bump, Hq. split; [apply in_or_app; left; assumption|].
      split; [assumption|]. unfold bump.
      rewrite (String.eqb_sym (sku x) (sku line)).
      destruct (String.eqb (sku line) (sku x)); cbn; split; (assumption || lia).
    + intros it Hit. rewrite hasSku_map_bump. apply in_app_or in Hit.
      destruct Hit as [Hit|[<-|[]]]; [apply Hitems; assumption | assumption].
  - rewrite addGuestItem_absent by assumption. cbn [guestItems].
    assert (Hfresh : forall line, In line c -> sku line <> sku x).
    { apply hasSku_false_iff in Hx. rewrite Forall_forall in Hx. exact Hx. }
    split; [|split].
    + rewrite map_app. cbn. apply NoDup_app; [assumption | repeat constructor; intros [] |].
      intros s Hs [<-|[]]. apply in_map_iff in Hs. destruct Hs as (line & E & Hin).
      exact (Hfresh line Hin E).
    + intros line Hin. apply in_app_or in Hin. destruct Hin as [Hin|[<-|[]]].
      * destruct (Hlines line Hin) as (it & Hit & Hs & Hp & Hqty).
        exists it. rewrite Hq. split; [apply in_or_app; left; assumption|].
        split; [assumption|]. split; [assumption|].
        assert (E : String.eqb (sku x) (sku line) = false)
          by (apply String.eqb_neq; intros E; symmetry in E; exact (Hfresh line Hin E)).
        rewrite E. lia.
      * exists x. rewrite Hq, String.eqb_refl.
        split; [apply in_or_app; right; left; reflexivity|].
        split; [reflexivity|]. split; [reflexivity|].
        rewrite skuQuantity_absent; [lia|].
        intros i Hi E. apply Hitems in Hi. rewrite E in Hi. congruence.
    + intros it Hit. rewrite hasSku_app. apply in_app_or in Hit.
      destruct Hit as [Hit|[<-|[]]].
      * rewrite Hitems by assumption. reflexivity.
      * cbn. rewrite String.eqb_refl. apply orb_true_r.
Qed.

Lemma addAll_summarises (l : list GuestCartItem) :
  summarises l (guestItems (addAll l initialState)).
Proof.
  induction l as [|x l IH] using rev_ind.
  - split; [constructor|]. split; intros ? [].
  - rewrite addAll_snoc. destruct (addAll l initialState) as [c].
    apply summarises_add. assumption.
Qed.




(** Addition of numbers is commutative. *)
Lemma add_comm (a b : JS.number) : JS.add a b = JS.add b a.
Proof.
  destruct a as [sa|sa| |sa ma ea], b as [sb|sb| |sb mb eb];
    try reflexivity; try (destruct sa, sb; reflexivity).
  unfold JS.add, SFadd. rewrite (Z.min_comm eb ea). f_equal. apply Z.add_comm.
Qed.









(** ** The theorems at concrete carts *)


Lemma updateGuestItemQuantity_sets_exactly_witness :
  hasSku "TSHIRT-M" (guestItems oneTshirt) = true
  /\ updateGuestItemQuantity "TSHIRT-M" 5 oneTshirt
     <> removeGuestItem "TSHIRT-M" oneTshirt
  /\ 1 + -1 <= 0
  /\ CartPage.handleGuestUpdateQuantity "TSHIRT-M" 1 (-1)
       (UI.mkPage (create (Some oneTshirt)) [])
     = UI.mkPage (create (Some oneTshirt)) [].
Proof.
  pose proof (updateGuestItemQuantity_sets_exactly oneTshirt "TSHIRT-M" 5) as H.
  cbv zeta in H. destruct H as (_ & _ & _ & _ & Hne & Hpage).
  split; [reflexivity|]. split; [apply Hne; reflexivity|].
  split; [discriminate|]. apply Hpage. discriminate.
Defined.

Lemma getGuestCartTotal_unparsable_is_NaN_witness :
  JS.parseFloat "n/a" = JS.NaN /\ getGuestCartTotal corruptCart = JS.NaN.
Proof.
  split; [vm_compute; reflexivity|].
  apply (getGuestCartTotal_unparsable_is_NaN corruptCart
           (mkItem "MUG" "sku-uuid-2" "prod-2" "Mug" "n/a" None 1 None)).
  - left. reflexivity.
  - vm_compute. reflexivity.
Defined.


Lemma failed_checkout_keeps_guest_cart_witness :
  let api := fun _ => CheckoutPage.Rejected (CheckoutPage.mkFailure None) in
  let data := CheckoutPage.AuthCheckout "cash_on_delivery"
                (CheckoutPage.mkAddress "Ann" "555" "1 Main St" "" "Springfield"
                   "IL" "62701" "USA") in
  let p := UI.mkPage (create (Some oneTshirt)) [] in
  UI.store (CheckoutPage.mutate false api data p) = UI.store p.
Proof.
  cbv zeta.
  exact (proj1 (proj1 (failed_checkout_keeps_guest_cart false
                         (fun _ => CheckoutPage.Rejected (CheckoutPage.mkFailure None))
                         _ _) _ eq_refl)).
Defined.

(** ** More about the cart store *)

Lemma totalQuantity_app (l l' : list GuestCartItem) :
  totalQuantity (l ++ l') = totalQuantity l + totalQuantity l'.
Proof.
  unfold totalQuantity. induction l as [|x l IH]; cbn [app fold_right]; [lia|].
  rewrite IH. lia.
Qed.

Lemma totalQuantity_perm (l l' : list GuestCartItem) :
  Permutation l l' -> totalQuantity l = totalQuantity l'.
Proof. unfold totalQuantity. induction 1; cbn [fold_right]; lia. Qed.

(** The lines of a sku and the others share out the quantities. *)
Lemma totalQuantity_split (s : string) (l : list GuestCartItem) :
  totalQuantity l = totalQuantity (linesOf s l) + totalQuantity (otherLines s l).
Proof.
  unfold linesOf, otherLines, totalQuantity.
  induction l as [|x l IH]; cbn [filter fold_right]; [lia|].
  destruct (String.eqb (sku x) s); cbn [negb fold_right]; lia.
Qed.

Lemma totalQuantity_map_set (s : string) (q : Z) (l : list GuestCartItem) :
  totalQuantity (map (fun i => if String.eqb (sku i) s then withQuantity i q else i) l)
  = totalQuantity (otherLines s l) + q * Z.of_nat (List.length (linesOf s l)).
Proof.
  unfold linesOf, otherLines, totalQuantity.
  induction l as [|x l IH]; cbn [map filter fold_right]; [cbn; lia|].
  rewrite IH. destruct (String.eqb (sku x) s);
    cbn [negb fold_right List.length quantity withQuantity]; lia.
Qed.

Lemma totalQuantity_map_bump (s : string) (dq : Z) (l : list GuestCartItem) :
  totalQuantity (map (bump s dq) l)
  = totalQuantity l + dq * Z.of_nat (List.length (linesOf s l)).
Proof.
  unfold linesOf, totalQuantity, bump.
  induction l as [|x l IH]; cbn [map filter fold_right]; [cbn; lia|].
  rewrite IH. destruct (String.eqb (sku x) s);
    cbn [fold_right List.length quantity withQuantity]; lia.
Qed.

(** With distinct skus a sku has at most one line. *)
Lemma linesOf_NoDup (s : string) (l : list GuestCartItem) :
  NoDup (map sku l) -> hasSku s l = true -> List.length (linesOf s l) = 1%nat.
Proof.
  induction l as [|x l IH]; cbn [map]; intros ND H; [discriminate|].
  inversion ND as [|? ? Hnotin ND']; subst. unfold linesOf, hasSku in *.
  cbn [filter existsb] in *. destruct (String.eqb_spec (sku x) s) as [E|E].
  - cbn [List.length]. f_equal.
    fold (linesOf s l). rewrite linesOf_absent; [reflexivity|].
    apply hasSku_false_iff, Forall_forall. intros i Hi Ei. apply Hnotin.
    rewrite E, <- Ei. apply in_map. assumption.
  - apply IH; assumption.
Qed.

Lemma removeGuestItem_absent (s : string) (state : CartState) :
  hasSku s (guestItems state) = false -> removeGuestItem s state = state.
Proof.
  intros H. destruct state as [l]. unfold removeGuestItem. cbn [guestItems] in *.
  rewrite otherLines_absent by assumption. reflexivity.
Qed.

Lemma filter_map_bump (s : string) (dq : Z) (l : list GuestCartItem) :
  filter (fun i => negb (String.eqb (sku i) s)) (map (bump s dq) l)
  = filter (fun i => negb (String.eqb (sku i) s)) l.
Proof.
  induction l as [|x l IH]; cbn [map filter]; [reflexivity|].
  rewrite sku_bump, IH. unfold bump.
  destruct (String.eqb (sku x) s) eqn:E; cbn [negb]; reflexivity.
Qed.

(** X2.  Adding an item and then removing its sku gives the cart that the
    removal alone gives: the add is undone, and with it whatever the cart
    held of that sku before.  On a cart without the sku the two calls
    together change nothing. *)
Theorem add_then_remove :
  forall (state : CartState) (item : GuestCartItem),
    removeGuestItem (sku item) (addGuestItem item state)
    = removeGuestItem (sku item) state
    /\ (hasSku (sku item) (guestItems state) = false ->
        removeGuestItem (sku item) (addGuestItem item state) = state).
Proof.
  intros state item.
  assert (E : removeGuestItem (sku item) (addGuestItem item state)
              = removeGuestItem (sku item) state).
  { unfold removeGuestItem. f_equal.
    destruct (hasSku (sku item) (guestItems state)) eqn:H.
    - rewrite addGuestItem_present by assumption. apply filter_map_bump.
    - rewrite addGuestItem_absent by assumption. rewrite filter_app. cbn [filter].
      rewrite String.eqb_refl. cbn [negb]. apply app_nil_r. }
  split; [exact E|]. intros H. rewrite E. apply removeGuestItem_absent. assumption.
Qed.

Lemma NoDup_skus_apply (a : Action) (state : CartState) :
  NoDup (map sku (guestItems state)) -> NoDup (map sku (guestItems (apply a state))).
Proof.
  intros ND. destruct a as [item|s|s q|]; cbn [apply].
  - destruct (hasSku (sku item) (guestItems state)) eqn:H.
    + rewrite addGuestItem_present by assumption. rewrite map_sku_bump. assumption.
    + rewrite addGuestItem_absent by assumption. rewrite map_app. cbn [map].
      apply NoDup_app; [assumption | repeat constructor; intros [] |].
      intros t Ht [<-|[]]. apply in_map_iff in Ht. destruct Ht as (i & Ei & Hi).
      apply hasSku_false_iff in H. rewrite Forall_forall in H. exact (H i Hi Ei).
  - cbn [removeGuestItem guestItems]. revert ND.
    induction (guestItems state) as [|x l IH]; cbn [map filter]; intros ND;
      [constructor|]. inversion ND as [|? ? Hnotin ND']; subst.
    destruct (negb (String.eqb (sku x) s)); [|apply IH; assumption].
    cbn [map]. constructor; [|apply IH; assumption].
    intros Hin. apply Hnotin. apply in_map_iff in Hin. destruct Hin as (i & Ei & Hi).
    apply filter_In in Hi. rewrite <- Ei. apply in_map. tauto.
  - cbn [updateGuestItemQuantity guestItems]. rewrite map_map.
    erewrite map_ext; [exact ND|]. intros i. cbn.
    destruct (String.eqb (sku i) s); reflexivity.
  - constructor.
Qed.

(** X3.  Whatever actions are dispatched on a fresh store, in any number
    and order, no two lines of the cart have the same sku, and what is
    persisted is the cart in memory, so that a page load restores exactly
    this store. *)
Theorem store_keeps_skus_distinct :
  forall (acts : list Action),
    let st := runActions acts freshStore in
    NoDup (map sku (lines st)) /\ create (storage st) = st.
Proof.
  intros acts. cbv zeta.
  assert (G : forall st, NoDup (map sku (lines st)) -> create (storage st) = st ->
              NoDup (map sku (lines (runActions acts st)))
              /\ create (storage (runActions acts st)) = runActions acts st).
  { induction acts as [|a acts IH]; intros st ND R; [split; assumption|].
    cbn [runActions fold_left]. apply IH.
    - apply NoDup_skus_apply. exact ND.
    - reflexivity. }
  apply G; [constructor | reflexivity].
Qed.

Lemma count_add_absent (state : CartState) (item : GuestCartItem) :
  hasSku (sku item) (guestItems state) = false ->
  getGuestItemCount (addGuestItem item state)
  = getGuestItemCount state + quantity item.
Proof.
  intros H. rewrite !getGuestItemCount_total, addGuestItem_absent by assumption.
  rewrite totalQuantity_app. cbn. lia.
Qed.

Lemma count_add_present (state : CartState) (item : GuestCartItem) :
  hasSku (sku item) (guestItems state) = true ->
  getGuestItemCount (addGuestItem item state)
  = getGuestItemCount state
    + quantity item * Z.of_nat (List.length (linesOf (sku item) (guestItems state))).
Proof.
  intros H. rewrite !getGuestItemCount_total, addGuestItem_present by assumption.
  apply totalQuantity_map_bump.
Qed.

Lemma count_add_distinct (state : CartState) (item : GuestCartItem) :
  NoDup (map sku (guestItems state)) ->
  getGuestItemCount (addGuestItem item state)
  = getGuestItemCount state + quantity item.
Proof.
  intros ND. destruct (hasSku (sku item) (guestItems state)) eqn:H.
  - rewrite count_add_present by assumption.
    rewrite linesOf_NoDup by assumption. lia.
  - apply count_add_absent. assumption.
Qed.

Lemma count_addAll (l : list GuestCartItem) :
  getGuestItemCount (addAll l initialState) = totalQuantity l.
Proof.
  induction l as [|x l IH] using rev_ind; [reflexivity|].
  rewrite addAll_snoc, totalQuantity_app.
  rewrite count_add_distinct.
  - rewrite IH. cbn. lia.
  - exact (proj1 (addAll_summarises l)).
Qed.

Lemma count_update (state : CartState) (s : string) (q : Z) :
  getGuestItemCount (updateGuestItemQuantity s q state)
  = getGuestItemCount state - totalQuantity (linesOf s (guestItems state))
    + q * Z.of_nat (List.length (linesOf s (guestItems state))).
Proof.
  rewrite !getGuestItemCount_total. cbn [updateGuestItemQuantity guestItems].
  rewrite totalQuantity_map_set, (totalQuantity_split s (guestItems state)). lia.
Qed.

(** ** The cart page, the badge and the row counts *)

Lemma linesOf_the_line (item : GuestCartItem) (l : list GuestCartItem) :
  NoDup (map sku l) -> In item l -> linesOf (sku item) l = [item].
Proof.
  induction l as [|x l IH]; cbn [map]; intros ND Hin; [contradiction|].
  inversion ND as [|? ? Hnotin ND']; subst. unfold linesOf in *. cbn [filter].
  destruct Hin as [->|Hin].
  - rewrite String.eqb_refl. f_equal. fold (linesOf (sku item) l).
    apply linesOf_absent, hasSku_false_iff, Forall_forall.
    intros i Hi E. apply Hnotin. rewrite <- E. apply in_map. assumption.
  - destruct (String.eqb_spec (sku x) (sku item)) as [E|E].
    + exfalso. apply Hnotin. rewrite E. apply in_map. assumption.
    + apply IH; assumption.
Qed.

Lemma fold_sum {A} (f : A -> Z) (l : list A) (acc : Z) :
  fold_left (fun count item => count + f item) l acc = acc + sumZ (map f l).
Proof.
  revert acc. unfold sumZ. induction l as [|x l IH]; intros acc; cbn [fold_left map fold_right];
    [lia|]. rewrite IH. lia.
Qed.

Lemma itemCount_sum (isAuthenticated : bool) (cart : option Remote.Cart)
    (guestItems : list GuestCartItem) :
  Navbar.itemCount isAuthenticated cart guestItems
  = sumZ (quantities isAuthenticated cart guestItems).
Proof.
  unfold Navbar.itemCount, Navbar.guestCount, quantities.
  destruct isAuthenticated; cbn [negb].
  - destruct (Remote.itemsOf cart) as [l|]; cbn [option_map Navbar.orZero];
      [|reflexivity]. rewrite fold_sum.
    destruct (Z.eqb_spec (0 + sumZ (map Remote.quantity l)) 0); lia.
  - rewrite fold_sum. lia.
Qed.

Lemma rows_quantities (isAuthenticated : bool) (cart : option Remote.Cart)
    (guestItems : list GuestCartItem) (n : nat) :
  CartView.rows isAuthenticated cart guestItems = Some n ->
  List.length (quantities isAuthenticated cart guestItems) = n.
Proof.
  unfold CartView.rows, quantities. destruct isAuthenticated.
  - destruct (Remote.itemsOf cart); cbn; [|discriminate].
    intros [= <-]. apply List.length_map.
  - intros [= <-]. apply List.length_map.
Qed.

Lemma sumZ_ge_length (l : list Z) :
  Forall (fun q => 1 <= q) l ->
  Z.of_nat (List.length l) <= sumZ l
  /\ (Exists (fun q => 1 < q) l -> Z.of_nat (List.length l) < sumZ l).
Proof.
  unfold sumZ. induction 1 as [|q l Hq _ [IH1 IH2]]; cbn [List.length fold_right].
  - split; [lia|]. intros H. inversion H.
  - split; [lia|]. intros H. inversion H; subst; [lia|].
    specialize (IH2 ltac:(assumption)). lia.
Qed.


(** X9.  When every row has a quantity of at least 1, the pages show the
    empty-cart state exactly when the navbar shows no badge, for a guest and
    for an authenticated shopper, also while the remote cart has no items
    array. *)
Theorem empty_page_iff_no_badge :
  forall (isAuthenticated : bool) (cart : option Remote.Cart)
         (guestItems : list GuestCartItem),
    Forall (fun q => 1 <= q) (quantities isAuthenticated cart guestItems) ->
    CartView.showsEmpty isAuthenticated cart guestItems
    = negb (CartView.showsBadge isAuthenticated cart guestItems).
Proof.
  intros isAuthenticated cart guestItems Hpos.
  unfold CartView.showsBadge, CartView.showsEmpty. rewrite itemCount_sum.
  destruct (CartView.rows isAuthenticated cart guestItems) as [n|] eqn:R.
  - pose proof (rows_quantities _ _ _ _ R) as L.
    destruct (sumZ_ge_length _ Hpos) as [Hle _]. rewrite L in Hle.
    destruct n as [|n].
    + destruct (quantities isAuthenticated cart guestItems); [reflexivity|discriminate].
    + cbn [Nat.eqb]. destruct (Z.ltb_spec 0 (sumZ (quantities isAuthenticated cart guestItems)));
        [reflexivity | lia].
  - unfold CartView.rows, quantities in *. destruct isAuthenticated; [|discriminate].
    destruct (Remote.itemsOf cart); [discriminate | reflexivity].
Qed.

(** ** More about the checkout page *)

Lemma onSuccess_log (isAuthenticated : bool) (data : CheckoutPage.Response) (p : UI.Page) :
  UI.log (CheckoutPage.onSuccess isAuthenticated data p)
  = UI.log p
    ++ (if isAuthenticated then [] else [UI.Invoke ClearGuestCart])
    ++ match CheckoutPage.truthyField (CheckoutPage.checkout_url data) with
       | Some url => [UI.ToastSuccess "Redirecting to payment..."; UI.SetLocationHref url]
       | None =>
           match CheckoutPage.truthyField (CheckoutPage.order_id data) with
           | Some _ =>
               [UI.ToastSuccess "Order placed successfully!";
                UI.ToastSuccess "Order confirmation sent to your email!";
                UI.RouterPush (if isAuthenticated then "/account/orders" else "/")]
           | None => []
           end
       end.
Proof.
  unfold CheckoutPage.onSuccess.
  destruct (CheckoutPage.truthyField (CheckoutPage.checkout_url data)),
    (CheckoutPage.truthyField (CheckoutPage.order_id data)), isAuthenticated;
    cbn; rewrite <- ?app_assoc, ?app_nil_r; reflexivity.
Qed.

(** X10.  After a successful checkout a guest's cart is empty, in memory
    and as persisted, whatever the response holds: also when it redirects
    to a payment that is still to be made, and when it has neither a
    checkout url nor an order id.  An authenticated shopper's store is not
    touched.  The page navigates at most once: to the checkout url when
    there is one, even if an order id came with it, and otherwise, when
    there is an order id, to [/account/orders] or to [/]. *)
Theorem successful_checkout_effect :
  forall (data : CheckoutPage.Response) (p : UI.Page) (isAuthenticated : bool),
    lines (UI.store (CheckoutPage.onSuccess false data p)) = []
    /\ storage (UI.store (CheckoutPage.onSuccess false data p)) = Some initialState
    /\ UI.store (CheckoutPage.onSuccess true data p) = UI.store p
    /\ exists new,
         UI.log (CheckoutPage.onSuccess isAuthenticated data p) = UI.log p ++ new
         /\ (List.length (filter isNavigation new) <= 1)%nat
         /\ (forall url,
               CheckoutPage.truthyField (CheckoutPage.checkout_url data) = Some url ->
               filter isNavigation new = [UI.SetLocationHref url])
         /\ (CheckoutPage.truthyField (CheckoutPage.checkout_url data) = None ->
             filter isNavigation new
             = match CheckoutPage.truthyField (CheckoutPage.order_id data) with
               | Some _ =>
                   [UI.RouterPush (if isAuthenticated then "/account/orders" else "/")]
               | None => []
               end).
Proof.
  intros data p isAuthenticated.
  split; [rewrite onSuccess_store; reflexivity|].
  split; [rewrite onSuccess_store; reflexivity|].
  split; [rewrite onSuccess_store; reflexivity|].
  eexists. split; [rewrite onSuccess_log; reflexivity|].
  destruct (CheckoutPage.truthyField (CheckoutPage.checkout_url data)) as [u|] eqn:U,
    (CheckoutPage.truthyField (CheckoutPage.order_id data)) as [o|] eqn:O,
    isAuthenticated; cbn; repeat split; try lia; try discriminate;
    try (intros url [= <-]; reflexivity); try reflexivity.
Qed.

(** X11.  A failed checkout always shows a toast with a message that is
    not empty: the detail of the error when it has one that is not empty,
    and the fixed text otherwise. *)
Theorem checkout_error_message :
  forall (error : CheckoutPage.Failure) (p : UI.Page),
    exists msg,
      UI.log (CheckoutPage.onError error p)
      = UI.log p ++ [UI.ToastError msg; UI.ConsoleError "Checkout error:"]
      /\ msg <> ""
      /\ (CheckoutPage.detail error = Some msg
          \/ ((CheckoutPage.detail error = None \/ CheckoutPage.detail error = Some "")
              /\ msg = "Checkout failed")).
Proof.
  intros [d] p. unfold CheckoutPage.onError, CheckoutPage.truthyField. cbn.
  destruct d as [[|c d]|]; cbn; eexists; (split; [reflexivity|]);
    split; try discriminate; auto.
Qed.



(** X13.  Selecting a shipping rate whose cost is not above zero, a free
    rate or one whose cost does not parse, records the rate, so that the
    rate no longer keeps the button disabled, while the shipping row still
    reads that a method is to be selected; a rate with a cost above zero
    shows that cost.  A cost that does not parse makes the total NaN. *)
Theorem shipping_row_of_selected_rate :
  forall (rate : Shipping.Rate) (s : Shipping.State),
    let s' := Shipping.onChange rate s in
    let cost := JS.parseFloat (Shipping.base_cost rate) in
    Shipping.selectedShippingRate s' = Some (Shipping.id rate)
    /\ Shipping.noRate s' = negb (JS.truthy (Shipping.id rate))
    /\ (Shipping.gt cost JS.zero = false ->
        Shipping.shippingRow s' = Shipping.Text "Select shipping method")
    /\ (Shipping.gt cost JS.zero = true -> Shipping.shippingRow s' = Shipping.Price cost)
    /\ (cost = JS.NaN ->
        Shipping.gt cost JS.zero = false
        /\ forall isAuthenticated cart guestItems,
             Shipping.totalRow isAuthenticated cart guestItems s'
             = Shipping.Price JS.NaN).
Proof.
  intros rate s s' cost. subst s' cost.
  unfold Shipping.onChange, Shipping.handleSelectShippingRate, Shipping.shippingRow,
    Shipping.noRate, Shipping.totalRow.
  cbn [Shipping.selectedShippingRate Shipping.shippingCost].
  split; [reflexivity|]. split; [reflexivity|].
  split; [intros ->; reflexivity|]. split; [intros ->; reflexivity|].
  intros ->. split; [reflexivity|]. intros. rewrite add_NaN_r. reflexivity.
Qed.

(** ** The pages that add to the cart *)

Lemma handleAddToCart_guest_store (q : Z) (product : ProductPages.Product) (p : UI.Page) :
  UI.store (fst (ProductPages.handleAddToCart false q product p))
  = match ProductPages.firstSku product with
    | Some s => dispatch (AddGuestItem (ProductPages.guestItemOf product s q)) (UI.store p)
    | None => UI.store p
    end.
Proof.
  unfold ProductPages.handleAddToCart.
  destruct (ProductPages.firstSku product); reflexivity.
Qed.

Lemma clicks_lines (n : nat) (product : ProductPages.Product) (s : ProductPages.Sku)
    (p : UI.Page) :
  ProductPages.firstSku product = Some s ->
  lines (UI.store (clicks n product p))
  = guestItems (addAll (repeat (ProductPages.guestItemOf product s 1) n)
                  (current (UI.store p))).
Proof.
  intros Hs. induction n as [|n IH]; [reflexivity|].
  change (clicks (S n) product p)
    with (fst (ProductPages.handleAddToCart false 1 product (clicks n product p))).
  unfold lines in *. rewrite handleAddToCart_guest_store, Hs.
  cbn [dispatch set current apply repeat].
  rewrite repeat_cons, addAll_snoc.
  assert (E : forall a b x, guestItems a = guestItems b ->
              guestItems (addGuestItem x a) = guestItems (addGuestItem x b)).
  { intros [a] [b] x. cbn [guestItems]. intros ->. reflexivity. }
  apply E. exact IH.
Qed.

Lemma totalQuantity_repeat (x : GuestCartItem) (n : nat) :
  totalQuantity (repeat x n) = quantity x * Z.of_nat n.
Proof.
  unfold totalQuantity. induction n as [|n IH]; cbn [repeat fold_right]; [lia|].
  rewrite IH. lia.
Qed.

(** X14.  [handleAddToCart] does nothing at all, without a message, for a
    product that has no sku.  For an authenticated shopper it leaves the
    page and the guest cart alone and hands the first sku's code and the
    quantity to the remote add.  For a guest, clicking a product's add button
    in a list any number of times, on a cart that has not got its first sku,
    adds one row after the others: the product's first sku with the
    product's name, price, first image and vendor, and as quantity the
    number of clicks. *)
Theorem add_from_list :
  forall (product : ProductPages.Product) (p : UI.Page) (n : nat),
    (ProductPages.firstSku product = None ->
     forall isAuthenticated q,
       ProductPages.handleAddToCart isAuthenticated q product p = (p, None))
    /\ (forall s q,
          ProductPages.firstSku product = Some s ->
          ProductPages.handleAddToCart true q product p
          = (p, Some (ProductPages.sku_code s, q)))
    /\ (forall s,
          ProductPages.firstSku product = Some s ->
          hasSku (ProductPages.sku_code s) (lines (UI.store p)) = false ->
          lines (UI.store (clicks (S n) product p))
          = lines (UI.store p)
            ++ [ProductPages.guestItemOf product s (Z.of_nat (S n))]).
Proof.
  intros product p n. split; [|split].
  - intros H isAuthenticated q. unfold ProductPages.handleAddToCart. rewrite H.
    reflexivity.
  - intros s q H. unfold ProductPages.handleAddToCart. rewrite H. reflexivity.
  - intros s Hs Habs. rewrite (clicks_lines _ _ s) by assumption.
    cbn [repeat]. unfold lines in *.
    rewrite addAll_same_sku_absent.
    + f_equal. f_equal.
      change (totalQuantity (ProductPages.guestItemOf product s 1
                             :: repeat (ProductPages.guestItemOf product s 1) n))
        with (totalQuantity (repeat (ProductPages.guestItemOf product s 1) (S n))).
      rewrite totalQuantity_repeat. unfold withQuantity, ProductPages.guestItemOf.
      cbn [sku sku_id product_id product_name product_price product_image
           quantity vendor_name]. f_equal; lia.
    + apply Forall_forall. intros i Hi. apply repeat_spec in Hi. subst i. reflexivity.
    + exact Habs.
Qed.

(** The invariant of a guest's session on the pages. *)
Lemma allowed_dispatch_keeps (a : Action) (st : Store) :
  allowed a ->
  storeInvariant st /\ NoDup (map sku (lines st)) /\ rehydrates st ->
  storeInvariant (dispatch a st) /\ NoDup (map sku (lines (dispatch a st)))
  /\ rehydrates (dispatch a st).
Proof.
  intros Ha ((Hcur & Hsto) & ND & R). split; [|split].
  - split; cbn; apply positiveLines_apply; assumption.
  - apply NoDup_skus_apply. exact ND.
  - reflexivity.
Qed.

Lemma handleGuestUpdateQuantity_store (s : string) (cur change : Z) (p : UI.Page) :
  UI.store (CartPage.handleGuestUpdateQuantity s cur change p)
  = if Z.ltb 0 (cur + change)
    then dispatch (UpdateGuestItemQuantity s (cur + change)) (UI.store p)
    else UI.store p.
Proof.
  unfold CartPage.handleGuestUpdateQuantity.
  destruct (Z.ltb 0 (cur + change)); reflexivity.
Qed.

(** X15.  Whatever a guest does on the pages, in any order: adding from a
    list, moving the product page's counter and adding from there, pressing
    the plus, minus and remove buttons of cart rows, completing a checkout,
    reloading the page; the cart in memory and the persisted one only hold
    rows with a quantity of at least 1, no two rows have the same sku, a
    reload would restore the very same store, and the counter is at least
    1. *)
Theorem guest_session_invariant :
  forall (es : list GuestUI.Event),
    let st := GuestUI.run es GuestUI.initial in
    storeInvariant (UI.store (GuestUI.page st))
    /\ NoDup (map sku (GuestUI.cartLines st))
    /\ rehydrates (UI.store (GuestUI.page st))
    /\ 1 <= GuestUI.counter st.
Proof.
  intros es. cbv zeta.
  set (Inv := fun st : GuestUI.State =>
                (storeInvariant (UI.store (GuestUI.page st))
                 /\ NoDup (map sku (lines (UI.store (GuestUI.page st))))
                 /\ rehydrates (UI.store (GuestUI.page st)))
                /\ 1 <= GuestUI.counter st).
  assert (Step : forall st e, Inv st -> Inv (GuestUI.step st e)).
  { intros st e [HS HC]. destruct e as [product| | |product|row|row|row|data|];
      cbn [GuestUI.step].
    - split; [|exact HC]. cbn [GuestUI.withPage GuestUI.page].
      rewrite handleAddToCart_guest_store.
      destruct (ProductPages.firstSku product); [|exact HS].
      apply allowed_dispatch_keeps; [cbn; lia | exact HS].
    - split; [exact HS|]. cbn. unfold ProductPages.increment. lia.
    - destruct (Z.leb (GuestUI.counter st) 1); [split; assumption|].
      split; [exact HS|]. cbn. unfold ProductPages.decrement. lia.
    - split; [|exact HC]. cbn [GuestUI.withPage GuestUI.page].
      rewrite handleAddToCart_guest_store.
      destruct (ProductPages.firstSku product); [|exact HS].
      apply allowed_dispatch_keeps; [cbn; lia | exact HS].
    - destruct (GuestUI.rowAt row (GuestUI.page st)) as [item|]; [|split; assumption].
      split; [|exact HC]. cbn [GuestUI.withPage GuestUI.page].
      rewrite handleGuestUpdateQuantity_store.
      destruct (Z.ltb_spec 0 (quantity item + 1)); [|exact HS].
      apply allowed_dispatch_keeps; [cbn; lia | exact HS].
    - destruct (GuestUI.rowAt row (GuestUI.page st)) as [item|]; [|split; assumption].
      destruct (Z.leb (quantity item) 1); [split; assumption|].
      split; [|exact HC]. cbn [GuestUI.withPage GuestUI.page].
      rewrite handleGuestUpdateQuantity_store.
      destruct (Z.ltb_spec 0 (quantity item + -1)); [|exact HS].
      apply allowed_dispatch_keeps; [cbn; lia | exact HS].
    - destruct (GuestUI.rowAt row (GuestUI.page st)) as [item|]; [|split; assumption].
      split; [|exact HC]. cbn [GuestUI.withPage GuestUI.page].
      change (UI.store (CartPage.handleGuestRemove (sku item) (GuestUI.page st)))
        with (dispatch (RemoveGuestItem (sku item)) (UI.store (GuestUI.page st))).
      apply allowed_dispatch_keeps; [exact I | exact HS].
    - split; [|exact HC]. cbn [GuestUI.withPage GuestUI.page].
      rewrite onSuccess_store.
      apply allowed_dispatch_keeps; [exact I | exact HS].
    - split; [|cbn; unfold ProductPages.initialQuantity; lia].
      cbn [GuestUI.page UI.store]. destruct HS as (HI & ND & R).
      unfold rehydrates in R. rewrite R. repeat split; try assumption; apply HI. }
  assert (Run : forall st, Inv st -> Inv (GuestUI.run es st)).
  { induction es as [|e es IH]; intros st H; [exact H|].
    cbn [GuestUI.run fold_left]. apply IH, Step, H. }
  assert (I0 : Inv GuestUI.initial).
  { split; [|cbn; unfold ProductPages.initialQuantity; lia].
    split; [split; [constructor | exact I]|]. split; [constructor | reflexivity]. }
  destruct (Run _ I0) as ((HI & ND & R) & HC). repeat split; try assumption; apply HI.
Qed.

(** ** The auth store *)

Lemma login_result (ok : bool) (profile : option AuthStore.User) (s : AuthStore.AuthState) :
  AuthStore.login ok profile s
  = if ok
    then match profile with
         | Some u => (AuthStore.mkAuth (Some u) true false, false)
         | None => (AuthStore.mkAuth None false false, true)
         end
    else (AuthStore.mkAuth (AuthStore.user s) (AuthStore.isAuthenticated s) false, true).
Proof. destruct ok; [destruct profile|]; reflexivity. Qed.

Lemma consistent_apply (s : AuthStore.AuthState) (o : AuthOps.Op) :
  AuthOps.consistent s -> AuthOps.consistent (AuthOps.apply s o).
Proof.
  unfold AuthOps.consistent.
  intros [HA HL]. destruct o as [ok profile|rok lok profile|profile|ok|u|];
    cbn [AuthOps.apply].
  - rewrite login_result. destruct ok; [destruct profile|]; cbn; split;
      try reflexivity; try exact HA; split; congruence.
  - unfold AuthOps.register. destruct rok.
    + rewrite login_result. destruct lok; [destruct profile|]; cbn; split;
        try reflexivity; try exact HA; split; congruence.
    + cbn. split; [exact HA | reflexivity].
  - destruct profile; cbn; split; try reflexivity; split; congruence.
  - cbn. split; [split; congruence | exact HL].
  - destruct u; cbn; split; try exact HL; split; congruence.
  - cbn. split; [exact HA | reflexivity].
Qed.

(** X16.  After any sequence of logins, registrations, profile fetches,
    logouts, [setUser] calls and page loads, with any outcomes of the
    requests, the store is signed in exactly when it holds a user, and it is
    not loading. *)
Theorem auth_store_consistent :
  forall (ops : list AuthOps.Op),
    let s := AuthOps.run ops AuthStore.initialState in
    (AuthStore.isAuthenticated s = true <-> AuthStore.user s <> None)
    /\ AuthStore.isLoading s = false.
Proof.
  intros ops. cbv zeta.
  assert (G : forall s, AuthOps.consistent s -> AuthOps.consistent (AuthOps.run ops s)).
  { induction ops as [|o ops IH]; intros s H; [exact H|].
    cbn [AuthOps.run fold_left]. apply IH, consistent_apply, H. }
  apply G. split; [split; [discriminate | intros H; contradiction H; reflexivity]
                  | reflexivity].
Qed.

(** X17.  [login] throws unless both the login request and the profile
    request succeed, and it never leaves the store loading.  When the login
    request fails, whoever was signed in stays signed in; when it succeeds,
    the store holds the fetched profile, and a profile request that fails
    signs out whoever was signed in before. *)
Theorem login_outcomes :
  forall (ok : bool) (profile : option AuthStore.User) (s : AuthStore.AuthState),
    let s' := fst (AuthStore.login ok profile s) in
    let threw := snd (AuthStore.login ok profile s) in
    threw = negb (ok && match profile with Some _ => true | None => false end)
    /\ AuthStore.isLoading s' = false
    /\ (ok = false ->
        AuthStore.user s' = AuthStore.user s
        /\ AuthStore.isAuthenticated s' = AuthStore.isAuthenticated s)
    /\ (ok = true ->
        AuthStore.user s' = profile
        /\ AuthStore.isAuthenticated s'
           = match profile with Some _ => true | None => false end).
Proof.
  intros ok profile s. cbv zeta. rewrite login_result.
  destruct ok; [destruct profile|]; cbn; repeat split; intros; discriminate.
Qed.

(** X18.  [register] after a registration request that succeeds is [login]:
    the same store and the same exception or none.  After one that fails it
    throws and leaves the session as it was, not loading. *)
Theorem register_outcomes :
  forall (loginOk : bool) (profile : option AuthStore.User) (s : AuthStore.AuthState),
    AuthOps.register true loginOk profile s = AuthStore.login loginOk profile s
    /\ AuthOps.register false loginOk profile s
       = (AuthStore.mkAuth (AuthStore.user s) (AuthStore.isAuthenticated s) false, true).
Proof.
  intros loginOk profile s. unfold AuthOps.register. rewrite !login_result.
  destruct loginOk; [destruct profile|]; split; reflexivity.
Qed.

(** ** The API client *)

Section Client.
Import ApiClient.

Variable server : Request -> Reply.
Variable refresh : string -> option Data.

Lemma addToken_retry (t : Tokens) (config : Request) :
  _retry (addToken t config) = _retry config.
Proof. unfold addToken. destruct (present (getToken t)); reflexivity. Qed.

Lemma client_step (fuel : nat) (config : Request) (t : Tokens) :
  client server refresh (S fuel) config t
  = match server (addToken t config) with
    | Success data =>
        Some {| outcome := Resolved data; tokens := t;
                trace := [Sent (addToken t config)] |}
    | Failure status =>
        if is401 status && negb (_retry (addToken t config)) then
          match present (getRefreshToken t) with
          | Some refreshToken =>
              match refresh refreshToken with
              | Some data =>
                  option_map (after [Sent (addToken t config); RefreshCalled refreshToken])
                    (client server refresh fuel
                       (withAuthorization (bearer (stringOf (field "access" data)))
                          (markRetry (addToken t config)))
                       (setToken (stringOf (field "access" data)) t))
              | None =>
                  Some {| outcome := RejectedByRefresh; tokens := clearTokens t;
                          trace := [Sent (addToken t config); RefreshCalled refreshToken;
                                    Redirected "/auth/login"] |}
              end
          | None =>
              Some {| outcome := Rejected status; tokens := t;
                      trace := [Sent (addToken t config)] |}
          end
        else
          Some {| outcome := Rejected status; tokens := t;
                  trace := [Sent (addToken t config)] |}
    end.
Proof. reflexivity. Qed.

(** A request that is already marked is sent once, whatever it brings. *)
Lemma client_marked (fuel : nat) (config : Request) (t : Tokens) :
  _retry config = true ->
  client server refresh (S fuel) config t
  = Some {| outcome := match server (addToken t config) with
                       | Success data => Resolved data
                       | Failure status => Rejected status
                       end;
            tokens := t;
            trace := [Sent (addToken t config)] |}.
Proof.
  intros H. rewrite client_step.
  destruct (server (addToken t config)) as [data|status];
    [reflexivity|]. rewrite addToken_retry, H, andb_false_r. reflexivity.
Qed.

Lemma client_fuel (fuel : nat) (config : Request) (t : Tokens) :
  client server refresh (S (S fuel)) config t = client server refresh 2 config t.
Proof.
  rewrite (client_step (S fuel)), (client_step 1).
  destruct (server (addToken t config)) as [data|status]; [reflexivity|].
  destruct (is401 status && negb (_retry (addToken t config))); [|reflexivity].
  destruct (present (getRefreshToken t)) as [rt|]; [|reflexivity].
  destruct (refresh rt) as [data|]; [|reflexivity].
  rewrite !client_marked by reflexivity. reflexivity.
Qed.

(** What the client does, case by case. *)
Lemma client_cases (config : Request) (t : Tokens) :
  exists r, client server refresh 2 config t = Some r /\
    ((trace r = [Sent (addToken t config)] /\ tokens r = t
      /\ outcome r = match server (addToken t config) with
                     | Success data => Resolved data
                     | Failure status => Rejected status
                     end
      /\ (forall status, server (addToken t config) = Failure status ->
          is401 status && negb (_retry config) = true ->
          present (getRefreshToken t) = None))
     \/ (exists status rt,
           server (addToken t config) = Failure status
           /\ is401 status && negb (_retry config) = true
           /\ present (getRefreshToken t) = Some rt
           /\ ((refresh rt = None
                /\ outcome r = RejectedByRefresh /\ tokens r = clearTokens t
                /\ trace r = [Sent (addToken t config); RefreshCalled rt;
                              Redirected "/auth/login"])
               \/ (exists data again,
                     refresh rt = Some data
                     /\ tokens r = setToken (stringOf (field "access" data)) t
                     /\ _retry again = true
                     /\ authorization again
                        = Some (bearer (stringOf (field "access" data)))
                     /\ outcome r = match server again with
                                    | Success d => Resolved d
                                    | Failure st => Rejected st
                                    end
                     /\ trace r = [Sent (addToken t config); RefreshCalled rt;
                                   Sent again])))).
Proof.
  rewrite (client_step 1), addToken_retry.
  destruct (server (addToken t config)) as [data|status] eqn:S.
  - eexists. split; [reflexivity|]. left. cbn. repeat split. intros ? [=].
  - destruct (is401 status && negb (_retry config)) eqn:C.
    + destruct (present (getRefreshToken t)) as [rt|] eqn:R.
      * destruct (refresh rt) as [data|] eqn:F.
        -- rewrite client_marked by reflexivity. eexists. split; [reflexivity|].
           right. exists status, rt. repeat split; try assumption.
           right.
           exists data,
             (addToken (setToken (stringOf (field "access" data)) t)
                (withAuthorization (bearer (stringOf (field "access" data)))
                   (markRetry (addToken t config)))).
           split; [exact F|]. cbn [option_map after outcome tokens trace app].
           split; [reflexivity|]. split; [rewrite addToken_retry; reflexivity|].
           split; [|split; reflexivity].
           unfold addToken, getToken, setToken. cbn [access_token].
           unfold present. destruct (JS.truthy (stringOf (field "access" data)));
             reflexivity.
        -- eexists. split; [reflexivity|]. right. exists status, rt.
           repeat split; try assumption. left. repeat split; try assumption;
             reflexivity.
      * eexists. split; [reflexivity|]. left. cbn. repeat split.
    + eexists. split; [reflexivity|]. left. cbn. repeat split.
      intros st [= <-] H. congruence.
Qed.

(** X19.  The client always comes to an end: with fuel for two rounds it
    gives a result, and more fuel gives the same one.  The backend is called
    at most twice for one request and the refresh endpoint at most once,
    and a second call to the backend only follows a refresh. *)
Theorem client_retries_at_most_once :
  forall (fuel : nat) (config : Request) (t : Tokens),
    (2 <= fuel)%nat ->
    exists r,
      client server refresh fuel config t = Some r
      /\ client server refresh 2 config t = Some r
      /\ (sends (trace r) <= 2)%nat
      /\ (refreshes (trace r) <= 1)%nat
      /\ (sends (trace r) = 2%nat -> refreshes (trace r) = 1%nat).
Proof.
  intros fuel config t Hfuel.
  destruct fuel as [|[|fuel]]; try lia. rewrite client_fuel.
  destruct (client_cases config t) as (r & E & C). exists r.
  split; [exact E|]. split; [exact E|].
  destruct C as [(T & _) | (status & rt & _ & _ & _ & [(_ & _ & _ & T) | (d & again & _ & _ & _ & _ & _ & T)])];
    rewrite T; cbn; repeat split; lia.
Qed.

(** X20.  The client sends the shopper to the login page exactly when a
    refresh was tried and failed, and that is the only case in which it
    clears the tokens.  In every other case the refresh token is the one it
    was; the access token changes only by a refresh that succeeded, and a
    request that fails again after such a refresh is rejected with the new
    access token kept and without a redirect. *)
Theorem client_tokens_and_redirect :
  forall (config : Request) (t : Tokens) (r : Result),
    client server refresh 2 config t = Some r ->
    (redirected (trace r) = true <-> outcome r = RejectedByRefresh)
    /\ (outcome r = RejectedByRefresh ->
        tokens r = {| access_token := None; refresh_token := None |})
    /\ (outcome r <> RejectedByRefresh ->
        refresh_token (tokens r) = refresh_token t
        /\ (refreshes (trace r) = 0%nat -> tokens r = t)
        /\ (refreshes (trace r) = 1%nat ->
            exists data rt,
              present (refresh_token t) = Some rt /\ refresh rt = Some data
              /\ access_token (tokens r) = Some (stringOf (field "access" data)))).
Proof.
  intros config t r E. destruct (client_cases config t) as (r' & E' & C).
  rewrite E in E'. injection E' as <-.
  destruct C as [(T & K & O & _) | (status & rt & S & _ & R & [(F & O & K & T) | (d & again & F & K & _ & _ & O & T)])].
  - rewrite T, K, O. cbn. destruct (server (addToken t config));
      repeat split; try discriminate; try reflexivity; intros; try discriminate;
      congruence.
  - rewrite T, K, O. cbn. repeat split; try reflexivity; intros; congruence.
  - rewrite T, K, O. cbn. destruct (server again);
      repeat split; try discriminate; try reflexivity; intros; try discriminate;
      try congruence; exists d, rt; repeat split; assumption.
Qed.

(** X21.  Without a refresh token in storage the client sends a request
    once and hands on the backend's answer, a 401 included: nothing is
    retried, the tokens stay as they are and the shopper is not redirected. *)
Theorem client_without_refresh_token :
  forall (config : Request) (t : Tokens),
    present (refresh_token t) = None ->
    client server refresh 2 config t
    = Some {| outcome := match server (addToken t config) with
                         | Success data => Resolved data
                         | Failure status => Rejected status
                         end;
              tokens := t;
              trace := [Sent (addToken t config)] |}.
Proof.
  intros config t H. rewrite (client_step 1).
  destruct (server (addToken t config)) as [data|status]; [reflexivity|].
  destruct (is401 status && negb (_retry (addToken t config))); [|reflexivity].
  unfold getRefreshToken. rewrite H. reflexivity.
Qed.

(** X22.  After the auth store's [logout] the store is signed out, whatever
    the request did.  The tokens are cleared when there was no refresh token
    to send and when the request succeeded; when the backend rejects the
    logout request with anything but a 401, both tokens stay in storage as
    they were, although the store is signed out. *)
Theorem signOut_store_and_tokens :
  forall (fuel : nat) (s : AuthStore.AuthState) (t : Tokens),
    (2 <= fuel)%nat ->
    exists s' t',
      signOut server refresh fuel s t = Some (s', t')
      /\ AuthStore.user s' = None /\ AuthStore.isAuthenticated s' = false
      /\ (present (refresh_token t) = None -> t' = clearTokens t)
      /\ (forall rt,
            present (refresh_token t) = Some rt ->
            let reply :=
              server (addToken t (post "/accounts/logout/" [("refresh", rt)])) in
            (forall data, reply = Success data -> t' = clearTokens t)
            /\ (forall status,
                  reply = Failure status -> is401 status = false -> t' = t)).
Proof.
  intros fuel s t Hfuel. destruct fuel as [|[|fuel]]; try lia.
  assert (Tot : exists r, logout server refresh (S (S fuel)) t = Some r).
  { unfold logout. destruct (present (getRefreshToken t)) as [rt|];
      [|eexists; reflexivity].
    rewrite client_fuel.
    destruct (client_cases (post "/accounts/logout/" [("refresh", rt)]) t)
      as (r & E & _).
    rewrite E. destruct (outcome r); eexists; reflexivity. }
  destruct Tot as (r & E). unfold signOut. rewrite E. eexists _, _.
  split; [reflexivity|]. split; [reflexivity|]. split; [reflexivity|]. split.
  - intros H. unfold logout, getRefreshToken in E. rewrite H in E.
    injection E as <-. reflexivity.
  - intros rt H. cbv zeta. unfold logout, getRefreshToken in E.
    rewrite H, client_fuel, (client_step 1) in E. split.
    + intros data S. rewrite S in E. cbn in E. injection E as <-. reflexivity.
    + intros status S H401. rewrite S, H401 in E. cbn in E.
      injection E as <-. reflexivity.
Qed.

(** X23.  When the backend accepts the login request, [login] resolves with
    the reply's data whether or not tokens came with it.  It stores the pair
    of tokens only when the reply has both an access and a refresh token
    that are not empty; otherwise the tokens that were in storage stay, and
    the one present in the reply is not stored either. *)
Theorem login_stores_both_or_none :
  forall (fuel : nat) (username password : string) (t : Tokens) (data : Data),
    (2 <= fuel)%nat ->
    server (addToken t (post "/accounts/login/"
                          [("username", username); ("password", password)]))
    = Success data ->
    exists r,
      login server refresh fuel username password t = Some r
      /\ outcome r = Resolved data
      /\ tokens r
         = match present (field "access" data), present (field "refresh" data) with
           | Some a, Some rf => {| access_token := Some a; refresh_token := Some rf |}
           | _, _ => t
           end.
Proof.
  intros fuel username password t data Hfuel S.
  destruct fuel as [|[|fuel]]; try lia. unfold login. rewrite client_fuel.
  cbn [client]. rewrite S. cbn [outcome].
  destruct (present (field "access" data)), (present (field "refresh" data));
    eexists; (split; [reflexivity|]); split; reflexivity.
Qed.

End Client.

(** ** The further theorems at concrete inputs *)

Lemma add_then_remove_witness :
  hasSku "TSHIRT-M" (guestItems initialState) = false
  /\ removeGuestItem "TSHIRT-M" (addGuestItem (tshirt 2) initialState) = initialState.
Proof.
  split; [reflexivity|].
  exact (proj2 (add_then_remove initialState (tshirt 2)) eq_refl).
Defined.


Lemma empty_page_iff_no_badge_witness :
  Forall (fun q => 1 <= q) (quantities false None [tshirt 3])
  /\ CartView.showsEmpty false None [tshirt 3]
     = negb (CartView.showsBadge false None [tshirt 3]).
Proof.
  assert (F : Forall (fun q => 1 <= q) (quantities false None [tshirt 3])).
  { constructor; [discriminate | constructor]. }
  split; [exact F|]. exact (empty_page_iff_no_badge false None [tshirt 3] F).
Defined.

Lemma successful_checkout_effect_witness :
  exists new,
    UI.log (CheckoutPage.onSuccess false
              (CheckoutPage.mkResponse (Some "https://pay.example/s1") (Some "17"))
              tshirtPage)
    = UI.log tshirtPage ++ new
    /\ filter isNavigation new = [UI.SetLocationHref "https://pay.example/s1"].
Proof.
  destruct (proj2 (proj2 (proj2
              (successful_checkout_effect
                 (CheckoutPage.mkResponse (Some "https://pay.example/s1") (Some "17"))
                 tshirtPage false))))
    as (new & E & _ & Hurl & _).
  exists new. split; [exact E|]. apply Hurl. reflexivity.
Defined.


Lemma shipping_row_of_selected_rate_witness :
  Shipping.gt (JS.parseFloat "0.00") JS.zero = false
  /\ Shipping.shippingRow (Shipping.onChange freeRate Shipping.initial)
     = Shipping.Text "Select shipping method"
  /\ Shipping.noRate (Shipping.onChange freeRate Shipping.initial) = false.
Proof.
  split; [reflexivity|]. split; [|reflexivity].
  exact (proj1 (proj2 (proj2 (shipping_row_of_selected_rate freeRate Shipping.initial)))
           eq_refl).
Defined.

Lemma add_from_list_witness :
  ProductPages.firstSku mugProduct = Some (ProductPages.mkSku "sku-uuid-2" "MUG")
  /\ hasSku "MUG" (lines (UI.store tshirtPage)) = false
  /\ lines (UI.store (clicks 3 mugProduct tshirtPage))
     = [tshirt 1;
        mkItem "MUG" "sku-uuid-2" "prod-2" "Mug" "7.50" (Some "mug.png") 3
          (Some "Pots & Co")].
Proof.
  split; [reflexivity|]. split; [reflexivity|].
  exact (proj2 (proj2 (add_from_list mugProduct tshirtPage 2))
           (ProductPages.mkSku "sku-uuid-2" "MUG") eq_refl eq_refl).
Defined.

Lemma login_outcomes_witness :
  AuthStore.user
    (fst (AuthStore.login false None (AuthStore.mkAuth (Some alice) true false)))
  = Some alice
  /\ AuthStore.isAuthenticated
       (fst (AuthStore.login true None (AuthStore.mkAuth (Some alice) true false)))
     = false.
Proof.
  split.
  - exact (proj1 (proj1 (proj2 (proj2
             (login_outcomes false None (AuthStore.mkAuth (Some alice) true false))))
             eq_refl)).
  - exact (proj2 (proj2 (proj2 (proj2
             (login_outcomes true None (AuthStore.mkAuth (Some alice) true false))))
             eq_refl)).
Defined.

Lemma client_retries_at_most_once_witness :
  (2 <= 5)%nat
  /\ exists r,
       ApiClient.client (rejecting 401) failingRefresh 5
         (ApiClient.post "/orders/cart/" []) someTokens = Some r
       /\ (ApiClient.sends (ApiClient.trace r) <= 2)%nat.
Proof.
  assert (L : (2 <= 5)%nat) by (apply Nat.leb_le; reflexivity).
  split; [exact L|].
  destruct (client_retries_at_most_once (rejecting 401) failingRefresh 5
              (ApiClient.post "/orders/cart/" []) someTokens L)
    as (r & E & _ & S & _).
  exists r. split; [exact E | exact S].
Defined.

Lemma client_tokens_and_redirect_witness :
  exists r,
    ApiClient.client (rejecting 401) failingRefresh 2
      (ApiClient.post "/orders/cart/" []) someTokens = Some r
    /\ ApiClient.outcome r = ApiClient.RejectedByRefresh
    /\ ApiClient.tokens r = noTokens.
Proof.
  eexists. split; [reflexivity|]. split; [reflexivity|].
  exact (proj1 (proj2 (client_tokens_and_redirect (rejecting 401) failingRefresh
                         (ApiClient.post "/orders/cart/" []) someTokens _ eq_refl))
           eq_refl).
Defined.

Lemma client_without_refresh_token_witness :
  ApiClient.present (ApiClient.refresh_token noTokens) = None
  /\ ApiClient.client (rejecting 401) failingRefresh 2
       (ApiClient.post "/orders/cart/" []) noTokens
     = Some (ApiClient.mkResult (ApiClient.Rejected (Some 401)) noTokens
               [ApiClient.Sent (ApiClient.post "/orders/cart/" [])]).
Proof.
  split; [reflexivity|].
  exact (client_without_refresh_token (rejecting 401) failingRefresh
           (ApiClient.post "/orders/cart/" []) noTokens eq_refl).
Defined.

Lemma signOut_store_and_tokens_witness :
  (2 <= 2)%nat
  /\ exists s',
       signOut (rejecting 500) failingRefresh 2
         (AuthStore.mkAuth (Some alice) true false) someTokens
       = Some (s', someTokens)
       /\ AuthStore.isAuthenticated s' = false.
Proof.
  split; [apply le_n|].
  destruct (signOut_store_and_tokens (rejecting 500) failingRefresh 2
              (AuthStore.mkAuth (Some alice) true false) someTokens (le_n 2))
    as (s' & t' & E & _ & A & _ & K).
  exists s'. split; [|exact A].
  rewrite E. f_equal. f_equal.
  exact (proj2 (K "refresh-1" eq_refl) (Some 500) eq_refl eq_refl).
Defined.

Lemma login_stores_both_or_none_witness :
  (2 <= 2)%nat
  /\ exists r,
       ApiClient.login accessOnly failingRefresh 2 "ann" "secret" someTokens = Some r
       /\ ApiClient.tokens r = someTokens.
Proof.
  split; [apply le_n|].
  destruct (login_stores_both_or_none accessOnly failingRefresh 2 "ann" "secret"
              someTokens [("access", "access-2")] (le_n 2) eq_refl)
    as (r & E & _ & T).
  exists r. split; [exact E | exact T].
Defined.

(** ** Exact binary64 arithmetic

    When the exact sum or product of two numbers is itself a binary64
    number, [+] and [*] return it: rounding to nearest leaves a value that
    needs no rounding as it is.  The proofs go through the definitions of
    [SFadd] and [SFmul]: alignment shifts left, rounding shifts right, and a
    mantissa that is a multiple of the power of two shifted out loses
    nothing. *)

Lemma shl_Z m n : Zpos (Binary64.shl m n) = Zpos m * 2 ^ Z.of_nat n.
Proof.
  induction n as [|n IH]; [cbn; lia|].
  rewrite Nat2Z.inj_succ, Z.pow_succ_r by lia.
  change (Binary64.shl m (S n)) with (xO (Binary64.shl m n)).
  rewrite Pos2Z.inj_xO, IH. lia.
Qed.

Lemma iter_pos_nat {A} (f : A -> A) p x :
  iter_pos f p x = Nat.iter (Pos.to_nat p) f x.
Proof.
  revert x. induction p as [p IH|p IH|]; intros x; cbn [iter_pos].
  - rewrite !IH.
    replace (Pos.to_nat p~1) with (S (Pos.to_nat p + Pos.to_nat p)) by lia.
    rewrite Nat.iter_succ_r, Nat.iter_add. reflexivity.
  - rewrite !IH.
    replace (Pos.to_nat p~0) with (Pos.to_nat p + Pos.to_nat p)%nat by lia.
    rewrite Nat.iter_add. reflexivity.
  - reflexivity.
Qed.

Lemma pos_iter_shl m d : Pos.iter xO m d = Binary64.shl m (Pos.to_nat d).
Proof. unfold Binary64.shl. apply Pos2Nat.inj_iter. Qed.

Lemma shr_exact m n :
  Nat.iter n shr_1 {| shr_m := Zpos (Binary64.shl m n); shr_r := false; shr_s := false |}
  = {| shr_m := Zpos m; shr_r := false; shr_s := false |}.
Proof.
  induction n as [|n IH]; [reflexivity|].
  rewrite Nat.iter_succ_r. change (Binary64.shl m (S n)) with (xO (Binary64.shl m n)).
  cbn [shr_1 orb]. exact IH.
Qed.

Lemma digits_shl m n :
  Zpos (digits2_pos (Binary64.shl m n)) = Zpos (digits2_pos m) + Z.of_nat n.
Proof.
  induction n as [|n IH]; [cbn; lia|].
  change (Binary64.shl m (S n)) with (xO (Binary64.shl m n)).
  cbn [digits2_pos]. rewrite Pos2Z.inj_succ, IH. lia.
Qed.

Lemma digits_bounds p :
  2 ^ (Zpos (digits2_pos p) - 1) <= Zpos p < 2 ^ Zpos (digits2_pos p).
Proof.
  induction p as [p IH|p IH|]; cbn [digits2_pos]; [| |cbn; lia].
  - rewrite Pos2Z.inj_succ.
    replace (Z.succ (Zpos (digits2_pos p)) - 1) with (Z.succ (Zpos (digits2_pos p) - 1)) by lia.
    rewrite !Z.pow_succ_r by lia. 
    lia.
  - rewrite Pos2Z.inj_succ.
    replace (Z.succ (Zpos (digits2_pos p)) - 1) with (Z.succ (Zpos (digits2_pos p) - 1)) by lia.
    rewrite !Z.pow_succ_r by lia. lia.
Qed.

Lemma fexp_eq (x : Z) : fexp JS.prec JS.emax x = Z.max (x - 53) (-1074).
Proof. reflexivity. Qed.

(** Rounding an exact mantissa at its own exponent does nothing. *)
Lemma shr_fexp_fixed (m : positive) (e : Z) :
  fexp JS.prec JS.emax (Zpos (digits2_pos m) + e) <= e ->
  shr_fexp JS.prec JS.emax (Zpos m) e loc_Exact
  = ({| shr_m := Zpos m; shr_r := false; shr_s := false |}, e).
Proof.
  intros H. unfold shr_fexp. cbn [Zdigits2 shr_record_of_loc].
  unfold shr.
  destruct (fexp JS.prec JS.emax (Zpos (digits2_pos m) + e) - e) eqn:E; try reflexivity.
  lia.
Qed.

Lemma shr_fexp_shift (p m : positive) (e e' : Z) :
  e' = fexp JS.prec JS.emax (Zpos (digits2_pos p) + e) ->
  e < e' ->
  p = Binary64.shl m (Z.to_nat (e' - e)) ->
  shr_fexp JS.prec JS.emax (Zpos p) e loc_Exact
  = ({| shr_m := Zpos m; shr_r := false; shr_s := false |}, e').
Proof.
  intros He' Hlt Hp. unfold shr_fexp. cbn [Zdigits2 shr_record_of_loc].
  rewrite <- He'. unfold shr.
  destruct (e' - e) as [|q|q] eqn:E; try lia.
  rewrite iter_pos_nat. f_equal; [|lia].
  rewrite Hp. change (Z.to_nat (Zpos q)) with (Pos.to_nat q). apply shr_exact.
Qed.

Lemma round_aux_fixed (s : bool) (m : positive) (e : Z) :
  fexp JS.prec JS.emax (Zpos (digits2_pos m) + e) <= e ->
  e <= 971 ->
  binary_round_aux JS.prec JS.emax s (Zpos m) e loc_Exact = S754_finite s m e.
Proof.
  intros H Hmax. unfold binary_round_aux.
  rewrite shr_fexp_fixed by assumption.
  cbn [shr_m loc_of_shr_record round_nearest_even].
  rewrite shr_fexp_fixed by assumption. cbn [shr_m].
  destruct (Z.leb_spec e (JS.emax - JS.prec)); [reflexivity|]. unfold JS.emax, JS.prec in *. lia.
Qed.

Lemma round_aux_shift (s : bool) (p m : positive) (e e' : Z) :
  e' = fexp JS.prec JS.emax (Zpos (digits2_pos p) + e) ->
  e < e' -> e' <= 971 ->
  p = Binary64.shl m (Z.to_nat (e' - e)) ->
  binary_round_aux JS.prec JS.emax s (Zpos p) e loc_Exact = S754_finite s m e'.
Proof.
  intros He' Hlt Hmax Hp. unfold binary_round_aux.
  rewrite (shr_fexp_shift p m e e') by assumption.
  cbn [shr_m loc_of_shr_record round_nearest_even].
  assert (D : Zpos (digits2_pos m) + e' = Zpos (digits2_pos p) + e).
  { rewrite Hp, digits_shl. lia. }
  rewrite shr_fexp_fixed by (rewrite D; lia). cbn [shr_m].
  destruct (Z.leb_spec e' (JS.emax - JS.prec)); [reflexivity|]. unfold JS.emax, JS.prec in *. lia.
Qed.

(** [binary_round] on a mantissa that fits after alignment. *)
Lemma round_left (s : bool) (p : positive) (e e' : Z) :
  e' = fexp JS.prec JS.emax (Zpos (digits2_pos p) + e) ->
  e' <= e -> e' <= 971 ->
  binary_round JS.prec JS.emax s p e = S754_finite s (Binary64.shl p (Z.to_nat (e - e'))) e'.
Proof.
  intros He' Hle Hmax. unfold binary_round, shl_align. rewrite <- He'.
  destruct (e' - e) as [|q|q] eqn:E; try lia.
  - assert (e = e') by lia. subst e. rewrite Z.sub_diag. 
    change (Binary64.shl p (Z.to_nat 0)) with p. apply round_aux_fixed; [rewrite <- He'; lia | lia].
  - rewrite pos_iter_shl.
    replace (Z.to_nat (e - e')) with (Pos.to_nat q) by lia.
    apply round_aux_fixed; [|assumption].
    rewrite digits_shl.
    replace (Zpos (digits2_pos p) + Z.of_nat (Pos.to_nat q) + e')
      with (Zpos (digits2_pos p) + e) by lia. lia.
Qed.

Lemma round_right (s : bool) (p m : positive) (e e' : Z) :
  e' = fexp JS.prec JS.emax (Zpos (digits2_pos p) + e) ->
  e < e' -> e' <= 971 ->
  p = Binary64.shl m (Z.to_nat (e' - e)) ->
  binary_round JS.prec JS.emax s p e = S754_finite s m e'.
Proof.
  intros He' Hlt Hmax Hp. unfold binary_round, shl_align. rewrite <- He'.
  destruct (e' - e) as [|q|q] eqn:E; try lia.
  rewrite <- E in Hp. apply (round_aux_shift s p m e e'); assumption.
Qed.

Lemma bounded_spec (m : positive) (e : Z) :
  bounded JS.prec JS.emax m e = true ->
  fexp JS.prec JS.emax (Zpos (digits2_pos m) + e) = e /\ -1074 <= e <= 971
  /\ Zpos (digits2_pos m) <= 53.
Proof.
  unfold bounded, canonical_mantissa. rewrite andb_true_iff, Z.eqb_eq, Z.leb_le.
  rewrite fexp_eq. unfold JS.emax, JS.prec. lia.
Qed.

Lemma pow2_pos (k : Z) : 0 <= k -> 0 < 2 ^ k.
Proof. intros. apply Z.pow_pos_nonneg; lia. Qed.

Lemma align (K : Z) (p m : positive) (e e2 : Z) :
  0 <= e + K -> 0 <= e2 + K ->
  Zpos p * 2 ^ (e + K) = Zpos m * 2 ^ (e2 + K) ->
  (e2 <= e -> m = Binary64.shl p (Z.to_nat (e - e2)))
  /\ (e <= e2 -> p = Binary64.shl m (Z.to_nat (e2 - e))).
Proof.
  intros H1 H2 E. split; intros Hle.
  - apply Pos2Z.inj. rewrite shl_Z, Z2Nat.id by lia.
    replace (e + K) with ((e - e2) + (e2 + K)) in E by lia.
    rewrite (Z.pow_add_r 2 (e - e2) (e2 + K)), Z.mul_assoc in E by lia.
    pose proof (pow2_pos (e2 + K) H2).
    apply Z.mul_reg_r in E; [|lia]. symmetry. exact E.
  - apply Pos2Z.inj. rewrite shl_Z, Z2Nat.id by lia.
    replace (e2 + K) with ((e2 - e) + (e + K)) in E by lia.
    rewrite (Z.pow_add_r 2 (e2 - e) (e + K)), Z.mul_assoc in E by lia.
    pose proof (pow2_pos (e + K) H1).
    apply Z.mul_reg_r in E; [|lia]. exact E.
Qed.

Lemma same_digits (K : Z) (p m : positive) (e e2 : Z) :
  0 <= e + K -> 0 <= e2 + K ->
  Zpos p * 2 ^ (e + K) = Zpos m * 2 ^ (e2 + K) ->
  Zpos (digits2_pos p) + e = Zpos (digits2_pos m) + e2.
Proof.
  intros H1 H2 E. destruct (align K p m e e2 H1 H2 E) as [A B].
  destruct (Z.le_ge_cases e2 e) as [L|L].
  - rewrite (A L), digits_shl, Z2Nat.id by lia. lia.
  - rewrite (B L) at 1. rewrite digits_shl, Z2Nat.id by lia. lia.
Qed.

(** Rounding the value of a binary64 number gives that number. *)
Lemma round_exact (K : Z) (s : bool) (p m : positive) (e e2 : Z) :
  0 <= e + K -> 0 <= e2 + K ->
  bounded JS.prec JS.emax m e2 = true ->
  Zpos p * 2 ^ (e + K) = Zpos m * 2 ^ (e2 + K) ->
  binary_round JS.prec JS.emax s p e = S754_finite s m e2.
Proof.
  intros H1 H2 Hb E. destruct (bounded_spec m e2 Hb) as (Hc & Hr & _).
  pose proof (same_digits K p m e e2 H1 H2 E) as D.
  destruct (align K p m e e2 H1 H2 E) as [A B].
  destruct (Z_lt_le_dec e e2) as [L|L].
  - apply (round_right s p m e e2); [rewrite D; congruence|lia|lia|apply B; lia].
  - rewrite (A L). apply round_left; [rewrite D; congruence|lia|lia].
Qed.

Lemma round_aux_exact (K : Z) (s : bool) (p m : positive) (e e2 : Z) :
  0 <= e + K -> 0 <= e2 + K -> e <= e2 ->
  bounded JS.prec JS.emax m e2 = true ->
  Zpos p * 2 ^ (e + K) = Zpos m * 2 ^ (e2 + K) ->
  binary_round_aux JS.prec JS.emax s (Zpos p) e loc_Exact = S754_finite s m e2.
Proof.
  intros H1 H2 Hle Hb E. destruct (bounded_spec m e2 Hb) as (Hc & Hr & _).
  pose proof (same_digits K p m e e2 H1 H2 E) as D.
  destruct (align K p m e e2 H1 H2 E) as [A B].
  destruct (Z_lt_le_dec e e2) as [L|L].
  - apply (round_aux_shift s p m e e2); [rewrite D; congruence|lia|lia|apply B; lia].
  - assert (e = e2) by lia. subst e2. specialize (B Hle).
    rewrite Z.sub_diag in B. change (Binary64.shl m (Z.to_nat 0)) with m in B. subst p.
    apply round_aux_fixed; [rewrite Hc|]; lia.
Qed.

Lemma units_sign (s : bool) (m : positive) (e : Z) :
  -1074 <= e ->
  (if s then Binary64.units (S754_finite s m e) < 0 else 0 < Binary64.units (S754_finite s m e)).
Proof.
  intros He. cbn [Binary64.units]. pose proof (pow2_pos (e + 1074) ltac:(lia)).
  destruct s; cbn [cond_Zopp]; nia.
Qed.

Lemma cond_Zopp_inj (s1 s2 : bool) (a b : Z) :
  0 < a -> 0 < b -> cond_Zopp s1 a = cond_Zopp s2 b -> s1 = s2 /\ a = b.
Proof. destruct s1, s2; cbn [cond_Zopp]; intros; split; try reflexivity; lia. Qed.

(** Two well-formed numbers of the same nonzero value are the same. *)
Lemma wellFormed_unique (x y : JS.number) :
  Binary64.wellFormed x = true -> Binary64.wellFormed y = true ->
  Binary64.units x = Binary64.units y -> Binary64.units x <> 0 -> x = y.
Proof.
  destruct x as [sx| | |sx mx ex], y as [sy| | |sy my ey]; cbn [Binary64.wellFormed];
    try discriminate; intros Hx Hy E N; try (cbn [Binary64.units] in *; congruence).
  destruct (bounded_spec _ _ Hx) as (Cx & Rx & _).
  destruct (bounded_spec _ _ Hy) as (Cy & Ry & _).
  cbn [Binary64.units] in E.
  apply cond_Zopp_inj in E;
    [|pose proof (pow2_pos (ex + 1074)); nia|pose proof (pow2_pos (ey + 1074)); nia].
  destruct E as [-> E].
  pose proof (same_digits 1074 mx my ex ey ltac:(lia) ltac:(lia) E) as D.
  assert (ex = ey) by (rewrite <- Cx, <- Cy, D; reflexivity). subst ey.
  f_equal. apply Pos2Z.inj.
  pose proof (pow2_pos (ex + 1074)).
  apply Z.mul_reg_r in E; [assumption|lia].
Qed.

Lemma shl_align_fst (m : positive) (e e' : Z) :
  e' <= e -> fst (shl_align m e e') = Binary64.shl m (Z.to_nat (e - e')).
Proof.
  intros H. unfold shl_align. destruct (e' - e) as [|q|q] eqn:E; try lia; cbn [fst].
  - replace (e - e') with 0 by lia. reflexivity.
  - rewrite pos_iter_shl. f_equal. lia.
Qed.

Lemma aligned_units (s : bool) (m : positive) (e e' : Z) :
  -1074 <= e' <= e ->
  cond_Zopp s (Zpos (fst (shl_align m e e'))) * 2 ^ (e' + 1074)
  = Binary64.units (S754_finite s m e).
Proof.
  intros H. rewrite shl_align_fst by lia. rewrite shl_Z, Z2Nat.id by lia.
  cbn [Binary64.units]. replace (e + 1074) with ((e - e') + (e' + 1074)) by lia.
  rewrite (Z.pow_add_r 2 (e - e') (e' + 1074)) by lia. destruct s; cbn [cond_Zopp]; ring.
Qed.

Lemma normalize_exact (n : Z) (e : Z) (z : JS.number) :
  -1074 <= e -> Binary64.wellFormed z = true ->
  Binary64.units z = n * 2 ^ (e + 1074) ->
  Binary64.wellFormed (binary_normalize JS.prec JS.emax n e false) = true
  /\ Binary64.units (binary_normalize JS.prec JS.emax n e false) = Binary64.units z
  /\ (n <> 0 -> binary_normalize JS.prec JS.emax n e false = z).
Proof.
  intros He Hz E. pose proof (pow2_pos (e + 1074) ltac:(lia)) as P.
  destruct n as [|p|p]; cbn [binary_normalize].
  - cbn. split; [reflexivity|]. split; [lia|congruence].
  - assert (R : binary_round JS.prec JS.emax false p e = z).
    { destruct z as [sz| | |sz mz ez]; try discriminate; cbn [Binary64.units] in E; try lia.
      cbn [Binary64.wellFormed] in Hz. destruct (bounded_spec _ _ Hz) as (_ & Rz & _).
      pose proof (pow2_pos (ez + 1074) ltac:(lia)).
      destruct sz; cbn [cond_Zopp] in E; [nia|].
      apply (round_exact 1074); [lia|lia|assumption|lia]. }
    rewrite R. auto.
  - assert (R : binary_round JS.prec JS.emax true p e = z).
    { destruct z as [sz| | |sz mz ez]; try discriminate; cbn [Binary64.units] in E; try lia.
      cbn [Binary64.wellFormed] in Hz. destruct (bounded_spec _ _ Hz) as (_ & Rz & _).
      pose proof (pow2_pos (ez + 1074) ltac:(lia)).
      destruct sz; cbn [cond_Zopp] in E; [|nia].
      apply (round_exact 1074); [lia|lia|assumption|lia]. }
    rewrite R. auto.
Qed.

(** [a + b] is exact whenever the exact sum is a binary64 number. *)
Lemma add_exact (x y z : JS.number) :
  Binary64.wellFormed x = true -> Binary64.wellFormed y = true -> Binary64.wellFormed z = true ->
  Binary64.units z = Binary64.units x + Binary64.units y ->
  Binary64.wellFormed (JS.add x y) = true /\ Binary64.units (JS.add x y) = Binary64.units z
  /\ (Binary64.units z <> 0 -> JS.add x y = z).
Proof.
  intros Hx Hy Hz E.
  destruct x as [sx| | |sx mx ex], y as [sy| | |sy my ey]; cbn [Binary64.wellFormed] in Hx, Hy;
    try discriminate.
  - cbn [Binary64.units] in E. split; [|split].
    + destruct sx, sy; reflexivity.
    + rewrite E. destruct sx, sy; reflexivity.
    + intros N. exfalso. apply N. rewrite E. reflexivity.
  - change (JS.add (S754_zero sx) (S754_finite sy my ey)) with (S754_finite sy my ey).
    cbn [Binary64.units] in E. rewrite Z.add_0_l in E. split; [exact Hy|].
    split; [symmetry; exact E|]. intros N. symmetry.
    apply wellFormed_unique; assumption.
  - change (JS.add (S754_finite sx mx ex) (S754_zero sy)) with (S754_finite sx mx ex).
    cbn [Binary64.units] in E. rewrite Z.add_0_r in E. split; [exact Hx|].
    split; [symmetry; exact E|]. intros N. symmetry.
    apply wellFormed_unique; assumption.
  - destruct (bounded_spec _ _ Hx) as (_ & Rx & _).
    destruct (bounded_spec _ _ Hy) as (_ & Ry & _).
    unfold JS.add, SFadd. cbv zeta.
    pose proof (normalize_exact
      (cond_Zopp sx (Zpos (fst (shl_align mx ex (Z.min ex ey))))
       + cond_Zopp sy (Zpos (fst (shl_align my ey (Z.min ex ey)))))
      (Z.min ex ey) z ltac:(lia) Hz) as Nz.
    rewrite Z.mul_add_distr_r, !aligned_units in Nz by lia.
    specialize (Nz E). destruct Nz as (W & U & Eq). split; [exact W|].
    split; [exact U|]. intros N. apply Eq. intros Z0.
    apply N. rewrite E, <- (aligned_units sx mx ex (Z.min ex ey)),
      <- (aligned_units sy my ey (Z.min ex ey)) by lia.
    rewrite <- Z.mul_add_distr_r, Z0. reflexivity.
Qed.

Lemma digits_mul (p q : positive) :
  Zpos (digits2_pos p) + Zpos (digits2_pos q) - 1 <= Zpos (digits2_pos (p * q)).
Proof.
  pose proof (digits_bounds p) as [Lp _]. pose proof (digits_bounds q) as [Lq _].
  pose proof (digits_bounds (p * q)) as [_ U].
  assert (L : 2 ^ (Zpos (digits2_pos p) - 1 + (Zpos (digits2_pos q) - 1)) <= Zpos (p * q)).
  { rewrite Z.pow_add_r, Pos2Z.inj_mul by lia.
    apply Z.mul_le_mono_nonneg; try assumption; apply Z.pow_nonneg; lia. }
  assert (Zpos (digits2_pos p) - 1 + (Zpos (digits2_pos q) - 1) < Zpos (digits2_pos (p * q))).
  { apply (Z.pow_lt_mono_r_iff 2); lia. }
  lia.
Qed.

(** [a * b] is exact whenever the exact product is a binary64 number. *)
Lemma mul_exact (x y z : JS.number) :
  Binary64.wellFormed x = true -> Binary64.wellFormed y = true -> Binary64.wellFormed z = true ->
  Binary64.units z * 2 ^ 1074 = Binary64.units x * Binary64.units y ->
  Binary64.wellFormed (JS.mul x y) = true /\ Binary64.units (JS.mul x y) = Binary64.units z
  /\ (Binary64.units z <> 0 -> JS.mul x y = z).
Proof.
  intros Hx Hy Hz E.
  assert (Z0 : Binary64.units x * Binary64.units y = 0 -> Binary64.units z = 0).
  { intros H. rewrite H in E. apply Z.mul_eq_0 in E. destruct E as [E|E]; [exact E|].
    pose proof (pow2_pos 1074). lia. }
  destruct x as [sx| | |sx mx ex], y as [sy| | |sy my ey]; cbn [Binary64.wellFormed] in Hx, Hy;
    try discriminate;
    try (cbn [Binary64.units] in Z0; rewrite ?Z.mul_0_l, ?Z.mul_0_r in Z0;
         specialize (Z0 eq_refl); split; [reflexivity|]; split; [symmetry; exact Z0|];
         intros N; contradiction).
  destruct (bounded_spec _ _ Hx) as (Cx & Rx & Dx).
  destruct (bounded_spec _ _ Hy) as (Cy & Ry & Dy).
  rewrite fexp_eq in Cx, Cy.
  pose proof (pow2_pos (ex + 1074) ltac:(lia)) as Px.
  pose proof (pow2_pos (ey + 1074) ltac:(lia)) as Py.
  pose proof (pow2_pos 1074 ltac:(lia)) as P0.
  assert (R : JS.mul (S754_finite sx mx ex) (S754_finite sy my ey) = z).
  { unfold JS.mul, SFmul.
    destruct z as [sz| | |sz mz ez]; try discriminate.
    - exfalso. cbn [Binary64.units] in E. destruct sx, sy; cbn [cond_Zopp] in E; nia.
    - cbn [Binary64.wellFormed] in Hz. destruct (bounded_spec _ _ Hz) as (Cz & Rz & _).
      pose proof (pow2_pos (ez + 1074) ltac:(lia)) as Pz.
      assert (Es : cond_Zopp sz (Zpos mz * 2 ^ (ez + 2148))
                   = cond_Zopp (xorb sx sy) (Zpos (mx * my) * 2 ^ (ex + ey + 2148))).
      { replace (ez + 2148) with ((ez + 1074) + 1074) by lia.
        replace (ex + ey + 2148) with ((ex + 1074) + (ey + 1074)) by lia.
        rewrite (Z.pow_add_r 2 (ez + 1074) 1074), (Z.pow_add_r 2 (ex + 1074) (ey + 1074)) by lia.
        rewrite Pos2Z.inj_mul. cbn [Binary64.units] in E.
        destruct sz, sx, sy; cbn [cond_Zopp xorb] in *; lia. }
      apply cond_Zopp_inj in Es;
        [|pose proof (pow2_pos (ez + 2148)); nia
         |pose proof (pow2_pos (ex + ey + 2148)); nia].
      destruct Es as [-> Em]. symmetry in Em.
      pose proof (same_digits 2148 (mx * my) mz (ex + ey) ez ltac:(lia) ltac:(lia) Em) as D.
      pose proof (digits_mul mx my) as DM.
      rewrite fexp_eq in Cz.
      pose proof (Pos2Z.is_pos (digits2_pos mx)). pose proof (Pos2Z.is_pos (digits2_pos my)).
      apply (round_aux_exact 2148); [lia|lia|lia|assumption|exact Em]. }
  rewrite R. split; [exact Hz|]. split; [reflexivity|]. intros _. reflexivity.
Qed.

(** Every value of at most 53 significant bits within range is a number. *)
Lemma dyadic_wellFormed (s : bool) (p : positive) (e : Z) :
  Zpos (digits2_pos p) <= 53 -> -1074 <= e -> Zpos (digits2_pos p) + e <= 1024 ->
  exists z, Binary64.wellFormed z = true /\ Binary64.units z = cond_Zopp s (Zpos p * 2 ^ (e + 1074)).
Proof.
  intros Hd He Hmax.
  set (e' := Z.max (Zpos (digits2_pos p) + e - 53) (-1074)).
  exists (S754_finite s (Binary64.shl p (Z.to_nat (e - e'))) e'). split.
  - cbn [Binary64.wellFormed]. unfold bounded, canonical_mantissa.
    rewrite andb_true_iff, Z.eqb_eq, Z.leb_le, fexp_eq, digits_shl, Z2Nat.id by lia.
    unfold JS.emax, JS.prec. lia.
  - cbn [Binary64.units]. f_equal. rewrite shl_Z, Z2Nat.id by lia.
    replace (e + 1074) with ((e - e') + (e' + 1074)) by lia.
    rewrite (Z.pow_add_r 2 (e - e') (e' + 1074)) by lia. ring.
Qed.

Lemma integer_wellFormed (n : Z) :
  - 2 ^ 53 <= n <= 2 ^ 53 ->
  exists z, Binary64.wellFormed z = true /\ Binary64.units z = n * 2 ^ 1074.
Proof.
  intros H.
  assert (P : forall s p, Zpos p <= 2 ^ 53 ->
            exists z, Binary64.wellFormed z = true /\ Binary64.units z = cond_Zopp s (Zpos p * 2 ^ 1074)).
  { intros s p Hp. destruct (Z.eq_dec (Zpos p) (2 ^ 53)) as [E|NE].
    - exists (S754_finite s 4503599627370496 1). split; [reflexivity|].
      cbn [Binary64.units]. f_equal. rewrite E.
      change (1 + 1074) with (1 + 1074). rewrite (Z.pow_add_r 2 1 1074) by lia.
      change (2 ^ 53) with (4503599627370496 * 2 ^ 1)%Z. ring.
    - pose proof (digits_bounds p) as [L _].
      assert (Zpos (digits2_pos p) - 1 < 53) by (apply (Z.pow_lt_mono_r_iff 2); lia).
      destruct (dyadic_wellFormed s p 0) as (z & W & U); try lia.
      exists z. split; [exact W|]. rewrite U. reflexivity. }
  destruct n as [|p|p].
  - exists (S754_zero false). split; reflexivity.
  - apply (P false p). lia.
  - destruct (P true p) as (z & W & U); [lia|]. exists z. split; [exact W|].
    rewrite U. cbn [cond_Zopp]. lia.
Qed.

Lemma ofZ_exact (n : Z) :
  - 2 ^ 53 <= n <= 2 ^ 53 ->
  Binary64.wellFormed (JS.ofZ n) = true /\ Binary64.units (JS.ofZ n) = n * 2 ^ 1074.
Proof.
  intros H. destruct (integer_wellFormed n H) as (z & W & U).
  destruct (normalize_exact n 0 z ltac:(lia) W U) as (W' & U' & _).
  split; [exact W'|]. unfold JS.ofZ. rewrite U', U. reflexivity.
Qed.

(** Integer addition is exact within the safe range. *)
Lemma ofZ_add (a b : Z) :
  - 2 ^ 53 <= a <= 2 ^ 53 -> - 2 ^ 53 <= b <= 2 ^ 53 ->
  - 2 ^ 53 <= a + b <= 2 ^ 53 ->
  JS.add (JS.ofZ a) (JS.ofZ b) = JS.ofZ (a + b).
Proof.
  intros Ha Hb Hab.
  destruct (ofZ_exact a Ha) as [Wa Ua]. destruct (ofZ_exact b Hb) as [Wb Ub].
  destruct (ofZ_exact (a + b) Hab) as [Wc Uc].
  destruct (add_exact (JS.ofZ a) (JS.ofZ b) (JS.ofZ (a + b)) Wa Wb Wc) as (_ & U & Eq).
  { rewrite Ua, Ub, Uc. ring. }
  destruct (Z.eq_dec (a + b) 0) as [Z0|NZ].
  - rewrite Z0.
    destruct (Z.eq_dec a 0) as [->|Na].
    + assert (b = 0) by lia. subst b. reflexivity.
    + assert (Ub' : Binary64.units (JS.ofZ b) <> 0) by (rewrite Ub; pose proof (pow2_pos 1074); nia).
      assert (Ua' : Binary64.units (JS.ofZ a) <> 0) by (rewrite Ua; pose proof (pow2_pos 1074); nia).
      assert (Us : Binary64.units (JS.add (JS.ofZ a) (JS.ofZ b)) = 0) by (rewrite U, Uc, Z0; reflexivity).
      revert Us. unfold JS.add.
      destruct (JS.ofZ a) as [sa| | |sa ma ea] eqn:Ea, (JS.ofZ b) as [sb| | |sb mb eb] eqn:Eb;
        try discriminate; try (cbn [Binary64.units] in *; congruence).
      cbn [Binary64.wellFormed] in Wa, Wb.
      destruct (bounded_spec _ _ Wa) as (_ & Ra & _).
      destruct (bounded_spec _ _ Wb) as (_ & Rb & _).
      unfold SFadd. cbv zeta. intros _.
      assert (N0 : cond_Zopp sa (Zpos (fst (shl_align ma ea (Z.min ea eb))))
                   + cond_Zopp sb (Zpos (fst (shl_align mb eb (Z.min ea eb)))) = 0).
      { pose proof (pow2_pos (Z.min ea eb + 1074) ltac:(lia)) as P.
        apply (Z.mul_reg_r _ _ (2 ^ (Z.min ea eb + 1074))); [lia|].
        rewrite Z.mul_add_distr_r, !aligned_units by lia.
        rewrite Ua, Ub. lia. }
      rewrite N0. reflexivity.
  - apply Eq. rewrite Uc. pose proof (pow2_pos 1074). nia.
Qed.

Lemma two_pow_Q (k : Z) : 0 <= k -> (inject_Z (2 ^ k) == 2 ^ k)%Q.
Proof. intros H. rewrite Zpower_Qpower by assumption. reflexivity. Qed.

Lemma value_units (x : JS.number) :
  Binary64.wellFormed x = true -> (Binary64.value x == inject_Z (Binary64.units x) * Binary64.ulp)%Q.
Proof.
  destruct x as [s| | |s m e]; cbn [Binary64.wellFormed Binary64.value Binary64.units]; try discriminate.
  - intros _. unfold Binary64.ulp. ring.
  - intros H. destruct (bounded_spec _ _ H) as (_ & R & _).
    assert (E : cond_Zopp s (Zpos m * 2 ^ (e + 1074))
                = cond_Zopp s (Zpos m) * 2 ^ (e + 1074)).
    { destruct s; cbn [cond_Zopp]; ring. }
    rewrite E, inject_Z_mult, two_pow_Q by lia. unfold Binary64.ulp.
    rewrite <- Qmult_assoc, <- Qpower_plus by discriminate.
    replace (e + 1074 + -1074) with e by lia. reflexivity.
Qed.

Lemma units_of_value (x : JS.number) (q : Q) :
  Binary64.represents x q -> (inject_Z (Binary64.units x) == q * 2 ^ 1074)%Q.
Proof.
  intros [W V]. rewrite <- V, (value_units x W). unfold Binary64.ulp.
  rewrite <- Qmult_assoc, <- Qpower_plus by discriminate.
  change (-1074 + 1074) with 0. change (2 ^ 0)%Q with 1%Q. ring.
Qed.

Lemma represents_unique (x y : JS.number) (q : Q) :
  Binary64.represents x q -> Binary64.represents y q -> ~ (q == 0)%Q -> x = y.
Proof.
  intros Rx Ry N. pose proof (units_of_value x q Rx) as Ux.
  pose proof (units_of_value y q Ry) as Uy.
  apply wellFormed_unique; [apply Rx|apply Ry| |].
  - apply inject_Z_injective. rewrite Ux, Uy. reflexivity.
  - intros Z0. rewrite Z0 in Ux. apply N.
    assert (P : ~ (2 ^ 1074 == 0)%Q).
    { intros H. pose proof (Qpower_0_lt 2 1074 ltac:(reflexivity)) as L.
      rewrite H in L. discriminate. }
    symmetry in Ux. apply Qmult_integral in Ux. destruct Ux; [assumption|contradiction].
Qed.

Lemma represents_proper (x : JS.number) (q r : Q) :
  (q == r)%Q -> Binary64.represents x q -> Binary64.represents x r.
Proof. intros E [W V]. split; [exact W|]. rewrite V. exact E. Qed.

(** [a + b] is exact whenever the exact sum is a binary64 number. *)
Lemma add_represents (x y : JS.number) (a b : Q) :
  Binary64.represents x a -> Binary64.represents y b -> Binary64.representable (a + b) ->
  Binary64.represents (JS.add x y) (a + b).
Proof.
  intros Rx Ry (z & Rz).
  pose proof (units_of_value _ _ Rx) as Ux. pose proof (units_of_value _ _ Ry) as Uy.
  pose proof (units_of_value _ _ Rz) as Uz.
  destruct (add_exact x y z (proj1 Rx) (proj1 Ry) (proj1 Rz)) as (W & U & _).
  { apply inject_Z_injective. rewrite inject_Z_plus, Ux, Uy, Uz. ring. }
  split; [exact W|]. rewrite (value_units _ W), U, <- (value_units _ (proj1 Rz)).
  apply Rz.
Qed.

(** [a * b] is exact whenever the exact product is a binary64 number. *)
Lemma mul_represents (x y : JS.number) (a b : Q) :
  Binary64.represents x a -> Binary64.represents y b -> Binary64.representable (a * b) ->
  Binary64.represents (JS.mul x y) (a * b).
Proof.
  intros Rx Ry (z & Rz).
  pose proof (units_of_value _ _ Rx) as Ux. pose proof (units_of_value _ _ Ry) as Uy.
  pose proof (units_of_value _ _ Rz) as Uz.
  destruct (mul_exact x y z (proj1 Rx) (proj1 Ry) (proj1 Rz)) as (W & U & _).
  { apply inject_Z_injective.
    rewrite !inject_Z_mult, Ux, Uy, Uz, two_pow_Q by lia. ring. }
  split; [exact W|]. rewrite (value_units _ W), U, <- (value_units _ (proj1 Rz)).
  apply Rz.
Qed.

(** The integers of magnitude at most 2^53 are numbers, and [ofZ] gives them. *)
Lemma ofZ_represents (n : Z) :
  - 2 ^ 53 <= n <= 2 ^ 53 -> Binary64.represents (JS.ofZ n) (inject_Z n).
Proof.
  intros H. destruct (ofZ_exact n H) as [W U]. split; [exact W|].
  rewrite (value_units _ W), U, inject_Z_mult, two_pow_Q by lia. unfold Binary64.ulp.
  rewrite <- Qmult_assoc, <- Qpower_plus by discriminate.
  change (1074 + -1074) with 0. change (2 ^ 0)%Q with 1%Q. ring.
Qed.

(** ** Sums of numbers that are exact *)

Lemma representable_proper (q r : Q) :
  (q == r)%Q -> Binary64.representable q -> Binary64.representable r.
Proof. intros E [x R]. exists x. exact (represents_proper x q r E R). Qed.

Lemma zero_represents : Binary64.represents JS.zero 0.
Proof. split; reflexivity. Qed.

(** A left-to-right sum is exact when every partial sum is a number. *)
Lemma fold_add_represents {A} (num : A -> JS.number) (val : A -> Q) (l : list A) :
  forall (acc : JS.number) (a : Q),
    Binary64.represents acc a ->
    (forall i, In i l -> Binary64.represents (num i) (val i)) ->
    (forall k, Binary64.representable (a + Binary64.Qsum (map val (firstn k l)))) ->
    Binary64.represents (fold_left (fun t i => JS.add t (num i)) l acc)
                        (a + Binary64.Qsum (map val l)).
Proof.
  unfold Binary64.Qsum.
  induction l as [|x l IH]; intros acc a Ra Hl Hk.
  - cbn [fold_left map fold_right]. apply (represents_proper acc a); [ring | exact Ra].
  - cbn [fold_left map fold_right].
    apply (represents_proper _ ((a + val x) + fold_right Qplus 0%Q (map val l)));
      [ring|].
    apply IH.
    + apply add_represents; [exact Ra | apply Hl; left; reflexivity|].
      apply (representable_proper
               (a + fold_right Qplus 0%Q (map val (firstn 1 (x :: l)))));
        [cbn [firstn map fold_right]; ring | apply Hk].
    + intros i Hi. apply Hl. right. exact Hi.
    + intros k.
      apply (representable_proper
               (a + fold_right Qplus 0%Q (map val (firstn (S k) (x :: l)))));
        [cbn [firstn map fold_right]; ring | apply Hk].
Qed.

Lemma sumZ_cons (n : Z) (ns : list Z) : sumZ (n :: ns) = n + sumZ ns.
Proof. reflexivity. Qed.

Lemma sumZ_nonneg (ns : list Z) : Forall (fun n => 0 <= n) ns -> 0 <= sumZ ns.
Proof. induction 1 as [|n ns Hn _ IH]; [reflexivity|]. rewrite sumZ_cons. lia. Qed.

Lemma naturals_nonneg (xs : list JS.number) (ns : list Z) :
  Lines64.naturals xs ns -> Forall (fun n => 0 <= n) ns.
Proof. induction 1 as [|x n xs ns [_ Hn] _ IH]; constructor; assumption. Qed.

(** Adding up non-negative integers is exact up to [2^53]. *)
Lemma fold_add_naturals (xs : list JS.number) (ns : list Z) :
  Lines64.naturals xs ns ->
  forall (acc : JS.number) (a : Z),
    Binary64.represents acc (inject_Z a) -> 0 <= a -> a + sumZ ns <= 2 ^ 53 ->
    Binary64.represents (fold_left JS.add xs acc) (inject_Z (a + sumZ ns)).
Proof.
  induction 1 as [|x n xs ns [Rx Hn] Hrest IH]; intros acc a Ra Ha Hle.
  - cbn [fold_left]. change (sumZ []) with 0. rewrite Z.add_0_r. exact Ra.
  - cbn [fold_left]. rewrite sumZ_cons in *.
    pose proof (sumZ_nonneg ns (naturals_nonneg _ _ Hrest)) as Hs.
    replace (a + (n + sumZ ns)) with ((a + n) + sumZ ns) by lia.
    apply IH; [|lia|lia].
    apply (represents_proper _ (inject_Z a + inject_Z n));
      [rewrite inject_Z_plus; reflexivity|].
    apply add_represents; [exact Ra|exact Rx|].
    exists (JS.ofZ (a + n)).
    apply (represents_proper _ (inject_Z (a + n))); [rewrite inject_Z_plus; reflexivity|].
    apply ofZ_represents. lia.
Qed.

Lemma fold_left_map_num {A} (f : A -> JS.number) (l : list A) (acc : JS.number) :
  fold_left (fun t i => JS.add t (f i)) l acc = fold_left JS.add (map f l) acc.
Proof. revert acc. induction l as [|x l IH]; intros acc; cbn; [reflexivity|apply IH]. Qed.


(** The sign test on a safe integer. *)
Lemma lt_zero_ofZ (n : Z) :
  - 2 ^ 53 <= n <= 2 ^ 53 -> Binary64.lt JS.zero (JS.ofZ n) = Z.ltb 0 n.
Proof.
  intros H. destruct (ofZ_exact n H) as [W U].
  pose proof (pow2_pos 1074 ltac:(lia)) as P.
  destruct (JS.ofZ n) as [s| | |s m e]; cbn [Binary64.wellFormed] in W; try discriminate.
  - cbn [Binary64.units] in U. assert (n = 0) by nia. subst n. reflexivity.
  - destruct (bounded_spec _ _ W) as (_ & R & _).
    pose proof (units_sign s m e ltac:(lia)) as S. rewrite U in S.
    unfold Binary64.lt, SFltb, JS.zero. cbn [SFcompare].
    destruct s; symmetry; [apply Z.ltb_ge | apply Z.ltb_lt]; nia.
Qed.

(** ** The store on numbers: lines *)

Section Numbers.
Import CartStore64 Lines64.

Lemma hasSku64_false_iff (s : string) (l : list GuestCartItem) :
  hasSku s l = false <-> Forall (fun i => sku i <> s) l.
Proof.
  unfold hasSku. induction l as [|x l IH]; cbn.
  - split; auto.
  - rewrite orb_false_iff, IH, String.eqb_neq. split.
    + intros [H1 H2]. constructor; assumption.
    + intros H. inversion H; subst. split; assumption.
Qed.

Lemma hasSku64_app (s : string) (l l' : list GuestCartItem) :
  hasSku s (l ++ l') = hasSku s l || hasSku s l'.
Proof. apply existsb_app. Qed.

Lemma map_bump64_absent (s : string) (dq : JS.number) (l : list GuestCartItem) :
  hasSku s l = false -> map (bump s dq) l = l.
Proof.
  rewrite hasSku64_false_iff. induction 1 as [|x l Hx _ IH]; cbn; [reflexivity|].
  rewrite IH. unfold bump. apply String.eqb_neq in Hx. rewrite Hx. reflexivity.
Qed.

Lemma linesOf64_absent (s : string) (l : list GuestCartItem) :
  hasSku s l = false -> linesOf s l = [].
Proof.
  rewrite hasSku64_false_iff. induction 1 as [|x l Hx _ IH]; cbn; [reflexivity|].
  apply String.eqb_neq in Hx. rewrite Hx. exact IH.
Qed.

Lemma otherLines64_absent (s : string) (l : list GuestCartItem) :
  hasSku s l = false -> otherLines s l = l.
Proof.
  rewrite hasSku64_false_iff. induction 1 as [|x l Hx _ IH]; cbn; [reflexivity|].
  apply String.eqb_neq in Hx. rewrite Hx. cbn [negb]. f_equal. exact IH.
Qed.

(** The two branches of [addGuestItem]. *)
Lemma addGuestItem64_present (item : GuestCartItem) (state : CartState) :
  hasSku (sku item) (guestItems state) = true ->
  guestItems (addGuestItem item state)
  = map (bump (sku item) (quantity item)) (guestItems state).
Proof.
  intros H. unfold addGuestItem.
  destruct (find _ (guestItems state)) eqn:F; [reflexivity|].
  apply find_existsb in F. unfold hasSku in H. congruence.
Qed.

Lemma addGuestItem64_absent (item : GuestCartItem) (state : CartState) :
  hasSku (sku item) (guestItems state) = false ->
  guestItems (addGuestItem item state) = guestItems state ++ [item].
Proof.
  intros H. unfold addGuestItem.
  destruct (find _ (guestItems state)) eqn:F; [|reflexivity].
  assert (F' : find (fun i => String.eqb (sku i) (sku item)) (guestItems state) <> None)
    by congruence.
  rewrite find_existsb in F'. unfold hasSku in H. congruence.
Qed.

Lemma addAll64_cons (item : GuestCartItem) (rest : list GuestCartItem)
    (state : CartState) :
  addAll (item :: rest) state = addAll rest (addGuestItem item state).
Proof. reflexivity. Qed.

Lemma addAll64_snoc (items : list GuestCartItem) (item : GuestCartItem)
    (state : CartState) :
  addAll (items ++ [item]) state = addGuestItem item (addAll items state).
Proof. unfold addAll. rewrite fold_left_app. reflexivity. Qed.

(** A run of adds of one sku on a cart whose last line is the only one of
    that sku: the line's quantity takes the adds one after the other. *)
Lemma addAll64_one_sku (s : string) (rest : list GuestCartItem) :
  Forall (fun i => sku i = s) rest ->
  forall (old : list GuestCartItem) (line : GuestCartItem) (state : CartState),
    guestItems state = old ++ [line] -> sku line = s -> hasSku s old = false ->
    guestItems (addAll rest state)
    = old ++ [withQuantity line (fold_left JS.add (map quantity rest) (quantity line))].
Proof.
  induction 1 as [|x rest Hx _ IH]; intros old line state Hst Hline Hold.
  - cbn [addAll fold_left map]. rewrite Hst. destruct line; reflexivity.
  - rewrite addAll64_cons.
    rewrite (IH old (withQuantity line (JS.add (quantity line) (quantity x)))).
    + reflexivity.
    + rewrite addGuestItem64_present.
      * rewrite Hst, map_app, Hx, map_bump64_absent by assumption.
        cbn [map]. unfold bump. rewrite Hline, String.eqb_refl. reflexivity.
      * rewrite Hst, hasSku64_app, Hx. cbn. rewrite Hline, String.eqb_refl.
        apply orb_true_r.
    + exact Hline.
    + exact Hold.
Qed.

Lemma hasSku64_remove (s : string) (l : list GuestCartItem) :
  hasSku s (otherLines s l) = false.
Proof.
  apply hasSku64_false_iff, Forall_forall. intros i Hi.
  apply filter_In in Hi. destruct Hi as [_ Hi].
  apply negb_true_iff, String.eqb_neq in Hi. exact Hi.
Qed.

Lemma count64_is_fold (state : CartState) :
  getGuestItemCount state = fold_left JS.add (map quantity (guestItems state)) JS.zero.
Proof. apply fold_left_map_num. Qed.

End Numbers.

(** ** [addGuestItem] on numbers *)

Section AddGuestItem.
Import CartStore64 Lines64.

(** C1, as the code has it.  Three adds of one sku with quantities 2^53, 1
    and 1 leave one line whose quantity is 2^53: each [+ 1] rounds back.
    The sum of the added quantities, 2^53 + 2, is itself a number, and it is
    what the same adds give in the order 1, 1, 2^53. *)
Lemma same_sku_adds_lose_units :
  let big := anItem "A" "10.00" (JS.ofZ (2 ^ 53)) in
  let one := anItem "A" "10.00" (JS.ofZ 1) in
  let final := guestItems (addAll [big; one; one] initialState) in
  Binary64.represents (quantity big) (inject_Z (2 ^ 53))
  /\ Binary64.represents (quantity one) 1
  /\ final = [anItem "A" "10.00" (S754_finite false 4503599627370496 1)]
  /\ (exists line, linesOf "A" final = [line]
                   /\ Binary64.represents (quantity line) (inject_Z (2 ^ 53))
                   /\ ~ Binary64.represents (quantity line) (inject_Z (2 ^ 53 + 1 + 1)))
  /\ Binary64.representable (inject_Z (2 ^ 53 + 1 + 1))
  /\ guestItems (addAll [one; one; big] initialState)
     = [anItem "A" "10.00" (JS.ofZ (2 ^ 53 + 1 + 1))].
Proof.
  cbv zeta. split; [apply ofZ_represents; lia|]. split; [apply (ofZ_represents 1); lia|].
  split; [vm_compute; reflexivity|]. split.
  - exists (anItem "A" "10.00" (S754_finite false 4503599627370496 1)).
    split; [vm_compute; reflexivity|]. split.
    + split; [reflexivity|]. vm_compute. reflexivity.
    + intros [_ H]. vm_compute in H. discriminate.
  - split.
    + exists (JS.ofZ (2 ^ 53 + 1 + 1)). split; [reflexivity|]. vm_compute. reflexivity.
    + vm_compute. reflexivity.
Qed.

(** C1, amended.  [addGuestItem item] on a cart that has a line with the
    item's sku keeps the number and order of the lines and replaces the
    quantity of every line of that sku by the binary64 sum of it and the
    item's quantity, leaving the other lines as they are; on a cart without
    such a line it appends the item as the new last line.  Hence a run of
    calls [item :: rest] that share one sku, on a cart without that sku,
    ends with the old lines, unchanged and in their order, followed by
    exactly one line for the sku; its quantity is the added quantities
    summed from the left, each sum rounded.  When the added quantities are
    non-negative integers that sum to at most 2^53, that is their sum. *)
Theorem addGuestItem_merges_with_rounding :
  forall (state : CartState) (item : GuestCartItem) (rest : list GuestCartItem),
    let old := guestItems state in
    let new := guestItems (addGuestItem item state) in
    (hasSku (sku item) old = true ->
       List.length new = List.length old /\
       forall n line, nth_error old n = Some line ->
         nth_error new n
         = Some (if String.eqb (sku line) (sku item)
                 then withQuantity line (JS.add (quantity line) (quantity item))
                 else line))
    /\ (hasSku (sku item) old = false -> new = old ++ [item])
    /\ (Forall (fun i => sku i = sku item) rest ->
        hasSku (sku item) old = false ->
        let final := guestItems (addAll (item :: rest) state) in
        let q := fold_left JS.add (map quantity rest) (quantity item) in
        final = old ++ [withQuantity item q]
        /\ otherLines (sku item) final = old
        /\ linesOf (sku item) final = [withQuantity item q]
        /\ forall ns : list Z,
             naturals (map quantity (item :: rest)) ns ->
             sumZ ns <= 2 ^ 53 ->
             Binary64.represents q (inject_Z (sumZ ns))).
Proof.
  intros state item rest old new. subst old new. split; [|split].
  - intros H. rewrite addGuestItem64_present by assumption. split.
    + apply List.length_map.
    + intros n line Hn. rewrite nth_error_map, Hn. reflexivity.
  - intros H. apply addGuestItem64_absent. assumption.
  - intros Hrest Habs final q.
    assert (E : final = guestItems state ++ [withQuantity item q]).
    { subst final q. rewrite addAll64_cons.
      apply (addAll64_one_sku (sku item)); try assumption; [|reflexivity].
      apply addGuestItem64_absent. assumption. }
    split; [exact E|]. rewrite E. split; [|split].
    + unfold otherLines. rewrite filter_app. fold (otherLines (sku item) (guestItems state)).
      rewrite otherLines64_absent by assumption.
      cbn [filter sku withQuantity]. rewrite String.eqb_refl. apply app_nil_r.
    + unfold linesOf. rewrite filter_app. fold (linesOf (sku item) (guestItems state)).
      rewrite linesOf64_absent by assumption.
      cbn [filter sku withQuantity app]. rewrite String.eqb_refl. reflexivity.
    + intros ns Hns Hle. subst q. cbn [map] in Hns.
      inversion Hns as [|x n xs ns' [Rx Hn] Hrest']; subst.
      rewrite sumZ_cons in *.
      apply (fold_add_naturals _ _ Hrest'); assumption.
Qed.

Lemma addGuestItem_merges_with_rounding_witness :
  let two := anItem "A" "10.00" (JS.ofZ 2) in
  let three := anItem "A" "10.00" (JS.ofZ 3) in
  guestItems (addAll [two; three] initialState)
  = [withQuantity two (JS.add (JS.ofZ 2) (JS.ofZ 3))]
  /\ Binary64.represents (JS.add (JS.ofZ 2) (JS.ofZ 3)) 5.
Proof.
  cbv zeta.
  pose (two := anItem "A" "10.00" (JS.ofZ 2)).
  pose (three := anItem "A" "10.00" (JS.ofZ 3)).
  destruct (addGuestItem_merges_with_rounding initialState two [three])
    as (_ & _ & H).
  destruct (H (Forall_cons three eq_refl (Forall_nil _)) eq_refl) as (E & _ & _ & R).
  split; [exact E|].
  apply (R [2; 3]); [|vm_compute; discriminate].
  unfold naturals. cbn [map].
  constructor; [split; [apply (ofZ_represents 2)|]; lia|].
  constructor; [split; [apply (ofZ_represents 3)|]; lia|]. constructor.
Defined.

End AddGuestItem.

(** ** Totals and counts on numbers *)

Section Totals.
Import CartStore64 Lines64.

(** C5, as the code has it.  One line priced 0.1 with quantity 3: the price
    parses (to the number nearest to 0.1) and the quantity is 3, yet the
    total is 0.30000000000000004, which is neither three times the parsed
    price nor the number nearest to 0.3. *)
Lemma total_is_rounded :
  let state := {| guestItems := [anItem "A" "0.1" (JS.ofZ 3)] |} in
  let price := JS.parseFloat "0.1" in
  Binary64.wellFormed price = true
  /\ Binary64.represents (JS.ofZ 3) 3
  /\ getGuestCartTotal state = S754_finite false 5404319552844596 (-54)
  /\ getGuestCartTotal state = JS.parseFloat "0.30000000000000004"
  /\ ~ Binary64.represents (getGuestCartTotal state) (Binary64.value price * 3)
  /\ getGuestCartTotal state <> JS.parseFloat "0.3".
Proof.
  cbv zeta. split; [vm_compute; reflexivity|].
  split; [apply (ofZ_represents 3); lia|].
  split; [vm_compute; reflexivity|]. split; [vm_compute; reflexivity|]. split.
  - intros [_ H]. vm_compute in H. discriminate.
  - vm_compute. discriminate.
Qed.

Lemma total64_is_fold (state : CartState) :
  getGuestCartTotal state
  = fold_left (fun t i => JS.add t (JS.mul (JS.parseFloat (product_price i)) (quantity i)))
      (guestItems state) JS.zero.
Proof. reflexivity. Qed.

(** C5, amended.  The total is exact, the sum over the lines of price times
    quantity, whenever the prices parse to finite numbers, every product of
    a price and a quantity is a binary64 number, and so is every partial sum
    of the products in cart order; otherwise each product and each sum is
    rounded.  The count is the sum of the quantities whenever every partial
    sum of them is a binary64 number, as it is for non-negative integers
    that sum to at most 2^53.  A cart built from the empty one by adding two
    items of distinct skus, priced 10.00 and 5.50 with quantities 2 and 1,
    in either order, has total 25.5 and count 3. *)
Theorem total_and_count_exact_when_representable :
  forall (state : CartState) (price qty : GuestCartItem -> Q) (a b : GuestCartItem),
    let items := guestItems state in
    ((forall i, In i items ->
        Binary64.represents (JS.parseFloat (product_price i)) (price i)
        /\ Binary64.represents (quantity i) (qty i)
        /\ Binary64.representable (price i * qty i)) ->
     (forall k, Binary64.representable
                  (Binary64.Qsum (map (fun i => price i * qty i)%Q (firstn k items)))) ->
     Binary64.represents (getGuestCartTotal state)
       (Binary64.Qsum (map (fun i => price i * qty i)%Q items)))
    /\ ((forall i, In i items -> Binary64.represents (quantity i) (qty i)) ->
        (forall k, Binary64.representable (Binary64.Qsum (map qty (firstn k items)))) ->
        Binary64.represents (getGuestItemCount state) (Binary64.Qsum (map qty items)))
    /\ (forall ns : list Z,
          naturals (map quantity items) ns -> sumZ ns <= 2 ^ 53 ->
          Binary64.represents (getGuestItemCount state) (inject_Z (sumZ ns)))
    /\ (sku a <> sku b ->
        product_price a = "10.00" -> Binary64.represents (quantity a) 2 ->
        product_price b = "5.50" -> Binary64.represents (quantity b) 1 ->
        let ab := addAll [a; b] initialState in
        let ba := addAll [b; a] initialState in
        Binary64.represents (getGuestCartTotal ab) (51 # 2)
        /\ getGuestCartTotal ab = S754_finite false 7177611906121728 (-48)
        /\ Binary64.represents (getGuestItemCount ab) 3
        /\ getGuestItemCount ab = S754_finite false 6755399441055744 (-51)
        /\ getGuestCartTotal ba = getGuestCartTotal ab
        /\ getGuestItemCount ba = getGuestItemCount ab).
Proof.
  intros state price qty a b items. split; [|split; [|split]].
  - intros Hl Hk. rewrite total64_is_fold. fold items.
    apply (represents_proper _
             (0 + Binary64.Qsum (map (fun i => price i * qty i)%Q items))); [ring|].
    apply (fold_add_represents
             (fun i => JS.mul (JS.parseFloat (product_price i)) (quantity i))
             (fun i => price i * qty i)%Q).
    + exact zero_represents.
    + intros i Hi. destruct (Hl i Hi) as (Rp & Rq & Rpq).
      apply mul_represents; assumption.
    + intros k. eapply representable_proper; [|apply (Hk k)]. ring.
  - intros Hl Hk. unfold getGuestItemCount. fold items.
    apply (represents_proper _ (0 + Binary64.Qsum (map qty items))); [ring|].
    apply (fold_add_represents quantity qty).
    + exact zero_represents.
    + exact Hl.
    + intros k. eapply representable_proper; [|apply (Hk k)]. ring.
  - intros ns Hns Hle. rewrite count64_is_fold. fold items.
    apply (fold_add_naturals _ _ Hns JS.zero 0); [exact zero_represents|lia|lia].
  - intros Hne Hpa Hqa Hpb Hqb ab ba. subst ab ba.
    assert (Ea : quantity a = JS.ofZ 2).
    { apply (represents_unique _ _ 2 Hqa); [apply (ofZ_represents 2); lia|discriminate]. }
    assert (Eb : quantity b = JS.ofZ 1).
    { apply (represents_unique _ _ 1 Hqb); [apply (ofZ_represents 1); lia|discriminate]. }
    assert (Eab : String.eqb (sku a) (sku b) = false) by (apply String.eqb_neq; assumption).
    assert (Eba : String.eqb (sku b) (sku a) = false)
      by (apply String.eqb_neq; congruence).
    unfold addAll, addGuestItem, getGuestCartTotal, getGuestItemCount.
    cbn [fold_left guestItems initialState find app].
    rewrite Eab, Eba. cbn [fold_left guestItems app].
    rewrite Hpa, Ea, Hpb, Eb.
    split; [split; vm_compute; reflexivity|].
    split; [vm_compute; reflexivity|].
    split; [split; vm_compute; reflexivity|].
    repeat split; vm_compute; reflexivity.
Qed.

Lemma total_and_count_exact_when_representable_witness :
  let a := anItem "A" "10.00" (JS.ofZ 2) in
  let b := anItem "B" "5.50" (JS.ofZ 1) in
  let ab := addAll [a; b] initialState in
  Binary64.represents (getGuestCartTotal ab) (51 # 2)
  /\ Binary64.represents (getGuestItemCount ab) 3.
Proof.
  cbv zeta.
  pose (a := anItem "A" "10.00" (JS.ofZ 2)).
  pose (b := anItem "B" "5.50" (JS.ofZ 1)).
  pose (ab := addAll [a; b] initialState).
  destruct (total_and_count_exact_when_representable ab
              (fun i => Binary64.value (JS.parseFloat (product_price i)))
              (fun i => Binary64.value (quantity i)) a b)
    as (T & _ & C & _).
  split.
  - eapply represents_proper; [|apply T].
    + vm_compute. reflexivity.
    + intros i Hi.
      assert (E : i = a \/ i = b).
      { destruct Hi as [<-|[<-|[]]]; [left|right]; reflexivity. }
      destruct E as [-> | ->];
        (split; [split; [vm_compute; reflexivity|reflexivity]|]);
        (split; [split; [vm_compute; reflexivity|reflexivity]|]).
      * exists (JS.ofZ 20). split; vm_compute; reflexivity.
      * exists (JS.parseFloat "5.50"). split; vm_compute; reflexivity.
    + intros k. change (guestItems ab) with [a; b]. destruct k as [|[|k]].
      * exists JS.zero. split; vm_compute; reflexivity.
      * exists (JS.ofZ 20). split; vm_compute; reflexivity.
      * rewrite firstn_all2 by (cbn [List.length]; lia).
        exists (S754_finite false 7177611906121728 (-48)).
        split; [reflexivity|]. vm_compute. reflexivity.
  - apply (C [2; 1]); [|vm_compute; discriminate].
    unfold naturals. change (map quantity (guestItems ab)) with [JS.ofZ 2; JS.ofZ 1].
    constructor; [split; [apply (ofZ_represents 2)|]; lia|].
    constructor; [split; [apply (ofZ_represents 1)|]; lia|]. constructor.
Defined.

End Totals.

(** ** The pages and the badge on numbers *)

Section Pages.
Import CartStore64 Lines64.







(** ** [removeGuestItem] and [updateGuestItemQuantity] on numbers *)

(** X1.  [removeGuestItem s] takes away every line of sku [s] and nothing
    else.  Afterwards no line has the sku; a line is in the new cart exactly
    when it was in the old one with another sku; the lines of every other
    sku are what they were; a cart that held the sku on one line is left
    with the lines before it followed by the lines after it.  Removing twice
    is removing once, removals of two skus can be done in either order, and
    on a cart without the sku nothing changes. *)
Theorem removeGuestItem_effect :
  forall (state : CartState) (s s' : string),
    let new := guestItems (removeGuestItem s state) in
    hasSku s new = false
    /\ (forall line, In line new <-> In line (guestItems state) /\ sku line <> s)
    /\ (s' <> s -> linesOf s' new = linesOf s' (guestItems state))
    /\ (forall before line after,
          guestItems state = before ++ line :: after ->
          sku line = s -> hasSku s before = false -> hasSku s after = false ->
          new = before ++ after)
    /\ removeGuestItem s (removeGuestItem s state) = removeGuestItem s state
    /\ removeGuestItem s (removeGuestItem s' state)
       = removeGuestItem s' (removeGuestItem s state)
    /\ (hasSku s (guestItems state) = false -> removeGuestItem s state = state).
Proof.
  intros state s s' new. subst new. cbn [removeGuestItem guestItems].
  fold (otherLines s (guestItems state)).
  assert (Abs : forall st, hasSku s (guestItems st) = false -> removeGuestItem s st = st).
  { intros [l] H. unfold removeGuestItem. cbn [guestItems] in *.
    fold (otherLines s l). rewrite otherLines64_absent by assumption. reflexivity. }
  split; [apply hasSku64_remove|]. split; [|split; [|split; [|split; [|split]]]].
  - intros line. unfold otherLines. rewrite filter_In, negb_true_iff, String.eqb_neq.
    reflexivity.
  - intros Hne. unfold linesOf, otherLines.
    induction (guestItems state) as [|x l IH]; [reflexivity|]. cbn [filter].
    destruct (String.eqb_spec (sku x) s) as [E|E]; cbn [negb filter].
    + destruct (String.eqb_spec (sku x) s') as [E'|E']; [congruence|exact IH].
    + destruct (String.eqb (sku x) s'); [f_equal|]; exact IH.
  - intros before line after E Hs Hb Ha. rewrite E. unfold otherLines.
    rewrite filter_app. cbn [filter]. rewrite Hs, String.eqb_refl. cbn [negb].
    fold (otherLines s before). fold (otherLines s after).
    rewrite !otherLines64_absent by assumption. reflexivity.
  - apply Abs. cbn [removeGuestItem guestItems]. apply hasSku64_remove.
  - unfold removeGuestItem. cbn [guestItems]. f_equal.
    induction (guestItems state) as [|x l IH]; cbn [filter]; [reflexivity|].
    destruct (String.eqb (sku x) s) eqn:E, (String.eqb (sku x) s') eqn:E';
      cbn [negb filter]; rewrite ?E, ?E'; cbn [negb]; rewrite ?IH; reflexivity.
  - apply Abs.
Qed.

Lemma removeGuestItem_effect_witness :
  let a := anItem "A" "10.00" (JS.ofZ 3) in
  let b := anItem "B" "5.50" (JS.ofZ 1) in
  let c := anItem "C" "7.25" (JS.ofZ 2) in
  guestItems (removeGuestItem "B" {| guestItems := [a; b; c] |}) = [a; c].
Proof.
  cbv zeta.
  pose (a := anItem "A" "10.00" (JS.ofZ 3)).
  pose (b := anItem "B" "5.50" (JS.ofZ 1)).
  pose (c := anItem "C" "7.25" (JS.ofZ 2)).
  destruct (removeGuestItem_effect {| guestItems := [a; b; c] |} "B" "A")
    as (_ & _ & _ & H & _).
  exact (H [a] b [c] eq_refl eq_refl eq_refl eq_refl).
Defined.

(** X6.  [updateGuestItemQuantity s q] keeps every line in its place and
    gives every line of sku [s] the quantity [q] as it is, whatever the line
    held and whatever number [q] is; the lines of other skus and every other
    field are untouched.  Of two updates of one sku the later one wins, and
    an update of a sku that is not in the cart changes nothing. *)
Theorem updateGuestItemQuantity_effect :
  forall (state : CartState) (s : string) (q1 q2 : JS.number),
    let new := guestItems (updateGuestItemQuantity s q2 state) in
    List.length new = List.length (guestItems state)
    /\ (forall n line, nth_error (guestItems state) n = Some line ->
          nth_error new n
          = Some (if String.eqb (sku line) s then withQuantity line q2 else line))
    /\ map sku new = map sku (guestItems state)
    /\ (forall line, In line new -> sku line = s -> quantity line = q2)
    /\ updateGuestItemQuantity s q2 (updateGuestItemQuantity s q1 state)
       = updateGuestItemQuantity s q2 state
    /\ (hasSku s (guestItems state) = false ->
        updateGuestItemQuantity s q2 state = state).
Proof.
  intros state s q1 q2 new. subst new. cbn [updateGuestItemQuantity guestItems].
  split; [apply List.length_map|]. split; [|split; [|split; [|split]]].
  - intros n line Hn. rewrite nth_error_map, Hn. reflexivity.
  - rewrite map_map. apply map_ext. intros i.
    destruct (String.eqb (sku i) s); reflexivity.
  - intros line Hin Hs. apply in_map_iff in Hin. destruct Hin as (i & <- & _).
    destruct (String.eqb (sku i) s) eqn:E; [reflexivity|].
    apply String.eqb_neq in E. contradiction.
  - unfold updateGuestItemQuantity. cbn [guestItems]. f_equal.
    rewrite map_map. apply map_ext. intros i.
    destruct (String.eqb (sku i) s) eqn:E; cbn [sku withQuantity]; rewrite E;
      reflexivity.
  - intros H. destruct state as [l]. unfold updateGuestItemQuantity.
    cbn [guestItems] in *. f_equal. apply hasSku64_false_iff in H.
    induction H as [|x l Hx _ IH]; cbn [map]; [reflexivity|].
    apply String.eqb_neq in Hx. rewrite Hx, IH. reflexivity.
Qed.

Lemma updateGuestItemQuantity_effect_witness :
  let a := anItem "A" "10.00" (JS.ofZ 3) in
  let b := anItem "B" "5.50" (JS.ofZ 1) in
  nth_error (guestItems (updateGuestItemQuantity "B" (JS.ofZ 7)
                           {| guestItems := [a; b] |})) 1
  = Some (anItem "B" "5.50" (JS.ofZ 7)).
Proof.
  cbv zeta.
  pose (a := anItem "A" "10.00" (JS.ofZ 3)).
  pose (b := anItem "B" "5.50" (JS.ofZ 1)).
  destruct (updateGuestItemQuantity_effect {| guestItems := [a; b] |} "B"
              (JS.ofZ 1) (JS.ofZ 7)) as (_ & H & _).
  exact (H 1%nat b eq_refl).
Defined.

End Pages.

(** ** Carts of integers as carts of numbers

    On carts whose quantities are non-negative integers that sum to at most
    2^53 the store on numbers does what the store on integers does. *)

Lemma state64_ext (a b : CartStore64.CartState) :
  CartStore64.guestItems a = CartStore64.guestItems b -> a = b.
Proof. destruct a, b. cbn. intros ->. reflexivity. Qed.

Lemma hasSku_encode (s : string) (l : list GuestCartItem) :
  Lines64.hasSku s (map encode l) = hasSku s l.
Proof.
  unfold Lines64.hasSku, hasSku. induction l as [|x l IH]; [reflexivity|].
  cbn [map existsb]. rewrite IH. reflexivity.
Qed.



Lemma quantity_le_total (l : list GuestCartItem) (line : GuestCartItem) :
  Forall (fun i => 0 <= quantity i) l -> In line l ->
  0 <= quantity line <= totalQuantity l.
Proof.
  induction 1 as [|x l Hx Hl IH]; intros Hin; [contradiction|].
  change (totalQuantity (x :: l)) with (quantity x + totalQuantity l).
  assert (0 <= totalQuantity l).
  { clear IH Hin. induction Hl as [|y l Hy _ IH]; [reflexivity|].
    change (totalQuantity (y :: l)) with (quantity y + totalQuantity l). lia. }
  destruct Hin as [<-|Hin]; [lia|]. specialize (IH Hin). lia.
Qed.

Lemma totalQuantity_nonneg (l : list GuestCartItem) :
  Forall (fun i => 0 <= quantity i) l -> 0 <= totalQuantity l.
Proof.
  induction 1 as [|y l Hy _ IH]; [reflexivity|].
  change (totalQuantity (y :: l)) with (quantity y + totalQuantity l). lia.
Qed.

Lemma skuQuantity_bounds (s : string) (l : list GuestCartItem) :
  Forall (fun i => 0 <= quantity i) l -> 0 <= skuQuantity s l <= totalQuantity l.
Proof.
  induction 1 as [|x l Hx _ IH]; [cbn; lia|].
  change (totalQuantity (x :: l)) with (quantity x + totalQuantity l).
  change (skuQuantity s (x :: l))
    with ((if String.eqb (sku x) s then quantity x else 0) + skuQuantity s l).
  destruct (String.eqb (sku x) s); lia.
Qed.

(** One add, on both stores. *)
Lemma addGuestItem_encode (item : GuestCartItem) (state : CartState) :
  (forall line, In line (guestItems state) -> sku line = sku item ->
     0 <= quantity line /\ 0 <= quantity item
     /\ quantity line + quantity item <= 2 ^ 53) ->
  CartStore64.addGuestItem (encode item) (encodeState state)
  = encodeState (addGuestItem item state).
Proof.
  intros Hsafe. apply state64_ext.
  destruct (hasSku (sku item) (guestItems state)) eqn:H.
  - rewrite addGuestItem64_present
      by (cbn [encodeState CartStore64.guestItems encode CartStore64.sku];
          rewrite hasSku_encode; exact H).
    cbn [encodeState CartStore64.guestItems].
    rewrite addGuestItem_present by assumption. rewrite !map_map.
    apply map_ext_in. intros line Hin. unfold Lines64.bump, bump.
    cbn [encode CartStore64.sku].
    destruct (String.eqb_spec (sku line) (sku item)) as [E|E]; [|reflexivity].
    destruct (Hsafe line Hin E) as (H1 & H2 & H3).
    unfold CartStore64.withQuantity, encode, withQuantity.
    cbn [CartStore64.sku CartStore64.sku_id CartStore64.product_id
         CartStore64.product_name CartStore64.product_price
         CartStore64.product_image CartStore64.quantity CartStore64.vendor_name
         sku sku_id product_id product_name product_price product_image quantity
         vendor_name].
    f_equal. apply ofZ_add; lia.
  - rewrite addGuestItem64_absent
      by (cbn [encodeState CartStore64.guestItems encode CartStore64.sku];
          rewrite hasSku_encode; exact H).
    cbn [encodeState CartStore64.guestItems].
    rewrite addGuestItem_absent by assumption. rewrite map_app. reflexivity.
Qed.

Lemma safeQuantities_app (l : list GuestCartItem) (x : GuestCartItem) :
  safeQuantities (l ++ [x]) ->
  safeQuantities l /\ 0 <= quantity x /\ totalQuantity l + quantity x <= 2 ^ 53.
Proof.
  intros [Hall Hle]. apply Forall_app in Hall. destruct Hall as [Hl Hx].
  inversion Hx as [|? ? Hq _]; subst.
  rewrite totalQuantity_app in Hle.
  change (totalQuantity [x]) with (quantity x + 0) in Hle.
  split; [split; [exact Hl|]; lia|]. split; lia.
Qed.

Lemma safeQuantities_perm (l l' : list GuestCartItem) :
  Permutation l l' -> safeQuantities l -> safeQuantities l'.
Proof.
  intros P [Hall Hle]. split.
  - exact (Permutation_Forall P Hall).
  - rewrite <- (totalQuantity_perm l l' P). exact Hle.
Qed.

(** A run of adds from the empty cart, on both stores. *)
Lemma addAll_encode (l : list GuestCartItem) :
  safeQuantities l ->
  CartStore64.addAll (map encode l) CartStore64.initialState
  = encodeState (addAll l initialState).
Proof.
  induction l as [|x l IH] using rev_ind; intros Hsafe; [reflexivity|].
  destruct (safeQuantities_app l x Hsafe) as (Hl & Hx & Hle).
  rewrite map_app. cbn [map]. rewrite addAll64_snoc, IH, addAll_snoc by assumption.
  apply addGuestItem_encode. intros line Hin E.
  destruct (addAll_summarises l) as (_ & Hq & _).
  destruct (Hq line Hin) as (_ & _ & _ & _ & Eq).
  pose proof (skuQuantity_bounds (sku line) l (proj1 Hl)). lia.
Qed.

Lemma count_encode_from (l : list GuestCartItem) :
  Forall (fun i => 0 <= quantity i) l ->
  forall a : Z, 0 <= a -> a + totalQuantity l <= 2 ^ 53 ->
  fold_left (fun count item => JS.add count (CartStore64.quantity item))
            (map encode l) (JS.ofZ a)
  = JS.ofZ (a + totalQuantity l).
Proof.
  induction 1 as [|x l Hx Hl IH]; intros a Ha Hle.
  - cbn. f_equal. lia.
  - change (totalQuantity (x :: l)) with (quantity x + totalQuantity l) in *.
    pose proof (totalQuantity_nonneg l Hl).
    cbn [map fold_left encode CartStore64.quantity].
    rewrite ofZ_add by lia. rewrite IH by lia. f_equal. lia.
Qed.

(** The count, on both stores. *)
Lemma count_encode (state : CartState) :
  safeQuantities (guestItems state) ->
  CartStore64.getGuestItemCount (encodeState state)
  = JS.ofZ (getGuestItemCount state).
Proof.
  intros [Hall Hle]. rewrite getGuestItemCount_total.
  unfold CartStore64.getGuestItemCount, encodeState. cbn [CartStore64.guestItems].
  change JS.zero with (JS.ofZ 0). apply (count_encode_from _ Hall 0); lia.
Qed.

Lemma count_encode_represents (state : CartState) :
  safeQuantities (guestItems state) ->
  Binary64.represents (CartStore64.getGuestItemCount (encodeState state))
                      (inject_Z (totalQuantity (guestItems state))).
Proof.
  intros Hsafe. rewrite count_encode, getGuestItemCount_total by assumption.
  apply ofZ_represents. pose proof (totalQuantity_nonneg _ (proj1 Hsafe)).
  destruct Hsafe. lia.
Qed.

Lemma updateGuestItemQuantity_encode (s : string) (q : Z) (state : CartState) :
  CartStore64.updateGuestItemQuantity s (JS.ofZ q) (encodeState state)
  = encodeState (updateGuestItemQuantity s q state).
Proof.
  apply state64_ext. cbn [CartStore64.updateGuestItemQuantity encodeState
                          CartStore64.guestItems updateGuestItemQuantity guestItems].
  rewrite !map_map. apply map_ext. intros i. cbn [encode CartStore64.sku].
  destruct (String.eqb (sku i) s); reflexivity.
Qed.

Lemma nonneg_after_add (item : GuestCartItem) (state : CartState) :
  Forall (fun i => 0 <= quantity i) (guestItems state) -> 0 <= quantity item ->
  Forall (fun i => 0 <= quantity i) (guestItems (addGuestItem item state)).
Proof.
  intros Hall Hq. destruct (hasSku (sku item) (guestItems state)) eqn:H.
  - rewrite addGuestItem_present by assumption. apply Forall_map.
    eapply Forall_impl; [|exact Hall]. intros i Hi. cbv beta in Hi |- *. unfold bump.
    destruct (String.eqb (sku i) (sku item)); cbn [quantity withQuantity]; lia.
  - rewrite addGuestItem_absent by assumption. apply Forall_app. split; [exact Hall|].
    constructor; [exact Hq|constructor].
Qed.

(** ** Reordering the adds, on numbers *)



(** ** The count on numbers *)

(** X4.  On a cart with distinct skus whose quantities, with the added one,
    are non-negative integers that sum to at most 2^53, [addGuestItem]
    raises the count by exactly the item's quantity: the count before is the
    sum of the quantities, the count after is that sum plus the item's
    quantity, and it is the count before [+] the item's quantity. *)
Theorem count_after_add :
  forall (state : CartState) (item : GuestCartItem),
    NoDup (map sku (guestItems state)) ->
    safeQuantities (guestItems state ++ [item]) ->
    let before := CartStore64.getGuestItemCount (encodeState state) in
    let after :=
      CartStore64.getGuestItemCount
        (CartStore64.addGuestItem (encode item) (encodeState state)) in
    Binary64.represents before (inject_Z (totalQuantity (guestItems state)))
    /\ Binary64.represents after
         (inject_Z (totalQuantity (guestItems state) + quantity item))
    /\ after = JS.add before (CartStore64.quantity (encode item)).
Proof.
  intros state item ND Hsafe before after. subst before after.
  destruct (safeQuantities_app _ _ Hsafe) as (Hst & Hq & Hle).
  pose proof (totalQuantity_nonneg _ (proj1 Hst)) as Hnn.
  assert (E : CartStore64.addGuestItem (encode item) (encodeState state)
              = encodeState (addGuestItem item state)).
  { apply addGuestItem_encode. intros line Hin _.
    pose proof (quantity_le_total _ line (proj1 Hst) Hin). lia. }
  assert (C : getGuestItemCount (addGuestItem item state)
              = totalQuantity (guestItems state) + quantity item).
  { rewrite count_add_distinct by assumption. rewrite getGuestItemCount_total.
    reflexivity. }
  assert (S' : safeQuantities (guestItems (addGuestItem item state))).
  { split; [apply nonneg_after_add; [exact (proj1 Hst)|exact Hq]|].
    rewrite <- getGuestItemCount_total, C. exact Hle. }
  rewrite E, (count_encode _ S'), (count_encode _ Hst), C, getGuestItemCount_total.
  split; [apply ofZ_represents; lia|]. split; [apply ofZ_represents; lia|].
  cbn [encode CartStore64.quantity]. symmetry. apply ofZ_add; lia.
Qed.

Lemma count_after_add_witness :
  Binary64.represents
    (CartStore64.getGuestItemCount
       (CartStore64.addGuestItem (encode (tshirt 2)) (encodeState oneTshirt)))
    3.
Proof.
  assert (ND : NoDup (map sku (guestItems oneTshirt))).
  { constructor; [intros [] | constructor]. }
  assert (Q : safeQuantities (guestItems oneTshirt ++ [tshirt 2])).
  { split; [repeat constructor; discriminate|discriminate]. }
  exact (proj1 (proj2 (count_after_add oneTshirt (tshirt 2) ND Q))).
Defined.

(** X5.  The count after a run of adds on the empty cart, of non-negative
    integer quantities that sum to at most 2^53, is the sum of the added
    quantities, so unlike the total it does not depend on the order of the
    adds. *)
Theorem count_under_reordered_adds :
  forall (l1 l2 : list GuestCartItem),
    Permutation l1 l2 ->
    safeQuantities l1 ->
    let count1 :=
      CartStore64.getGuestItemCount
        (CartStore64.addAll (map encode l1) CartStore64.initialState) in
    let count2 :=
      CartStore64.getGuestItemCount
        (CartStore64.addAll (map encode l2) CartStore64.initialState) in
    Binary64.represents count1 (inject_Z (totalQuantity l1)) /\ count1 = count2.
Proof.
  intros l1 l2 P Hsafe count1 count2. subst count1 count2.
  pose proof (safeQuantities_perm l1 l2 P Hsafe) as Hsafe2.
  assert (S : forall l, safeQuantities l ->
                safeQuantities (guestItems (addAll l initialState))).
  { intros l [Hall Hle]. destruct (addAll_summarises l) as (_ & Hq & _). split.
    - apply Forall_forall. intros line Hin.
      destruct (Hq line Hin) as (_ & _ & _ & _ & ->).
      apply (skuQuantity_bounds (sku line) l Hall).
    - rewrite <- getGuestItemCount_total, count_addAll. exact Hle. }
  rewrite !addAll_encode by assumption.
  rewrite !count_encode by (apply S; assumption). rewrite !count_addAll.
  split.
  - apply ofZ_represents. pose proof (totalQuantity_nonneg _ (proj1 Hsafe)).
    destruct Hsafe. lia.
  - f_equal. apply totalQuantity_perm. assumption.
Qed.

Lemma count_under_reordered_adds_witness :
  CartStore64.getGuestItemCount
    (CartStore64.addAll (map encode [anItem "A" "10.00" 2; anItem "B" "5.50" 1])
       CartStore64.initialState)
  = CartStore64.getGuestItemCount
      (CartStore64.addAll (map encode [anItem "B" "5.50" 1; anItem "A" "10.00" 2])
         CartStore64.initialState).
Proof.
  assert (P : Permutation [anItem "A" "10.00" 2; anItem "B" "5.50" 1]
                          [anItem "B" "5.50" 1; anItem "A" "10.00" 2])
    by apply perm_swap.
  assert (Q : safeQuantities [anItem "A" "10.00" 2; anItem "B" "5.50" 1]).
  { split; [repeat constructor; discriminate|discriminate]. }
  exact (proj2 (count_under_reordered_adds _ _ P Q)).
Defined.

(** X7.  On a cart with distinct skus and non-negative integer quantities, a
    plus or minus button of a row, which passes the row's own quantity and a
    change, leaves the row with exactly the new quantity, the other rows and
    the number of rows as they were, and moves the count by exactly the
    change, as long as the new quantity is positive and the sums stay within
    2^53; when the new quantity is zero or less the click changes nothing
    at all. *)
Theorem cart_button_changes_one_row :
  forall (state : CartState) (item : GuestCartItem) (change : Z),
    In item (guestItems state) ->
    NoDup (map sku (guestItems state)) ->
    safeQuantities (guestItems state) ->
    - 2 ^ 53 <= change ->
    totalQuantity (guestItems state) + change <= 2 ^ 53 ->
    let state' :=
      CartPage64.handleGuestUpdateQuantity (sku item) (JS.ofZ (quantity item))
        (JS.ofZ change) (encodeState state) in
    (0 < quantity item + change ->
       state' = encodeState (updateGuestItemQuantity (sku item)
                               (quantity item + change) state)
       /\ In (encode (withQuantity item (quantity item + change)))
             (CartStore64.guestItems state')
       /\ List.length (CartStore64.guestItems state')
          = List.length (guestItems state)
       /\ Binary64.represents (CartStore64.getGuestItemCount state')
            (inject_Z (totalQuantity (guestItems state) + change)))
    /\ (quantity item + change <= 0 -> state' = encodeState state).
Proof.
  intros state item change Hin ND Hsafe Hlo Hhi state'. subst state'.
  pose proof (quantity_le_total _ item (proj1 Hsafe) Hin) as Hq.
  destruct Hsafe as [Hall Hle].
  unfold CartPage64.handleGuestUpdateQuantity.
  rewrite ofZ_add by lia. rewrite lt_zero_ofZ by lia.
  destruct (Z.ltb_spec 0 (quantity item + change)) as [Hpos|Hneg].
  - split; [|lia]. intros _. rewrite updateGuestItemQuantity_encode.
    split; [reflexivity|]. cbn [encodeState CartStore64.guestItems].
    split; [|split].
    + apply in_map. cbn [updateGuestItemQuantity guestItems]. apply in_map_iff.
      exists item. rewrite String.eqb_refl. split; [reflexivity|assumption].
    + rewrite List.length_map. cbn [updateGuestItemQuantity guestItems].
      apply List.length_map.
    + assert (C : getGuestItemCount
                    (updateGuestItemQuantity (sku item) (quantity item + change) state)
                  = totalQuantity (guestItems state) + change).
      { rewrite count_update, getGuestItemCount_total.
        rewrite linesOf_the_line by assumption.
        change (totalQuantity [item]) with (quantity item + 0).
        cbn [List.length]. lia. }
      change (map encode
                (guestItems
                   (updateGuestItemQuantity (sku item) (quantity item + change) state)))
        with (CartStore64.guestItems
                (encodeState
                   (updateGuestItemQuantity (sku item) (quantity item + change) state))).
      assert (S' : safeQuantities
                     (guestItems
                        (updateGuestItemQuantity (sku item) (quantity item + change)
                           state))).
      { split; [|rewrite <- getGuestItemCount_total, C; exact Hhi].
        cbn [updateGuestItemQuantity guestItems]. apply Forall_map.
        eapply Forall_impl; [|exact Hall]. intros i Hi. cbv beta in Hi |- *.
        destruct (String.eqb (sku i) (sku item)); cbn [quantity withQuantity]; lia. }
      rewrite <- C. rewrite <- getGuestItemCount_total in Hle.
      pose proof (count_encode_represents _ S') as R.
      rewrite <- getGuestItemCount_total in R. exact R.
  - split; [lia|]. intros _. reflexivity.
Qed.

Lemma cart_button_changes_one_row_witness :
  CartPage64.handleGuestUpdateQuantity "TSHIRT-M" (JS.ofZ 1) (JS.ofZ 1)
    (encodeState oneTshirt)
  = encodeState (updateGuestItemQuantity "TSHIRT-M" 2 oneTshirt)
  /\ CartPage64.handleGuestUpdateQuantity "TSHIRT-M" (JS.ofZ 1) (JS.ofZ (-1))
       (encodeState oneTshirt)
     = encodeState oneTshirt.
Proof.
  assert (Hin : In (tshirt 1) (guestItems oneTshirt)) by (left; reflexivity).
  assert (ND : NoDup (map sku (guestItems oneTshirt))).
  { constructor; [intros [] | constructor]. }
  assert (Q : safeQuantities (guestItems oneTshirt)).
  { split; [repeat constructor; discriminate|discriminate]. }
  split.
  - refine (proj1 (proj1 (cart_button_changes_one_row oneTshirt (tshirt 1) 1
                            Hin ND Q _ _) eq_refl)); discriminate.
  - refine (proj2 (cart_button_changes_one_row oneTshirt (tshirt 1) (-1)
                     Hin ND Q _ _) _); discriminate.
Defined.
